(** * TVInsider calendar scraper: date resolution, filters and session scope

    A shallow embedding of [src/modules/scraper.py] and
    [src/modules/scraper_optimized.py].

    Conventions of the model.
    - Strings are [string]s of 7-bit characters.  Case mapping and the
      whitespace classes act on the codes below 128 exactly as Python's
      [str] methods and JavaScript's [trim] do there; codes from 128 on are
      carried along unchanged and are neither letters nor whitespace.
    - A record scraped from the page is a Python [dict] whose keys and
      values are strings: [gmap string string].
    - Python exceptions that the program catches with a bare [except] are
      modelled by [option]; exceptions that leave a function are values of
      [exn] in the monad [M] of module [Run], which also records the calls
      made to the browser and holds the local variable [driver].
    - The library functions the program calls ([str.title], [str.strip],
      [datetime.strptime], [datetime.strftime], ...) are modelled in module
      [Py], following CPython's [_strptime.py] and [datetime.py]. *)

From Stdlib Require Import ZArith Ascii String Lia.
From stdpp Require Import base option list gmap strings.

Local Open Scope string_scope.
Local Open Scope Z_scope.

#[global] Arguments String.append !_ _ / : simpl nomatch.

(** ** Python and JavaScript library operations *)

Module Py.

(** *** Characters *)

Definition code (c : ascii) : Z := Z.of_N (N_of_ascii c).

Definition between (lo hi x : Z) : bool := (lo <=? x) && (x <=? hi).

Definition is_upper (c : ascii) : bool := between 65 90 (code c).
Definition is_lower (c : ascii) : bool := between 97 122 (code c).
Definition is_cased (c : ascii) : bool := is_upper c || is_lower c.
Definition is_digit (c : ascii) : bool := between 48 57 (code c).

(** [str.isspace] on one character: TAB, LF, VT, FF, CR, FS, GS, RS, US and
    the space. *)
Definition isspace (c : ascii) : bool :=
  between 9 13 (code c) || between 28 32 (code c).

Definition to_lower (c : ascii) : ascii :=
  if is_upper c then ascii_of_N (N_of_ascii c + 32) else c.
Definition to_upper (c : ascii) : ascii :=
  if is_lower c then ascii_of_N (N_of_ascii c - 32) else c.

(** *** [str] methods *)

(** [s.lower()] *)
Fixpoint lower (s : string) : string :=
  match s with
  | "" => ""
  | String c s' => String (to_lower c) (lower s')
  end.

(** [s.title()]: a cased character is upper-cased when the previous
    character is not cased, and lower-cased otherwise. *)
Fixpoint title_from (previous_is_cased : bool) (s : string) : string :=
  match s with
  | "" => ""
  | String c s' =>
      if is_cased c
      then String (if previous_is_cased then to_lower c else to_upper c)
                  (title_from true s')
      else String c (title_from false s')
  end.
Definition title (s : string) : string := title_from false s.

Fixpoint lstrip (s : string) : string :=
  match s with
  | "" => ""
  | String c s' => if isspace c then lstrip s' else s
  end.

Fixpoint rstrip (s : string) : string :=
  match s with
  | "" => ""
  | String c s' =>
      match rstrip s' with
      | "" => if isspace c then "" else String c ""
      | r => String c r
      end
  end.

(** [s.strip()] *)
Definition strip (s : string) : string := lstrip (rstrip s).

(** [sub in s] *)
Fixpoint contains (sub s : string) : bool :=
  String.prefix sub s ||
  match s with
  | "" => false
  | String _ s' => contains sub s'
  end.

(** [s.replace(old, new)] for a non-empty [old]: occurrences are replaced
    from left to right, without overlap.  [skip] counts the characters of
    an occurrence that remain to be dropped. *)
Fixpoint replace_from (skip : nat) (old new s : string) : string :=
  match s with
  | "" => ""
  | String c s' =>
      match skip with
      | S k => replace_from k old new s'
      | O =>
          if String.prefix old s
          then new +:+ replace_from (Nat.pred (String.length old)) old new s'
          else String c (replace_from O old new s')
      end
  end.
Definition replace (old new s : string) : string := replace_from O old new s.

(** JavaScript's [String.prototype.trim]: WhiteSpace and LineTerminator
    below 128 are TAB, LF, VT, FF, CR and the space. *)
Definition js_isspace (c : ascii) : bool :=
  between 9 13 (code c) || (code c =? 32).

Fixpoint js_trim_start (s : string) : string :=
  match s with
  | "" => ""
  | String c s' => if js_isspace c then js_trim_start s' else s
  end.

Fixpoint js_trim_end (s : string) : string :=
  match s with
  | "" => ""
  | String c s' =>
      match js_trim_end s' with
      | "" => if js_isspace c then "" else String c ""
      | r => String c r
      end
  end.

Definition js_trim (s : string) : string := js_trim_start (js_trim_end s).

(** *** [datetime] *)

(** A naive [datetime]; [tod] is the time of day in microseconds
    (hour, minute, second and microsecond folded into one number). *)
Record datetime := Datetime { year : Z; month : Z; day : Z; tod : Z }.

Definition MINYEAR : Z := 1.
Definition MAXYEAR : Z := 9999.
Definition us_per_day : Z := 86400000000.

Definition _is_leap (y : Z) : bool :=
  (y mod 4 =? 0) && (negb (y mod 100 =? 0) || (y mod 400 =? 0)).

Definition _DAYS_IN_MONTH : list Z :=
  [-1; 31; 28; 31; 30; 31; 30; 31; 31; 30; 31; 30; 31].
Definition _DAYS_BEFORE_MONTH : list Z :=
  [-1; 0; 31; 59; 90; 120; 151; 181; 212; 243; 273; 304; 334].

Definition _days_in_month (y m : Z) : Z :=
  if (m =? 2) && _is_leap y then 29
  else nth (Z.to_nat m) _DAYS_IN_MONTH 0.

Definition _days_before_year (y : Z) : Z :=
  let y := y - 1 in y * 365 + y / 4 - y / 100 + y / 400.

Definition _days_before_month (y m : Z) : Z :=
  nth (Z.to_nat m) _DAYS_BEFORE_MONTH 0
  + (if (2 <? m) && _is_leap y then 1 else 0).

Definition _ymd2ord (y m d : Z) : Z :=
  _days_before_year y + _days_before_month y m + d.

(** [_check_date_fields]: the constructor raises [ValueError] otherwise. *)
Definition check_date_fields (y m d : Z) : bool :=
  between MINYEAR MAXYEAR y && between 1 12 m &&
  between 1 (_days_in_month y m) d.

(** [datetime(y, m, d)]: midnight of that day, or [ValueError]. *)
Definition make_datetime (y m d : Z) : option datetime :=
  if check_date_fields y m d then Some (Datetime y m d 0) else None.

(** [dt.replace(year=y)] *)
Definition replace_year (dt : datetime) (y : Z) : option datetime :=
  if check_date_fields y (month dt) (day dt)
  then Some (Datetime y (month dt) (day dt) (tod dt)) else None.

Definition toordinal (dt : datetime) : Z :=
  _ymd2ord (year dt) (month dt) (day dt).

(** The position of a datetime on the time line, in microseconds.
    Datetimes are compared by it; on the datetimes that [datetime] accepts
    this is Python's comparison, field by field (lemma
    [instant_lt_fields] below). *)
Definition instant (dt : datetime) : Z := toordinal dt * us_per_day + tod dt.

(** [a <= b] *)
Definition dt_leb (a b : datetime) : bool := instant a <=? instant b.

Definition _MAXORDINAL : Z := 3652059.

(** [dt - timedelta(days=n)], as an instant; [OverflowError] when the day
    leaves the range of [date]. *)
Definition minus_days (dt : datetime) (n : Z) : option Z :=
  let days := toordinal dt - n in
  if (0 <? days) && (days <=? _MAXORDINAL)
  then Some (days * us_per_day + tod dt) else None.

Definition digit_char (n : Z) : ascii := ascii_of_N (Z.to_N (48 + n)).

Definition pad2 (n : Z) : string :=
  String (digit_char (n / 10 mod 10)) (String (digit_char (n mod 10)) "").
Definition pad4 (n : Z) : string :=
  String (digit_char (n / 1000 mod 10))
    (String (digit_char (n / 100 mod 10)) (pad2 n)).

(** [dt.strftime("%Y-%m-%d")].  The year is written with four digits, as
    the C library does on Windows, where the program runs (it drives
    chromedriver-win64\chromedriver.exe); glibc leaves out the leading
    zeros of a year below 1000. *)
Definition strftime_iso (dt : datetime) : string :=
  pad4 (year dt) +:+ "-" +:+ pad2 (month dt) +:+ "-" +:+ pad2 (day dt).

(** *** [datetime.strptime]

    CPython turns the format into a regular expression ([TimeRE.pattern]),
    matches it at the start of the text ignoring case, rejects the text
    when the match does not reach its end, and builds the datetime from the
    captured groups.  Only the directives that the program uses are
    modelled: [%A], [%B], [%d], [%m] and [%Y]. *)

Inductive token :=
| TLit (c : ascii)   (* an ordinary character *)
| TSpaces            (* a run of whitespace in the format: \s+ *)
| TWeekday           (* %A *)
| TMonthName         (* %B *)
| TDay               (* %d: 3[0-1]|[1-2]\d|0[1-9]|[1-9]| [1-9] *)
| TMonthNum          (* %m: 1[0-2]|0[1-9]|[1-9] *)
| TYear.             (* %Y: \d\d\d\d *)

Definition directive (c : ascii) : option token :=
  if Ascii.eqb c "A" then Some TWeekday
  else if Ascii.eqb c "B" then Some TMonthName
  else if Ascii.eqb c "d" then Some TDay
  else if Ascii.eqb c "m" then Some TMonthNum
  else if Ascii.eqb c "Y" then Some TYear
  else None.

(** [TimeRE.pattern]: a run of whitespace becomes one [\s+], [%x] becomes
    the expression of the directive, any other character stands for itself. *)
Fixpoint pattern_from (in_spaces : bool) (format : string)
  : option (list token) :=
  match format with
  | "" => Some []
  | String c rest =>
      if isspace c then
        if in_spaces then pattern_from true rest
        else cons TSpaces <$> pattern_from true rest
      else if Ascii.eqb c "%" then
        match rest with
        | "" => None
        | String d rest' =>
            t ← directive d; cons t <$> pattern_from false rest'
        end
      else cons (TLit c) <$> pattern_from false rest
  end.
Definition pattern (format : string) : option (list token) :=
  pattern_from false format.

(** [LocaleTime.f_weekday] and [LocaleTime.f_month] (without its empty
    first entry) in the C locale. *)
Definition f_weekday : list string :=
  ["monday"; "tuesday"; "wednesday"; "thursday"; "friday"; "saturday";
   "sunday"].
Definition f_month : list string :=
  ["january"; "february"; "march"; "april"; "may"; "june"; "july";
   "august"; "september"; "october"; "november"; "december"].

(** [__seqToRE] lists the alternatives longest first, keeping the order of
    names of equal length ([sorted(..., key=len, reverse=True)]). *)
Fixpoint insert_by_length (x : string) (l : list string) : list string :=
  match l with
  | [] => [x]
  | y :: l' =>
      if (String.length y <=? String.length x)%nat then x :: l
      else y :: insert_by_length x l'
  end.
Definition seqToRE (names : list string) : list string :=
  foldr insert_by_length [] names.

(** Position of [x] in [l], as [list.index] gives it. *)
Fixpoint index_of (x : string) (l : list string) : option Z :=
  match l with
  | [] => None
  | y :: l' => if String.eqb x y then Some 0 else Z.succ <$> index_of x l'
  end.

(** Matching [w] at the start of [s] ignoring case; the rest of [s]. *)
Fixpoint eat_ci (w s : string) : option string :=
  match w, s with
  | "", _ => Some s
  | String a w', String b s' =>
      if Ascii.eqb (to_lower a) (to_lower b) then eat_ci w' s' else None
  | String _ _, "" => None
  end.

Definition digit_val (c : ascii) : Z := code c - 48.

(** The groups captured so far. *)
Record groups := Groups { g_year : option Z; g_month : Z; g_day : Z }.

(** Every way one token matches at the start of [s], in the order in which
    the backtracking matcher tries them, each with the groups it leaves and
    the rest of the text. *)
Definition match_names (names : list string) (s : string)
  : list (Z * string) :=
  flat_map (λ w, match eat_ci w s, index_of w names with
                 | Some rest, Some i => [(i, rest)]
                 | _, _ => []
                 end) (seqToRE names).

Fixpoint match_spaces (s : string) : list string :=
  match s with
  | "" => []
  | String c s' => if isspace c then match_spaces s' ++ [s'] else []
  end.

Definition match_day (s : string) : list (Z * string) :=
  match s with
  | String a (String b r) =>
      (if Ascii.eqb a "3" && between 48 49 (code b)
       then [(30 + digit_val b, r)] else []) ++
      (if between 49 50 (code a) && is_digit b
       then [(10 * digit_val a + digit_val b, r)] else []) ++
      (if Ascii.eqb a "0" && between 49 57 (code b)
       then [(digit_val b, r)] else []) ++
      (if between 49 57 (code a)
       then [(digit_val a, String b r)] else []) ++
      (if Ascii.eqb a " " && between 49 57 (code b)
       then [(digit_val b, r)] else [])
  | String a "" =>
      if between 49 57 (code a) then [(digit_val a, "")] else []
  | "" => []
  end.

Definition match_month_num (s : string) : list (Z * string) :=
  match s with
  | String a (String b r) =>
      (if Ascii.eqb a "1" && between 48 50 (code b)
       then [(10 + digit_val b, r)] else []) ++
      (if Ascii.eqb a "0" && between 49 57 (code b)
       then [(digit_val b, r)] else []) ++
      (if between 49 57 (code a)
       then [(digit_val a, String b r)] else [])
  | String a "" =>
      if between 49 57 (code a) then [(digit_val a, "")] else []
  | "" => []
  end.

Definition match_year (s : string) : list (Z * string) :=
  match s with
  | String a (String b (String c (String d r))) =>
      if is_digit a && is_digit b && is_digit c && is_digit d
      then [(1000 * digit_val a + 100 * digit_val b
             + 10 * digit_val c + digit_val d, r)]
      else []
  | _ => []
  end.

Definition match_token (t : token) (g : groups) (s : string)
  : list (groups * string) :=
  match t with
  | TLit c =>
      match s with
      | String b r =>
          if Ascii.eqb (to_lower c) (to_lower b) then [(g, r)] else []
      | "" => []
      end
  | TSpaces => (λ r, (g, r)) <$> match_spaces s
  | TWeekday => (λ '(_, r), (g, r)) <$> match_names f_weekday s
  | TMonthName =>
      (λ '(i, r), (Groups (g_year g) (i + 1) (g_day g), r))
        <$> match_names f_month s
  | TDay => (λ '(d, r), (Groups (g_year g) (g_month g) d, r)) <$> match_day s
  | TMonthNum =>
      (λ '(m, r), (Groups (g_year g) m (g_day g), r)) <$> match_month_num s
  | TYear =>
      (λ '(y, r), (Groups (Some y) (g_month g) (g_day g), r))
        <$> match_year s
  end.

Fixpoint match_tokens (ts : list token) (g : groups) (s : string)
  : list (groups * string) :=
  match ts with
  | [] => [(g, s)]
  | t :: ts' =>
      flat_map (λ '(g', s'), match_tokens ts' g' s') (match_token t g s)
  end.

(** The datetime of the captured groups.  Without a year the default is
    1900; for February 29 the day of the year is computed in 1904, after
    which the year is set back to 1900, a date that [datetime] rejects.
    The weekday named in the text is not compared with the date. *)
Definition datetime_of_groups (g : groups) : option datetime :=
  let '(y, leap_year_fix) :=
    match g_year g with
    | Some y => (y, false)
    | None =>
        if (g_month g =? 2) && (g_day g =? 29) then (1904, true)
        else (1900, false)
    end in
  _ ← make_datetime y (g_month g) (g_day g);
  make_datetime (if leap_year_fix then 1900 else y) (g_month g) (g_day g).

(** [datetime.strptime(data_string, format)]; [None] is [ValueError]. *)
Definition strptime (data_string format : string) : option datetime :=
  ts ← pattern format;
  match match_tokens ts (Groups None 1 1) data_string with
  | (g, "") :: _ => datetime_of_groups g
  | _ => None
  end.

End Py.

(** ** Exceptions, the driver and the effects of a scrape *)

Module Run.
Import Py.

(** The classes of exception that the handlers of the program tell apart.
    [requests]' [ConnectionError] and [Timeout] derive from [OSError];
    [BaseExceptionC] stands for [KeyboardInterrupt] and the like, which
    [except Exception] lets through. *)
Inductive exn_class :=
| BaseExceptionC
| ExceptionC
| ValueErrorC
| OSErrorC
| WebDriverExceptionC
| ConnectionErrorC
| TimeoutC.

Record exn := Exn { exn_cls : exn_class; exn_str : string }.

Definition is_Exception (e : exn) : bool :=
  match exn_cls e with BaseExceptionC => false | _ => true end.
Definition is_OSError (e : exn) : bool :=
  match exn_cls e with
  | OSErrorC | ConnectionErrorC | TimeoutC => true
  | _ => false
  end.
Definition is_WebDriverException (e : exn) : bool :=
  match exn_cls e with WebDriverExceptionC => true | _ => false end.
Definition is_ConnectionError (e : exn) : bool :=
  match exn_cls e with ConnectionErrorC => true | _ => false end.
Definition is_Timeout (e : exn) : bool :=
  match exn_cls e with TimeoutC => true | _ => false end.

Inductive outcome (A : Type) :=
| Returns (a : A)
| Raises (e : exn).
Arguments Returns {A} a.
Arguments Raises {A} e.

(** The part of a child of [main section] that the extraction script
    reads.  A query that finds no node is [None]. *)
Record element := Element {
  tagName : string;
  textContent : string;
  div_h3 : option string;            (* querySelector('div h3')?.textContent *)
  div_h5 : option string;            (* querySelector('div h5')?.textContent *)
  div_p : option string;             (* querySelector('div p')?.textContent *)
  img_first : option (string * string);
                                     (* alt and src of 'img:first-child' *)
  img_second : option string;        (* src of 'img:nth-child(2)' *)
  href : string                      (* elem.href *)
}.

(** What the world answers to the calls of one scrape.  Heights are indexed
    by the iteration of the scroll loop, clock readings by the position of
    the record being resolved. *)
Record env := Env {
  requests_get : outcome Z;          (* status code of the connectivity test *)
  path_exists : bool;                (* os.path.exists(chrome_driver_path) *)
  webdriver_Chrome : outcome unit;
  maximize_window : outcome unit;
  set_page_load_timeout : outcome unit;
  implicitly_wait : outcome unit;
  now_year : Z;                      (* datetime.now().year *)
  driver_get : outcome unit;
  height_before : nat → outcome Z;   (* scrollHeight before scroll i *)
  scroll_to : nat → outcome unit;
  height_after : nat → outcome Z;    (* scrollHeight after scroll i *)
  main_section : outcome (option (list element));
                                     (* children of 'main section', if any,
                                        when the extraction script runs *)
  now_at : nat → datetime;           (* datetime.now() for record i *)
  driver_quit : outcome unit
}.

(** Calls that reach the world, in the order in which they are made. *)
Inductive event :=
| EvRequest
| EvChrome
| EvConfigure
| EvGet
| EvHeight
| EvScroll
| EvExtract
| EvQuit.

Inductive driver_handle := Driver.

(** The local variable [driver] and the calls made so far. *)
Record state := State { var_driver : option driver_handle; trace : list event }.

Definition M (A : Type) : Type := state → outcome A * state.

Global Instance M_ret : MRet M := λ A a σ, (Returns a, σ).
Global Instance M_bind : MBind M := λ A B f m σ,
  match m σ with
  | (Returns a, σ') => f a σ'
  | (Raises e, σ') => (Raises e, σ')
  end.

Definition raise {A} (e : exn) : M A := λ σ, (Raises e, σ).

(** A call to the world: it is recorded, then returns or raises. *)
Definition call {A} (ev : event) (o : outcome A) : M A :=
  λ σ, (o, State (var_driver σ) (trace σ ++ [ev])).

Definition set_driver (d : option driver_handle) : M unit :=
  λ σ, (Returns tt, State d (trace σ)).
Definition get_driver : M (option driver_handle) :=
  λ σ, (Returns (var_driver σ), σ).

(** [try: m  except C1 as e: h1 e  except C2 as e: h2 e ...]: the first
    clause whose class test accepts the exception handles it; what a
    handler raises is not offered to the other clauses. *)
Definition handler (A : Type) : Type := (exn → bool) * (exn → M A).

Fixpoint select_handler {A} (clauses : list (handler A)) (e : exn)
  : option (M A) :=
  match clauses with
  | [] => None
  | (accepts, h) :: rest =>
      if accepts e then Some (h e) else select_handler rest e
  end.

Definition try_except {A} (m : M A) (clauses : list (handler A)) : M A :=
  λ σ, match m σ with
       | (Raises e, σ') =>
           match select_handler clauses e with
           | Some h => h σ'
           | None => (Raises e, σ')
           end
       | r => r
       end.

(** [try: m  finally: f]: [f] runs whether [m] returns or raises; an
    exception of [f] replaces the result. *)
Definition try_finally {A} (m : M A) (f : M unit) : M A :=
  λ σ, match m σ with
       | (r, σ') =>
           match f σ' with
           | (Returns _, σ'') => (r, σ'')
           | (Raises e, σ'') => (Raises e, σ'')
           end
       end.

(** [for i in l: body i], where [body] answers [true] to [break]. *)
Fixpoint for_break (l : list nat) (body : nat → M bool) : M unit :=
  match l with
  | [] => mret tt
  | i :: l' => stop ← body i; if stop : bool then mret tt else for_break l' body
  end.

(** A value or [ValueError]. *)
Definition or_ValueError {A} (o : option A) (msg : string) : M A :=
  match o with Some a => mret a | None => raise (Exn ValueErrorC msg) end.

(** [item.get(key, default)] *)
Definition get (item : gmap string string) (key default_ : string) : string :=
  from_option id default_ (item !! key).

(** JavaScript's [x?.field || ''] *)
Definition or_empty (o : option string) : string := from_option id "" o.

End Run.

(** ** [src/modules/scraper.py] *)

Module Scraper.
Import Py Run.

Record config := Config {
  base_url : string;
  timeout : Z;
  headless : bool;
  scrape_method : string
}.

Definition chrome_driver_path : string := "chromedriver-win64\chromedriver.exe".

Definition _init_driver (cfg : config) (w : env) : M driver_handle :=
  (if negb (path_exists w)
   then raise (Exn ExceptionC
     ("ChromeDriver not found at " +:+ chrome_driver_path +:+
      ". Please ensure chromedriver.exe is in the chromedriver-win64 folder."))
   else mret tt);;
  try_except
    (call EvChrome (webdriver_Chrome w);;
     (if negb (headless cfg)
      then call EvConfigure (maximize_window w) else mret tt);;
     call EvConfigure (set_page_load_timeout w);;
     call EvConfigure (implicitly_wait w);;
     mret Driver)
    [(is_OSError,
      λ e,
        if contains "WinError 193" (exn_str e)
           || contains "not a valid Win32 application" (exn_str e)
        then raise (Exn ExceptionC
          ("ChromeDriver architecture mismatch detected. " +:+
           "Please run 'python fix_chromedriver.py' to download the correct version for your system."))
        else raise (Exn ExceptionC ("Chrome driver error: " +:+ exn_str e)));
     (is_WebDriverException,
      λ e,
        if contains "chromedriver" (lower (exn_str e))
        then raise (Exn ExceptionC
          ("ChromeDriver not found or incompatible. " +:+
           "Please run 'python fix_chromedriver.py' to fix this issue."))
        else raise (Exn ExceptionC
          ("Failed to start Chrome. Please ensure Chrome browser is installed. Error: "
           +:+ exn_str e)))].

(** The scroll loop of [_scrape_by_date_navigation]. *)
Definition max_scrolls : nat := 10.

Definition scroll_body (w : env) (i : nat) : M bool :=
  last_height ← call EvHeight (height_before w i);
  call EvScroll (scroll_to w i);;
  new_height ← call EvHeight (height_after w i);
  mret (new_height =? last_height).

Definition scroll_loop (w : env) : M unit :=
  for_break (seq 0 max_scrolls) (scroll_body w).

(** The script [extractAllData]: one step of its [for] loop over
    [section.children], on the pair of [currentDate] and [results]. *)
Definition make_item (currentDate : string) (elem : element)
  : gmap string string :=
  list_to_map
    [("date_header", currentDate);
     ("name", or_empty (div_h3 elem));
     ("type", or_empty (div_h5 elem));
     ("description", or_empty (div_p elem));
     ("channel", or_empty (fst <$> img_first elem));
     ("channel_image", or_empty (snd <$> img_first elem));
     ("show_image", or_empty (img_second elem));
     ("website", href elem);
     ("website_url", "");
     ("country", "US")].

Definition extract_step (acc : string * list (gmap string string))
    (elem : element) : string * list (gmap string string) :=
  let '(currentDate, results) := acc in
  if String.eqb (tagName elem) "H6" then
    (js_trim (textContent elem), results)
  else if String.eqb (tagName elem) "A" && negb (String.eqb currentDate "")
  then
    let item := make_item currentDate elem in
    if negb (String.eqb (or_empty (item !! "name")) "")
    then (currentDate, (results ++ [item])%list)
    else (currentDate, results)
  else (currentDate, results).

Definition extractAllData (section : option (list element))
  : list (gmap string string) :=
  match section with
  | None => []
  | Some elements => snd (fold_left extract_step elements ("", []))
  end.

(** The formats of [_parse_date_optimized], in the order of the source. *)
Definition formats : list string :=
  ["%A, %B %d, %Y";  (* Friday, December 15, 2024 *)
   "%B %d, %Y";      (* December 15, 2024 *)
   "%A, %B %d";      (* Friday, August 21 *)
   "%B %d"].         (* August 21 *)

(** The body of the [try] block for one format; [None] when it raises.
    [today] is the value of [datetime.now()] read inside the block.  Only
    the blocks of the two formats without a year read the clock, and no
    text is read by both (lemma [yearless_formats_exclusive] below), so a
    call of the resolver reads the clock at most once. *)
Definition try_format (today : datetime) (date_text : string)
    (current_year : Z) (fmt : string) : option string :=
  date_obj ← strptime date_text fmt;
  date_obj ←
    (if negb (contains "%Y" fmt) then
       date_obj ← replace_year date_obj current_year;
       limit ← minus_days today 30;
       if instant date_obj <? limit
       then replace_year date_obj (current_year + 1)
       else Some date_obj
     else Some date_obj);
  Some (strftime_iso date_obj).

(** The [for fmt in formats] loop: the first format whose block does not
    raise returns. *)
Fixpoint try_formats (today : datetime) (date_text : string)
    (current_year : Z) (fmts : list string) : option string :=
  match fmts with
  | [] => None
  | fmt :: rest =>
      match try_format today date_text current_year fmt with
      | Some r => Some r
      | None => try_formats today date_text current_year rest
      end
  end.

Definition _parse_date_optimized (today : datetime) (date_text : string)
    (current_year : Z) : option string :=
  if String.eqb date_text "" then None
  else
    let date_text := title (strip date_text) in
    try_formats today date_text current_year formats.

(** The body of the loop "Process dates and filter" for one item: the
    item as it is appended to [filtered_data], or [None] when it is not.
    [item['channel']] raises [KeyError] on an item without that key, which
    the bare [except] swallows. *)
Definition process_item (today start end_ : datetime) (current_year : Z)
    (item : gmap string string) : option (gmap string string) :=
  let date_text := get item "date_header" "" in
  match _parse_date_optimized today date_text current_year with
  | None => None
  | Some parsed_date =>
      if String.eqb parsed_date "" then None
      else
        let item := <["date" := parsed_date]> item in
        match strptime parsed_date "%Y-%m-%d" with
        | None => None
        | Some item_date =>
            if dt_leb start item_date && dt_leb item_date end_ then
              let item := delete "date_header" item in
              channel ← item !! "channel";
              Some (<["channel" := replace "Parmount+" "Paramount+" channel]>
                      item)
            else None
        end
  end.

(** The loop over [all_data]; the [i]-th item reads the clock [now_at w i]. *)
Fixpoint process_items (w : env) (start end_ : datetime) (current_year : Z)
    (i : nat) (all_data : list (gmap string string))
  : list (gmap string string) :=
  match all_data with
  | [] => []
  | item :: rest =>
      match process_item (now_at w i) start end_ current_year item with
      | Some item' =>
          item' :: process_items w start end_ current_year (S i) rest
      | None => process_items w start end_ current_year (S i) rest
      end
  end.

Definition in_date_range (start end_ : datetime) (item : gmap string string)
  : bool :=
  if String.eqb (get item "date" "") "" then true   (* no date: included *)
  else
    match strptime (get item "date" "") "%Y-%m-%d" with
    | Some item_date => dt_leb start item_date && dt_leb item_date end_
    | None => true                                  (* parsing fails: included *)
    end.

Definition _filter_by_date_range (items : list (gmap string string))
    (start_date end_date : string) : list (gmap string string) :=
  match strptime start_date "%Y-%m-%d", strptime end_date "%Y-%m-%d" with
  | Some start, Some end_ => List.filter (in_date_range start end_) items
  | _, _ => items
  end.

Definition excluded_keywords : list string :=
  ["Sports"; "VOD / Buy / Rent"; "YouTube"; "Fox Soccer Plus";
   "ESPN"; "Gold Channel"; "Baseball"; "Cup"; "Football"; "Championship";
   "WWE"; "NFL"; "Tennis"; "Formula 1"; "NBA"; "Apple TV+"; "Soccer";
   "Boxing"; "UFC"; "MMA"; "Golf"; "Hockey"; "Cricket"; "Rugby"].

Definition content_text (item : gmap string string) : string :=
  get item "name" "" +:+ " " +:+ get item "type" "" +:+ " "
  +:+ get item "channel" "".

Definition _filter_excluded_content (items : list (gmap string string))
  : list (gmap string string) :=
  List.filter
    (λ item,
       negb (existsb (λ keyword,
                        contains (lower keyword) (lower (content_text item)))
                     excluded_keywords))
    items.

Definition _scrape_by_date_navigation (cfg : config) (w : env)
    (start_date end_date : string) : M (list (gmap string string)) :=
  set_driver None;;
  try_finally
    (try_except
       (driver ← _init_driver cfg w;
        set_driver (Some driver);;
        start ← or_ValueError (strptime start_date "%Y-%m-%d") start_date;
        end_ ← or_ValueError (strptime end_date "%Y-%m-%d") end_date;
        let current_year := now_year w in
        try_except (call EvGet (driver_get w))
          [(is_Exception,
            λ e,
              if contains "timeout" (lower (exn_str e))
              then raise (Exn ExceptionC
                "Website timeout: The TVInsider website is not responding. Please try again later.")
              else raise e)];;
        scroll_loop w;;
        section ← call EvExtract (main_section w);
        let all_data := extractAllData section in
        let filtered_data :=
          process_items w start end_ current_year 0 all_data in
        let filtered_data := _filter_excluded_content filtered_data in
        mret filtered_data)
       [(is_Exception, λ e, raise e)])
    (driver ← get_driver;
     match driver with
     | Some _ => call EvQuit (driver_quit w)
     | None => mret tt
     end).

Definition _scrape_full_calendar_and_filter (cfg : config) (w : env)
    (start_date end_date : string) : M (list (gmap string string)) :=
  _scrape_by_date_navigation cfg w start_date end_date.

Definition scrape_date_range (cfg : config) (w : env)
    (start_date end_date : string) : M (list (gmap string string)) :=
  try_except
    (call EvRequest (requests_get w);; mret tt)
    [(is_ConnectionError,
      λ _, raise (Exn ExceptionC
        "Cannot connect to TVInsider.com. Please check your internet connection."));
     (is_Timeout,
      λ _, raise (Exn ExceptionC
        "Connection to TVInsider.com timed out. The site may be slow or unavailable."));
     (is_Exception, λ _, mret tt)];;
  if String.eqb (scrape_method cfg) "full_page"
  then _scrape_full_calendar_and_filter cfg w start_date end_date
  else _scrape_by_date_navigation cfg w start_date end_date.

End Scraper.

(** ** [src/modules/scraper_optimized.py] *)

Module ScraperOptimized.
Import Py Run.

Record config := Config {
  base_url : string;
  timeout : Z;
  headless : bool
}.

Definition chrome_driver_path : string := "chromedriver-win64\chromedriver.exe".

Definition _init_driver (cfg : config) (w : env) : M driver_handle :=
  (if negb (path_exists w)
   then raise (Exn ExceptionC
                 ("ChromeDriver not found at " +:+ chrome_driver_path))
   else mret tt);;
  try_except
    (call EvChrome (webdriver_Chrome w);;
     call EvConfigure (set_page_load_timeout w);;
     mret Driver)
    [(is_WebDriverException,
      λ e, raise (Exn ExceptionC ("Failed to start Chrome: " +:+ exn_str e)))].

Definition formats : list string :=
  ["%A, %B %d, %Y";  (* Friday, December 15, 2024 *)
   "%B %d, %Y";      (* December 15, 2024 *)
   "%A, %B %d";      (* Friday, August 21 *)
   "%B %d"].         (* August 21 *)

Definition try_format (today : datetime) (date_text : string)
    (current_year : Z) (fmt : string) : option string :=
  date_obj ← strptime date_text fmt;
  date_obj ←
    (if negb (contains "%Y" fmt) then
       date_obj ← replace_year date_obj current_year;
       limit ← minus_days today 30;
       if instant date_obj <? limit
       then replace_year date_obj (current_year + 1)
       else Some date_obj
     else Some date_obj);
  Some (strftime_iso date_obj).

Fixpoint try_formats (today : datetime) (date_text : string)
    (current_year : Z) (fmts : list string) : option string :=
  match fmts with
  | [] => None
  | fmt :: rest =>
      match try_format today date_text current_year fmt with
      | Some r => Some r
      | None => try_formats today date_text current_year rest
      end
  end.

Definition _parse_date (today : datetime) (date_text : string)
    (current_year : Z) : option string :=
  if String.eqb date_text "" then None
  else
    let date_text := title (strip date_text) in
    try_formats today date_text current_year formats.

Definition excluded_keywords : list string :=
  ["Sports"; "VOD / Buy / Rent"; "YouTube"; "Fox Soccer Plus";
   "ESPN"; "Gold Channel"; "Baseball"; "Cup"; "Football"; "Championship";
   "WWE"; "NFL"; "Tennis"; "Formula 1"; "NBA"; "Apple TV+"; "Soccer";
   "Boxing"; "UFC"; "MMA"; "Golf"; "Hockey"; "Cricket"; "Rugby"].

Definition content_text (item : gmap string string) : string :=
  get item "name" "" +:+ " " +:+ get item "type" "" +:+ " "
  +:+ get item "channel" "".

Definition _filter_excluded_content (items : list (gmap string string))
  : list (gmap string string) :=
  List.filter
    (λ item,
       negb (existsb (λ keyword,
                        contains (lower keyword) (lower (content_text item)))
                     excluded_keywords))
    items.

Definition max_scrolls : nat := 10.

Definition scroll_body (w : env) (i : nat) : M bool :=
  last_height ← call EvHeight (height_before w i);
  call EvScroll (scroll_to w i);;
  new_height ← call EvHeight (height_after w i);
  mret (new_height =? last_height).

Definition scroll_loop (w : env) : M unit :=
  for_break (seq 0 max_scrolls) (scroll_body w).

Definition make_item (currentDate : string) (elem : element)
  : gmap string string :=
  list_to_map
    [("date_header", currentDate);
     ("name", or_empty (div_h3 elem));
     ("type", or_empty (div_h5 elem));
     ("description", or_empty (div_p elem));
     ("channel", or_empty (fst <$> img_first elem));
     ("channel_image", or_empty (snd <$> img_first elem));
     ("show_image", or_empty (img_second elem));
     ("website", href elem)].

Definition extract_step (acc : string * list (gmap string string))
    (elem : element) : string * list (gmap string string) :=
  let '(currentDate, results) := acc in
  if String.eqb (tagName elem) "H6" then
    (js_trim (textContent elem), results)
  else if String.eqb (tagName elem) "A" && negb (String.eqb currentDate "")
  then
    let item := make_item currentDate elem in
    if negb (String.eqb (or_empty (item !! "name")) "")
    then (currentDate, (results ++ [item])%list)
    else (currentDate, results)
  else (currentDate, results).

Definition extractAllData (section : option (list element))
  : list (gmap string string) :=
  match section with
  | None => []
  | Some elements => snd (fold_left extract_step elements ("", []))
  end.

Definition process_item (today start end_ : datetime) (current_year : Z)
    (item : gmap string string) : option (gmap string string) :=
  let date_text := get item "date_header" "" in
  match _parse_date today date_text current_year with
  | None => None
  | Some parsed_date =>
      if String.eqb parsed_date "" then None
      else
        let item := <["date" := parsed_date]> item in
        match strptime parsed_date "%Y-%m-%d" with
        | None => None
        | Some item_date =>
            if dt_leb start item_date && dt_leb item_date end_ then
              let item := delete "date_header" item in
              channel ← item !! "channel";
              Some (<["channel" := replace "Parmount+" "Paramount+" channel]>
                      item)
            else None
        end
  end.

Fixpoint process_items (w : env) (start end_ : datetime) (current_year : Z)
    (i : nat) (all_data : list (gmap string string))
  : list (gmap string string) :=
  match all_data with
  | [] => []
  | item :: rest =>
      match process_item (now_at w i) start end_ current_year item with
      | Some item' =>
          item' :: process_items w start end_ current_year (S i) rest
      | None => process_items w start end_ current_year (S i) rest
      end
  end.

Definition scrape_date_range (cfg : config) (w : env)
    (start_date end_date : string) : M (list (gmap string string)) :=
  set_driver None;;
  try_finally
    (try_except
       (driver ← _init_driver cfg w;
        set_driver (Some driver);;
        start ← or_ValueError (strptime start_date "%Y-%m-%d") start_date;
        end_ ← or_ValueError (strptime end_date "%Y-%m-%d") end_date;
        let current_year := now_year w in
        call EvGet (driver_get w);;
        scroll_loop w;;
        section ← call EvExtract (main_section w);
        let all_data := extractAllData section in
        let filtered_data :=
          process_items w start end_ current_year 0 all_data in
        let filtered_data := _filter_excluded_content filtered_data in
        mret filtered_data)
       [(is_Exception, λ e, raise e)])
    (driver ← get_driver;
     match driver with
     | Some _ => call EvQuit (driver_quit w)
     | None => mret tt
     end).

End ScraperOptimized.

(** ** Notions of the specification *)

Module Spec.
Import Py Run.

(** [kw] occurs in [text] when case is ignored. *)
Definition occurs_ci (kw text : string) : Prop :=
  ∃ pre post, lower text = pre +:+ lower kw +:+ post.

(** Some term of the exclusion vocabulary occurs in [text]. *)
Definition excluded_by (text : string) : Prop :=
  ∃ kw, In kw Scraper.excluded_keywords ∧ occurs_ci kw text.

(** The text [name + type + channel] of a record. *)
Definition joined (item : gmap string string) : string :=
  get item "name" "" +:+ get item "type" "" +:+ get item "channel" "".

(** The same three fields with a space between neighbours. *)
Definition spaced (item : gmap string string) : string :=
  get item "name" "" +:+ " " +:+ get item "type" "" +:+ " "
  +:+ get item "channel" "".

(** [item] was made from a listing element of [elements] that follows the
    date header [header], the last one before it. *)
Definition under_header (make : string → element → gmap string string)
    (elements : list element)
    (item : gmap string string) : Prop :=
  ∃ before header between elem after,
    elements = (before ++ header :: between ++ elem :: after)%list ∧
    tagName header = "H6" ∧
    Forall (λ e, tagName e ≠ "H6") between ∧
    tagName elem = "A" ∧
    js_trim (textContent header) ≠ "" ∧
    or_empty (item !! "name") ≠ "" ∧
    item = make (js_trim (textContent header)) elem.

(** [item] was made from a listing element of [elements] that no header
    precedes, under the date [currentDate] in force at the start. *)
Definition under_current (make : string → element → gmap string string)
    (currentDate : string) (elements : list element)
    (item : gmap string string) : Prop :=
  ∃ between elem after,
    elements = (between ++ elem :: after)%list ∧
    Forall (λ e, tagName e ≠ "H6") between ∧
    tagName elem = "A" ∧
    currentDate ≠ "" ∧
    or_empty (item !! "name") ≠ "" ∧
    item = make currentDate elem.

(** A computation is quiet when it leaves the variable [driver] alone and
    does not quit the session. *)
Definition quiet {A} (m : M A) : Prop :=
  ∀ σ, var_driver (m σ).2 = var_driver σ
       ∧ ∃ tr, trace (m σ).2 = (trace σ ++ tr)%list ∧ ¬ In EvQuit tr.

(** The calls [tr] of an execution in the world [w] acquire a browser
    session when [webdriver.Chrome] is called and returns a browser.  The
    session is torn down when [driver.quit()] is called, and leaked when it
    is acquired and not torn down. *)
Definition session_acquired (w : env) (tr : list event) : Prop :=
  webdriver_Chrome w = Returns tt ∧ In EvChrome tr.

Definition session_leaked (w : env) (tr : list event) : Prop :=
  session_acquired w tr ∧ ¬ In EvQuit tr.

(** The text has the shape YYYY-MM-DD. *)
Definition iso_form (s : string) : bool :=
  match s with
  | String y1 (String y2 (String y3 (String y4 (String h1
      (String m1 (String m2 (String h2 (String d1 (String d2 ""))))))))) =>
      is_digit y1 && is_digit y2 && is_digit y3 && is_digit y4
      && Ascii.eqb h1 "-" && is_digit m1 && is_digit m2
      && Ascii.eqb h2 "-" && is_digit d1 && is_digit d2
  | _ => false
  end.

(** The fields that every emitted record carries besides its name and
    its date. *)
Definition other_fields : list string :=
  ["type"; "description"; "channel"; "channel_image"; "show_image";
   "website"].

(** A record as the extraction pass makes it: named, with the fields of
    the script. *)
Definition extracted_ok (item : gmap string string) : Prop :=
  (∃ name, item !! "name" = Some name ∧ name ≠ "") ∧
  Forall (λ key, is_Some (item !! key)) other_fields.

(** What the pipeline promises of a record it returns for the request
    [start_date], [end_date]: a non-empty name; a date of the shape
    YYYY-MM-DD that names a day of the calendar from [start_date] to
    [end_date], both included; and the other fields present. *)
Definition emitted_ok (start_date end_date : string)
    (item : gmap string string) : Prop :=
  (∃ name, item !! "name" = Some name ∧ name ≠ "") ∧
  (∃ date d start end_,
     item !! "date" = Some date
     ∧ iso_form date = true
     ∧ strptime date "%Y-%m-%d" = Some d
     ∧ strptime start_date "%Y-%m-%d" = Some start
     ∧ strptime end_date "%Y-%m-%d" = Some end_
     ∧ toordinal start <= toordinal d <= toordinal end_) ∧
  Forall (λ key, is_Some (item !! key)) other_fields.

(** The number of scrolls among the calls [tr]. *)
Definition scrolls (tr : list event) : nat :=
  length (List.filter (λ ev, match ev with EvScroll => true | _ => false end)
            tr).

(** The calls of one full iteration of the scroll loop. *)
Definition iteration : list event := [EvHeight; EvScroll; EvHeight].

(** Counting iterations from [i] on, the [k]-th is the first whose scroll
    leaves the height unchanged, and the calls up to it return. *)
Definition first_stable_from (w : env) (i k : nat) : Prop :=
  ∀ j, (j < k)%nat →
       ∃ a b, height_before w (i + j) = Returns a
              ∧ scroll_to w (i + j) = Returns tt
              ∧ height_after w (i + j) = Returns b
              ∧ (b = a ↔ S j = k).

(** Iteration [k], counted from 1, is the first in which the height after
    the scroll equals the height before it. *)
Definition first_stable (w : env) (k : nat) : Prop := first_stable_from w 0 k.

(** No scroll of the first [n] leaves the height unchanged. *)
Definition never_stable (w : env) (n : nat) : Prop :=
  ∀ j, (j < n)%nat →
       ∃ a b, height_before w j = Returns a
              ∧ scroll_to w j = Returns tt
              ∧ height_after w j = Returns b
              ∧ b ≠ a.

(** The first of the formats [fmts], in their order, that matches the text
    [t], with the datetime read from [t]. *)
Fixpoint first_match (fmts : list string) (t : string)
  : option (string * datetime) :=
  match fmts with
  | [] => None
  | fmt :: rest =>
      match strptime t fmt with
      | Some d => Some (fmt, d)
      | None => first_match rest t
      end
  end.

(** The format names a year. *)
Definition has_year (fmt : string) : bool := contains "%Y" fmt.

(** [d] lies more than 30 days before [now]. *)
Definition more_than_30_days_before (d now : datetime) : bool :=
  instant d + 30 * us_per_day <? instant now.

(** The day and month of [d] in the year [y]. *)
Definition in_year (y : Z) (d : datetime) : datetime :=
  Datetime y (month d) (day d) (tod d).

(** The date of a header that the format [fmt] read as [d]: as read when
    the format names a year; otherwise in the current year, or in the year
    after it when that date lies more than 30 days before [now]. *)
Definition resolved (now : datetime) (current_year : Z) (fmt : string)
    (d : datetime) : datetime :=
  if has_year fmt then d
  else if more_than_30_days_before (in_year current_year d) now
       then in_year (current_year + 1) d
       else in_year current_year d.

(** A datetime that [datetime] accepts. *)
Definition valid (d : datetime) : Prop :=
  check_date_fields (year d) (month d) (day d) = true ∧ 0 <= tod d < us_per_day.

(** The order in which Python compares two datetimes: field by field. *)
Definition fields_lt (a b : datetime) : Prop :=
  year a < year b
  ∨ (year a = year b
     ∧ (month a < month b
        ∨ (month a = month b
           ∧ (day a < day b ∨ (day a = day b ∧ tod a < tod b))))).

(** The clock and the current year are ones for which the arithmetic of
    the resolver stays within the range of [datetime]: the year after the
    current one exists, and the day 30 days before [now] does. *)
Definition in_range (now : datetime) (current_year : Z) : Prop :=
  1 <= current_year <= 9998 ∧ 30 < toordinal now <= _MAXORDINAL.

End Spec.

(** ** Example inputs *)

Module Examples.
Import Py Run.

Definition header (text : string) : element :=
  Element "H6" text None None None None None "".

Definition listing (name channel : string) : element :=
  Element "A" "" (Some name) (Some "Series") None (Some (channel, "logo.png"))
    None "https://www.tvinsider.com/show/".

(** The page of the end-to-end scenario of the specification. *)
Definition page : list element :=
  [header "Monday, June 2, 2025"; listing "Show A" "Netflix";
   listing "" "Hulu"; header "Tuesday, June 3, 2025";
   listing "Show B" "ESPN"].

(** A world in which every call returns, the page grows by two scrolls and
    the third scroll leaves its height unchanged. *)
Definition world : env :=
  Env (Returns 200) true (Returns tt) (Returns tt) (Returns tt) (Returns tt)
    2025 (Returns tt)
    (λ i, Returns (Z.min 3000 (1000 * Z.of_nat (S i))))
    (λ _, Returns tt)
    (λ i, Returns (Z.min 3000 (1000 * Z.of_nat (S (S i)))))
    (Returns (Some page))
    (λ _, Datetime 2025 5 20 0)
    (Returns tt).

Definition cfg : Scraper.config :=
  Scraper.Config "https://www.tvinsider.com/shows/calendar/" 30 true
    "date_range".

Definition cfg_optimized : ScraperOptimized.config :=
  ScraperOptimized.Config "https://www.tvinsider.com/shows/calendar/" 30 true.

Definition show_a : gmap string string :=
  Scraper.make_item "Monday, June 2, 2025" (listing "Show A" "Netflix").

Definition undated : gmap string string :=
  Scraper.make_item "Sometime Soon" (listing "Show C" "HBO").

(** The record that the scenario yields for the range 2025-06-01 to
    2025-06-03, and the state at the exit of the scrape. *)
Definition emitted : list (gmap string string) :=
  [<["channel" := "Netflix"]>
     (delete "date_header" (<["date" := "2025-06-02"]> show_a))].

Definition final_state : state :=
  State (Some Driver)
    ([EvRequest; EvChrome; EvConfigure; EvConfigure; EvGet]
     ++ concat (replicate 3 Spec.iteration) ++ [EvExtract; EvQuit]).

(** A browser that starts and is lost at once: [webdriver.Chrome] returns
    it, and the first call on it, [driver.set_page_load_timeout], raises.
    Every other call is that of [world]. *)
Definition chrome_not_reachable : exn :=
  Exn WebDriverExceptionC "Message: chrome not reachable".

Definition lost_browser : env :=
  Env (Returns 200) true (Returns tt) (Returns tt)
    (Raises chrome_not_reachable) (Returns tt)
    2025 (Returns tt)
    (λ i, Returns (Z.min 3000 (1000 * Z.of_nat (S i))))
    (λ _, Returns tt)
    (λ i, Returns (Z.min 3000 (1000 * Z.of_nat (S (S i)))))
    (Returns (Some page))
    (λ _, Datetime 2025 5 20 0)
    (Returns tt).

(** What [_init_driver] of scraper.py and of scraper_optimized.py raise
    for it. *)
Definition failed_to_start : exn :=
  Exn ExceptionC
    "Failed to start Chrome. Please ensure Chrome browser is installed. Error: Message: chrome not reachable".

Definition failed_to_start_optimized : exn :=
  Exn ExceptionC "Failed to start Chrome: Message: chrome not reachable".

End Examples.

(** ** [src/modules/link_generator.py] *)

Module LinkGenerator.
Import Py.

(** [s] without its prefix [p], when [s] starts with [p]. *)
Fixpoint remove_prefix (p s : string) : option string :=
  match p, s with
  | "", _ => Some s
  | String a p', String b s' =>
      if Ascii.eqb a b then remove_prefix p' s' else None
  | String _ _, "" => None
  end.

(** [re.sub(r'^https?://', '', s)] *)
Definition sub_scheme (s : string) : string :=
  match remove_prefix "https://" s with
  | Some r => r
  | None =>
      match remove_prefix "http://" s with
      | Some r => r
      | None => s
      end
  end.

(** [re.sub(r'^www\.', '', s)] *)
Definition sub_www (s : string) : string :=
  match remove_prefix "www." s with
  | Some r => r
  | None => s
  end.

(** [s.split(sep)[0]] for a separator of one character. *)
Fixpoint before_first (sep : ascii) (s : string) : string :=
  match s with
  | "" => ""
  | String c s' =>
      if Ascii.eqb c sep then "" else String c (before_first sep s')
  end.

(** The dict [domain_mappings], in the order of its entries. *)
Definition domain_mappings : list (string * string) :=
  [("hbomax.com", "max.com");
   ("disneyplus.com", "disneyplus.com");
   ("netflix.com", "netflix.com");
   ("hulu.com", "hulu.com");
   ("primevideo.com", "primevideo.com");
   ("peacocktv.com", "peacocktv.com");
   ("paramountplus.com", "paramountplus.com");
   ("tv.apple.com", "tv.apple.com");
   ("plus.espn.com", "plus.espn.com");
   ("servustv.com", "servustv.com")].

(** The loop over [domain_mappings.items()]: the replacement of the first
    pattern that occurs in [website_clean]. *)
Fixpoint first_mapping (mappings : list (string * string))
    (website_clean : string) : option string :=
  match mappings with
  | [] => None
  | (pattern, replacement) :: rest =>
      if contains pattern website_clean then Some replacement
      else first_mapping rest website_clean
  end.

Definition normalize_website_url (website : string) : string :=
  if String.eqb website "" then "#"
  else
    let website_clean := sub_scheme website in
    let website_clean := sub_www website_clean in
    let website_clean := before_first "/" website_clean in
    let website_clean := before_first "?" website_clean in
    match first_mapping domain_mappings website_clean with
    | Some replacement => "https://" +:+ replacement
    | None =>
        if negb (String.prefix "http://" website_clean
                 || String.prefix "https://" website_clean)
        then "https://" +:+ website_clean
        else website_clean
    end.

End LinkGenerator.

(** ** [src/app.py]: the endpoint [/api/scrape] *)

Module App.
Import Py Run.

(** The JSON bodies that [scrape_content] answers with. *)
Inductive body :=
| ErrorBody (error : string)       (* {'error': ...} *)
| TimeoutBody                      (* {'error': 'timeout', 'message': ...,
                                       'user_message': ...} *)
| SuccessBody (count : nat) (data : list (gmap string string)).
                                   (* {'success': True, 'count': ...,
                                       'data': ...} *)

Record response := Response { status : Z; body_of : body }.

(** An entry of the dict [sessions] as [scrape_content] writes it. *)
Record session := Session {
  scraped_data : list (gmap string string);
  date_range : string * string
}.

Section endpoint.

(** [str(e)] of the [ValueError] that [datetime.strptime] raises for a
    text that is no date; its wording is left open. *)
Variable value_error_str : string → string.

Definition strptime_or_raise (data_string : string) : M datetime :=
  match strptime data_string "%Y-%m-%d" with
  | Some d => mret d
  | None => raise (Exn ValueErrorC (value_error_str data_string))
  end.

(** The answer of the handler [except Exception as scrape_error]. *)
Definition scrape_error_response (error_message : string) : response :=
  if contains "cannot connect" (lower error_message)
     || contains "connection" (lower error_message)
  then Response 500 (ErrorBody
    "Connection Error: Unable to reach TVInsider.com. Please check your internet connection and try again.")
  else if contains "chrome" (lower error_message)
  then Response 500 (ErrorBody
    "Chrome Browser Error: Please ensure Google Chrome is installed on your system. If the issue persists, try setting HEADLESS_BROWSER=false in your .env file.")
  else Response 500 (ErrorBody ("Scraping failed: " +:+ error_message)).

(** The body of the loop "Normalize website URLs" for one item. *)
Definition add_website_url (item : gmap string string)
  : gmap string string :=
  let website := get item "website" "" in
  if String.eqb website "" then <["website_url" := "#"]> item
  else <["website_url" := LinkGenerator.normalize_website_url website]> item.

(** [scrape_content] for a request whose JSON body is the object [data]
    and whose header [X-Session-Id] is [session_id]; it returns the answer
    and the dict [sessions] as it leaves it. *)
Definition scrape_content (cfg : Scraper.config) (w : env)
    (data : gmap string string) (session_id : option string)
    (sessions : gmap string session)
  : M (response * gmap string session) :=
  try_except
    (let start_date := get data "start_date" "" in
     let end_date := get data "end_date" "" in
     if String.eqb start_date "" || String.eqb end_date "" then
       mret (Response 400 (ErrorBody "Start and end dates are required"),
             sessions)
     else
       start ← strptime_or_raise start_date;
       end_ ← strptime_or_raise end_date;
       if 30 <? toordinal end_ - toordinal start then
         mret (Response 400 (ErrorBody "Date range cannot exceed 30 days"),
               sessions)
       else if instant end_ <? instant start then
         mret (Response 400 (ErrorBody "Start date must be before end date"),
               sessions)
       else
         r ← try_except
               (results ← Scraper.scrape_date_range cfg w start_date end_date;
                mret (inr results))
               [(is_Exception,
                 λ scrape_error,
                   mret (inl (scrape_error_response (exn_str scrape_error))))];
         match r with
         | inl answer => mret (answer, sessions)
         | inr results =>
             let results := add_website_url <$> results in
             let session_id := default "default" session_id in
             mret (Response 200 (SuccessBody (length results) results),
                   <[session_id := Session results (start_date, end_date)]>
                     sessions)
         end)
    [(is_Exception,
      λ e,
        mret (if contains "timeout" (lower (exn_str e))
                 || contains "timed out" (lower (exn_str e))
              then Response 504 TimeoutBody
              else Response 500 (ErrorBody (exn_str e)),
              sessions))].

End endpoint.

End App.

(** ** [src/utils/validators.py] *)

Module Validators.
Import Py Run.

(** The text of one double quote. *)
Definition double_quote : string := String (ascii_of_N 34) "".

Definition sanitize_html (text : string) : string :=
  if String.eqb text "" then ""
  else
    let text := replace "&" "&amp;" text in
    let text := replace "<" "&lt;" text in
    let text := replace ">" "&gt;" text in
    let text := replace double_quote "&quot;" text in
    let text := replace "'" "&#39;" text in
    text.

Definition required_fields : list string := ["name"; "channel"; "date"].

(** [field not in item or not item[field]] for one field. *)
Definition field_missing (item : gmap string string) (field : string)
  : bool :=
  match item !! field with
  | None => true
  | Some v => String.eqb v ""
  end.

Definition validate_scraped_item (item : gmap string string) : bool :=
  negb (existsb (field_missing item) required_fields).

(** The body of the loop of [clean_scraped_data] for a valid item. *)
Definition sanitize_item (item : gmap string string) : gmap string string :=
  let item :=
    match item !! "description" with
    | Some v => <["description" := sanitize_html v]> item
    | None => item
    end in
  match item !! "name" with
  | Some v => <["name" := sanitize_html v]> item
  | None => item
  end.

Definition clean_scraped_data (items : list (gmap string string))
  : list (gmap string string) :=
  sanitize_item <$> List.filter validate_scraped_item items.

(** [validate_date_range]; [now] is the value of [datetime.now()].  The
    function catches [ValueError] only: [None] stands for the
    [OverflowError] of [datetime.now() + timedelta(days=90)], which
    leaves it. *)
Definition validate_date_range (now : datetime)
    (start_date end_date : string) : option (bool * string) :=
  match strptime start_date "%Y-%m-%d", strptime end_date "%Y-%m-%d" with
  | Some start, Some end_ =>
      if instant end_ <? instant start then
        Some (false, "Start date must be before end date")
      else if 30 <? toordinal end_ - toordinal start then
        Some (false, "Date range cannot exceed 30 days")
      else if toordinal now + 90 <=? _MAXORDINAL then
        if (toordinal now + 90) * us_per_day + tod now <? instant end_
        then Some (false, "End date cannot be more than 90 days in the future")
        else Some (true, "Valid date range")
      else None
  | _, _ => Some (false, "Invalid date format. Use YYYY-MM-DD")
  end.

End Validators.

(** ** Notions used by the further properties *)

Module SpecX.
Import Py Run.

(** A listing element that the extraction script turns into a record: an
    anchor with a non-empty title. *)
Definition named_anchor (elem : element) : bool :=
  String.eqb (tagName elem) "A"
  && negb (String.eqb (or_empty (div_h3 elem)) "").

(** A record of scraper.py without the two fields that the script of
    scraper_optimized.py does not write. *)
Definition without_extras (item : gmap string string) : gmap string string :=
  delete "country" (delete "website_url" item).

(** The keys of a record returned by scraper.py and by
    scraper_optimized.py. *)
Definition record_keys : gset string :=
  list_to_set ["name"; "type"; "description"; "channel"; "channel_image";
               "show_image"; "website"; "website_url"; "country"; "date"].
Definition record_keys_optimized : gset string :=
  list_to_set ["name"; "type"; "description"; "channel"; "channel_image";
               "show_image"; "website"; "date"].

(** The last stages of [_scrape_by_date_navigation] on the extracted
    records [all_data]: the date loop, then the exclusion filter. *)
Definition resolved_records (w : env) (start end_ : datetime)
    (current_year : Z) (all_data : list (gmap string string))
  : list (gmap string string) :=
  Scraper._filter_excluded_content
    (Scraper.process_items w start end_ current_year 0 all_data).

(** The record [r] shows the listing of the extracted record [item]: the
    date header has given way to a date, the channel has had its typo
    corrected, and every other field is as extracted. *)
Definition same_listing (item r : gmap string string) : Prop :=
  (∀ key, key ≠ "date" → key ≠ "date_header" → key ≠ "channel" →
          r !! key = item !! key)
  ∧ (∃ channel,
       item !! "channel" = Some channel
       ∧ r !! "channel" = Some (replace "Parmount+" "Paramount+" channel)
       ∧ (contains "Parmount+" channel = false →
          r !! "channel" = Some channel))
  ∧ r !! "date_header" = None
  ∧ is_Some (r !! "date").

(** The calls that launch and configure the browser fail, when they do,
    with an [OSError] or a [WebDriverException]. *)
Definition launch_failures_known (w : env) : Prop :=
  ∀ o, In o [webdriver_Chrome w; maximize_window w;
             set_page_load_timeout w; implicitly_wait w] →
       ∀ e, o = Raises e → is_OSError e || is_WebDriverException e = true.

End SpecX.

(** ** Further example inputs *)

Module ExamplesX.
Import Py Run.

(** The world of the scenario with another connectivity test, driver
    binary, browser launch and page load. *)
Definition world_with (probe : outcome Z) (binary : bool)
    (launch page_load : outcome unit) : env :=
  Env probe binary launch (Returns tt) (Returns tt) (Returns tt)
    2025 page_load
    (λ i, Returns (Z.min 3000 (1000 * Z.of_nat (S i))))
    (λ _, Returns tt)
    (λ i, Returns (Z.min 3000 (1000 * Z.of_nat (S (S i)))))
    (Returns (Some Examples.page))
    (λ _, Datetime 2025 5 20 0)
    (Returns tt).

Definition offline : env :=
  world_with (Raises (Exn ConnectionErrorC "Max retries exceeded"))
    true (Returns tt) (Returns tt).

Definition no_binary : env :=
  world_with (Returns 200) false (Returns tt) (Returns tt).

Definition no_browser : env :=
  world_with (Returns 200) true
    (Raises (Exn WebDriverExceptionC "unknown error: cannot find Chrome binary"))
    (Returns tt).

Definition page_load_timeout : exn :=
  Exn WebDriverExceptionC "timeout: Timed out receiving message from renderer".

Definition slow_page : env :=
  world_with (Returns 200) true (Returns tt) (Raises page_load_timeout).

(** The state at the exit of [_scrape_by_date_navigation] in the
    scenario. *)
Definition navigation_state : state :=
  State (Some Driver)
    ([EvChrome; EvConfigure; EvConfigure; EvGet]
     ++ concat (replicate 3 Spec.iteration) ++ [EvExtract; EvQuit]).

(** The last day of the page of the scenario. *)
Definition last_header : element := Examples.header "Tuesday, June 3, 2025".
Definition last_block : list element := [Examples.listing "Show B" "ESPN"].

(** The JSON body of a request, and one whose start date is no date. *)
Definition request : gmap string string :=
  {[ "start_date" := "2025-06-01"; "end_date" := "2025-06-03" ]}.
Definition bad_request : gmap string string :=
  {[ "start_date" := "timeout"; "end_date" := "2025-06-03" ]}.

(** The wording of CPython's [ValueError] for a text that does not match
    the format. *)
Definition value_error_str (data_string : string) : string :=
  "time data '" +:+ data_string +:+ "' does not match format '%Y-%m-%d'".

(** The records of the scenario as the endpoint answers them, and the
    sessions after it. *)
Definition answered : list (gmap string string) :=
  [<["website_url" := "https://tvinsider.com"]>
     (<["channel" := "Netflix"]>
        (delete "date_header" (<["date" := "2025-06-02"]> Examples.show_a)))].

Definition stored : gmap string App.session :=
  {[ "default" := App.Session answered ("2025-06-01", "2025-06-03") ]}.

End ExamplesX.

(** ** Facts about the library operations *)

Module PyFacts.
Import Py.

Lemma prefix_spec (a s : string) :
  String.prefix a s = true ↔ ∃ post, s = a +:+ post.
Proof.
  revert s. induction a as [|c a IH]; intros s.
  - destruct s; simpl; (split; [intros _; by eexists | done]).
  - destruct s as [|d s]; simpl.
    + split; [done | intros [post H]; discriminate].
    + destruct (ascii_dec c d) as [->|Hne].
      * rewrite IH. split; intros [post H]; exists post.
        -- by rewrite H.
        -- simpl in H. by injection H.
      * split; [done | intros [post H]; simpl in H; congruence].
Qed.

Lemma contains_spec (sub s : string) :
  contains sub s = true ↔ ∃ pre post, s = pre +:+ sub +:+ post.
Proof.
  induction s as [|c s IH].
  - change (contains sub "") with (String.prefix sub "" || false).
    rewrite orb_false_r, prefix_spec. split.
    + intros [post H]. by exists "", post.
    + intros (pre & post & H). destruct pre; [by exists post | discriminate].
  - change (contains sub (String c s))
      with (String.prefix sub (String c s) || contains sub s).
    rewrite orb_true_iff, prefix_spec, IH. split.
    + intros [[post H] | (pre & post & H)].
      * by exists "", post.
      * exists (String c pre), post. simpl. by rewrite H.
    + intros (pre & post & H). destruct pre as [|d pre].
      * left. by exists post.
      * right. simpl in H. injection H as _ H. by exists pre, post.
Qed.

Lemma lower_app (a b : string) : lower (a +:+ b) = lower a +:+ lower b.
Proof. induction a as [|c a IH]; simpl; [done | by rewrite IH]. Qed.

Lemma app_assoc_s (a b c : string) : (a +:+ b) +:+ c = a +:+ (b +:+ c).
Proof. induction a as [|x a IH]; simpl; [done | by rewrite IH]. Qed.

Lemma filter_comm {A} (p q : A → bool) (l : list A) :
  List.filter p (List.filter q l) = List.filter q (List.filter p l).
Proof.
  induction l as [|x l IH]; simpl; [done |].
  destruct (q x) eqn:Hq, (p x) eqn:Hp; simpl; rewrite ?Hq, ?Hp, IH; done.
Qed.

(** [strptime] only returns dates that [datetime] accepts, at midnight. *)
Lemma make_datetime_Some (y m d : Z) (dt : datetime) :
  make_datetime y m d = Some dt →
  dt = Datetime y m d 0 ∧ check_date_fields y m d = true.
Proof.
  unfold make_datetime. destruct (check_date_fields y m d); [|done].
  intros [= <-]. done.
Qed.

(** A token other than [%Y] leaves the year group as it is. *)
Lemma match_token_year (t : token) (g g' : groups) (s r : string) :
  t ≠ TYear → In (g', r) (match_token t g s) → g_year g' = g_year g.
Proof.
  intros Ht Hin. apply list_elem_of_In in Hin.
  destruct t; simpl in Hin; try done.
  - destruct s as [|b s]; [by apply elem_of_nil in Hin |].
    destruct (Ascii.eqb _ _); [|by apply elem_of_nil in Hin].
    apply list_elem_of_singleton in Hin. by injection Hin as -> _.
  - apply list_elem_of_fmap in Hin as (x & [= -> _] & _). done.
  - apply list_elem_of_fmap in Hin as ([i x] & [= -> _] & _). done.
  - apply list_elem_of_fmap in Hin as ([i x] & [= -> _] & _). done.
  - apply list_elem_of_fmap in Hin as ([i x] & [= -> _] & _). done.
  - apply list_elem_of_fmap in Hin as ([i x] & [= -> _] & _). done.
Qed.

Lemma match_tokens_year (ts : list token) (g g' : groups) (s r : string) :
  ¬ In TYear ts → In (g', r) (match_tokens ts g s) → g_year g' = g_year g.
Proof.
  revert g s. induction ts as [|t ts IH]; intros g s Hts Hin; simpl in Hin.
  - destruct Hin as [[= <- _]|[]]. done.
  - apply in_flat_map in Hin as ([g1 s1] & H1 & H2).
    apply IH in H2; [|intros ?; apply Hts; by right].
    rewrite H2. eapply match_token_year; [|exact H1].
    intros ->. apply Hts. by left.
Qed.

(** What [strptime] returns for a format without [%Y]. *)
Lemma strptime_without_year (t fmt : string) (ts : list token) (d : datetime) :
  pattern fmt = Some ts → ¬ In TYear ts → strptime t fmt = Some d →
  d = Datetime 1900 (month d) (day d) 0
  ∧ check_date_fields 1900 (month d) (day d) = true.
Proof.
  intros Hp Hts. unfold strptime. rewrite Hp. simpl.
  destruct (match_tokens ts _ t) as [|[g r] l] eqn:Hm; [done |].
  destruct r; [|done].
  assert (Hy : g_year g = g_year (Groups None 1 1)).
  { eapply match_tokens_year; [exact Hts |]. rewrite Hm. by left. }
  unfold datetime_of_groups. rewrite Hy. simpl.
  destruct ((g_month g =? 2) && (g_day g =? 29)).
  - destruct (make_datetime 1904 _ _); [|done]. simpl.
    intros H. apply make_datetime_Some in H as [-> H]. done.
  - destruct (make_datetime 1900 _ _) as [d0|] eqn:H1; [|done]. simpl.
    intros [= <-]. apply make_datetime_Some in H1 as [-> H]. done.
Qed.

(** A day of a month of 1900 exists in every year. *)
Lemma check_date_fields_1900 (y m d : Z) :
  1 <= y <= 9999 → check_date_fields 1900 m d = true →
  check_date_fields y m d = true.
Proof.
  unfold check_date_fields, between, MINYEAR, MAXYEAR, _days_in_month.
  intros Hy H.
  assert (H1900 : _is_leap 1900 = false) by reflexivity.
  rewrite H1900, andb_false_r in H.
  apply andb_true_iff in H as [H Hd]. apply andb_true_iff in H as [_ Hm].
  apply andb_true_iff in Hd as [Hd1 Hd2].
  rewrite Hm, Hd1. simpl.
  apply andb_true_iff. split; [apply andb_true_iff; lia |].
  destruct ((m =? 2) && _is_leap y) eqn:Hl; [|done].
  apply andb_true_iff in Hl as [Hm2 _].
  apply Z.eqb_eq in Hm2. subst m. simpl in Hd2. lia.
Qed.

Lemma replace_year_1900 (dt : datetime) (y : Z) :
  1 <= y <= 9999 → check_date_fields 1900 (month dt) (day dt) = true →
  replace_year dt y = Some (Datetime y (month dt) (day dt) (tod dt)).
Proof.
  intros Hy Hc. unfold replace_year.
  by rewrite (check_date_fields_1900 y) by done.
Qed.

(** The ordinal of a date grows with its year, month and day. *)
Lemma days_before_year_succ (y : Z) :
  _days_before_year (y + 1)
  = _days_before_year y + 365 + (if _is_leap y then 1 else 0).
Proof.
  unfold _days_before_year, _is_leap.
  replace (y + 1 - 1) with y by lia.
  destruct (y mod 4 =? 0) eqn:H4; destruct (y mod 100 =? 0) eqn:H100;
    destruct (y mod 400 =? 0) eqn:H400; simpl;
    rewrite ?Z.eqb_eq, ?Z.eqb_neq in *;
    Z.div_mod_to_equations; lia.
Qed.

Lemma days_before_year_mono (y1 y2 : Z) :
  y1 <= y2 → _days_before_year y1 <= _days_before_year y2.
Proof.
  unfold _days_before_year. intros H. Z.div_mod_to_equations. lia.
Qed.

Lemma month_cases (m : Z) :
  1 <= m <= 12 →
  m = 1 ∨ m = 2 ∨ m = 3 ∨ m = 4 ∨ m = 5 ∨ m = 6 ∨ m = 7 ∨ m = 8 ∨ m = 9
  ∨ m = 10 ∨ m = 11 ∨ m = 12.
Proof. lia. Qed.

Lemma check_date_fields_bounds (y m d : Z) :
  check_date_fields y m d = true →
  1 <= y <= 9999 ∧ 1 <= m <= 12 ∧ 1 <= d <= _days_in_month y m.
Proof.
  unfold check_date_fields, between, MINYEAR, MAXYEAR.
  rewrite !andb_true_iff, !Z.leb_le. tauto.
Qed.

(** The day of the year lies within the year. *)
Lemma day_of_year_bounds (y m d : Z) :
  check_date_fields y m d = true →
  1 <= _days_before_month y m + d <= 365 + (if _is_leap y then 1 else 0).
Proof.
  intros H. apply check_date_fields_bounds in H as (_ & Hm & Hd).
  unfold _days_before_month, _days_in_month in *.
  destruct (month_cases m Hm) as [->|[->|[->|[->|[->|[->|[->|[->|[->|[->|[->| ->]]]]]]]]]]];
    destruct (_is_leap y); simpl in *; lia.
Qed.

(** Within a year, a later month starts after the earlier month ends. *)
Lemma month_order (y m1 d1 m2 d2 : Z) :
  check_date_fields y m1 d1 = true → check_date_fields y m2 d2 = true →
  m1 < m2 →
  _days_before_month y m1 + d1 < _days_before_month y m2 + d2.
Proof.
  intros H1 H2 Hlt.
  apply check_date_fields_bounds in H1 as (_ & Hm1 & Hd1).
  apply check_date_fields_bounds in H2 as (_ & Hm2 & Hd2).
  unfold _days_before_month, _days_in_month in *.
  destruct (month_cases m1 Hm1) as [->|[->|[->|[->|[->|[->|[->|[->|[->|[->|[->| ->]]]]]]]]]]];
    destruct (month_cases m2 Hm2) as [->|[->|[->|[->|[->|[->|[->|[->|[->|[->|[->| ->]]]]]]]]]]];
    try lia; destruct (_is_leap y); simpl in *; lia.
Qed.

Lemma toordinal_lt_fields (a b : datetime) :
  Spec.valid a → Spec.valid b →
  (toordinal a < toordinal b
   ↔ year a < year b
     ∨ (year a = year b
        ∧ (month a < month b ∨ (month a = month b ∧ day a < day b)))).
Proof.
  intros [Ha _] [Hb _]. unfold toordinal, _ymd2ord.
  pose proof (day_of_year_bounds _ _ _ Ha) as Da.
  pose proof (day_of_year_bounds _ _ _ Hb) as Db.
  pose proof (days_before_year_succ (year a)) as Sa.
  pose proof (days_before_year_succ (year b)) as Sb.
  destruct (Z.lt_trichotomy (year a) (year b)) as [Hy | [Hy | Hy]].
  - pose proof (days_before_year_mono (year a + 1) (year b) ltac:(lia)).
    split; [tauto | lia].
  - rewrite Hy in *.
    destruct (Z.lt_trichotomy (month a) (month b)) as [Hm | [Hm | Hm]].
    + pose proof (month_order _ _ _ _ _ Ha Hb Hm). split; [tauto | lia].
    + rewrite Hm. split; [intros; right; split; [done | right; lia] | lia].
    + pose proof (month_order _ _ _ _ _ Hb Ha Hm). split; lia.
  - pose proof (days_before_year_mono (year b + 1) (year a) ltac:(lia)).
    split; lia.
Qed.

(** The order of instants is the order in which Python compares the fields
    of two datetimes. *)
Lemma instant_lt_fields (a b : datetime) :
  Spec.valid a → Spec.valid b → (instant a < instant b ↔ Spec.fields_lt a b).
Proof.
  intros Ha Hb. pose proof (toordinal_lt_fields a b Ha Hb) as Hab.
  pose proof (toordinal_lt_fields b a Hb Ha) as Hba.
  destruct Ha as [_ Ta], Hb as [_ Tb].
  unfold instant, Spec.fields_lt, us_per_day in *.
  destruct (Z.lt_trichotomy (toordinal a) (toordinal b)) as [H | [H | H]].
  - split; [intros _ | lia]. apply Hab in H. tauto.
  - assert (Hf : year a = year b ∧ month a = month b ∧ day a = day b).
    { destruct (Z.lt_trichotomy (year a) (year b)) as [? | [? | ?]];
        destruct (Z.lt_trichotomy (month a) (month b)) as [? | [? | ?]];
        destruct (Z.lt_trichotomy (day a) (day b)) as [? | [? | ?]];
        try tauto; exfalso; lia. }
    destruct Hf as (Hy & Hm & Hd). rewrite H. split; [intros; right|]; lia.
  - split; [lia |]. apply Hba in H. lia.
Qed.

Lemma eat_ci_two (a b : ascii) (w t r : string) :
  eat_ci (String a (String b w)) t = Some r →
  ∃ c d t', t = String c (String d t')
            ∧ to_lower a = to_lower c ∧ to_lower b = to_lower d.
Proof.
  destruct t as [|c [|d t']]; simpl; try done.
  - by destruct (Ascii.eqb _ _).
  - destruct (Ascii.eqb_spec (to_lower a) (to_lower c)); [|done].
    destruct (Ascii.eqb_spec (to_lower b) (to_lower d)); [|done].
    intros _. by exists c, d, t'.
Qed.

Lemma match_names_eats (names : list string) (t : string) :
  match_names names t ≠ [] →
  ∃ w r, In w (seqToRE names) ∧ eat_ci w t = Some r.
Proof.
  unfold match_names. intros H.
  destruct (flat_map _ _) as [|[i r] l] eqn:Hm; [done |].
  assert (Hin : In (i, r) (flat_map
    (λ w, match eat_ci w t, index_of w names with
          | Some rest, Some i => [(i, rest)]
          | _, _ => []
          end) (seqToRE names))) by (rewrite Hm; by left).
  apply in_flat_map in Hin as (w & Hw & Hin).
  destruct (eat_ci w t) as [r'|] eqn:He; [|done].
  by exists w, r'.
Qed.

(** No text begins with both the name of a weekday and the name of a
    month. *)
Lemma weekday_month_disjoint (t : string) :
  match_names f_weekday t ≠ [] → match_names f_month t ≠ [] → False.
Proof.
  intros Hw Hm.
  apply match_names_eats in Hw as (w & r1 & Hw & H1).
  apply match_names_eats in Hm as (m & r2 & Hm & H2).
  vm_compute in Hw, Hm.
  repeat (destruct Hw as [<- | Hw]; [|]); try done;
    (repeat (destruct Hm as [<- | Hm]; [|]); try done);
    apply eat_ci_two in H1 as (c & d & t' & -> & Hc & Hd);
    apply eat_ci_two in H2 as (c' & d' & t'' & [= <- <- _] & Hc' & Hd');
    rewrite <- Hc' in Hc; rewrite <- Hd' in Hd;
    vm_compute in Hc, Hd; congruence.
Qed.

Lemma strptime_first_token (t fmt : string) (t0 : token) (ts : list token)
    (d : datetime) :
  pattern fmt = Some (t0 :: ts) → strptime t fmt = Some d →
  match_token t0 (Groups None 1 1) t ≠ [].
Proof.
  intros Hp. unfold strptime. rewrite Hp. simpl.
  by destruct (match_token t0 _ t).
Qed.

(** A text that the format [Weekday, Month Day] reads is not read by the
    format [Month Day]: at most one of the two blocks that read the clock
    runs to the clock in one call of the resolver. *)
Lemma yearless_formats_exclusive (t : string) (d : datetime) :
  strptime t "%A, %B %d" = Some d → strptime t "%B %d" = None.
Proof.
  intros H3. destruct (strptime t "%B %d") as [d4|] eqn:H4; [|done].
  exfalso. apply (weekday_month_disjoint t).
  - eapply strptime_first_token in H3; [|reflexivity].
    simpl in H3. by destruct (match_names f_weekday t).
  - eapply strptime_first_token in H4; [|reflexivity].
    simpl in H4. by destruct (match_names f_month t).
Qed.

End PyFacts.

(** ** The exclusion filter *)

Section exclusion.
Import Py Run PyFacts.

(** The test of the filter on one record, as a proposition. *)
Lemma keyword_test_spec (item : gmap string string) :
  existsb (λ keyword : string,
             contains (lower keyword) (lower (Scraper.content_text item)))
          Scraper.excluded_keywords = true
  ↔ Spec.excluded_by (Spec.spaced item).
Proof.
  rewrite existsb_exists. unfold Spec.excluded_by, Spec.occurs_ci.
  split; intros (kw & Hin & H); exists kw; (split; [done |]).
  - by apply contains_spec.
  - by apply contains_spec.
Qed.

Lemma filter_one_dropped (item : gmap string string) :
  Scraper._filter_excluded_content [item] = []
  ↔ Spec.excluded_by (Spec.spaced item).
Proof.
  rewrite <- keyword_test_spec.
  unfold Scraper._filter_excluded_content, List.filter.
  destruct (existsb _ Scraper.excluded_keywords); simpl; split; congruence.
Qed.

Lemma filter_one_kept (item : gmap string string) :
  Scraper._filter_excluded_content [item] = [item]
  ↔ ¬ Spec.excluded_by (Spec.spaced item).
Proof.
  rewrite <- keyword_test_spec.
  unfold Scraper._filter_excluded_content, List.filter.
  destruct (existsb _ Scraper.excluded_keywords); simpl; split; congruence.
Qed.

Lemma espn_channel_excluded (item : gmap string string) (ch : string) :
  lower ch = "espn" →
  Spec.excluded_by (Spec.spaced (<["channel" := ch]> item)).
Proof.
  intros Hch. exists "ESPN". split; [simpl; tauto |].
  unfold Spec.occurs_ci, Spec.spaced, get.
  rewrite lookup_insert_eq. simpl from_option at 3.
  exists (lower (from_option id "" (<["channel":=ch]> item !! "name")
                 +:+ " " +:+
                 from_option id "" (<["channel":=ch]> item !! "type")
                 +:+ " ")), "".
  rewrite !lower_app, Hch, !app_assoc_s. done.
Qed.

(** C6 as amended: the exclusion filter drops a record if and only if the
    text made of its name, type and channel, with one space between
    neighbouring fields, contains a term of the exclusion vocabulary when
    case is ignored; every record is decided on its own; and a record with
    channel espn is dropped exactly when the same record with channel ESPN
    is. *)
Theorem C6_exclusion_filter :
  (∀ item : gmap string string,
     Scraper._filter_excluded_content [item] = []
     ↔ Spec.excluded_by (Spec.spaced item)) ∧
  (∀ item : gmap string string,
     Scraper._filter_excluded_content [item] = [item]
     ↔ ¬ Spec.excluded_by (Spec.spaced item)) ∧
  (∀ (item : gmap string string) items,
     Scraper._filter_excluded_content (item :: items)
     = (Scraper._filter_excluded_content [item]
        ++ Scraper._filter_excluded_content items)%list) ∧
  (∀ item : gmap string string,
     Scraper._filter_excluded_content [<["channel" := "espn"]> item] = []
     ↔ Scraper._filter_excluded_content [<["channel" := "ESPN"]> item] = []).
Proof.
  split; [exact filter_one_dropped |].
  split; [exact filter_one_kept |].
  split.
  - intros item items. unfold Scraper._filter_excluded_content.
    cbn [List.filter]. by destruct (negb _).
  - intros item. rewrite !filter_one_dropped.
    split; intros _; by apply espn_channel_excluded.
Qed.

(** C6 as stated fails: the record named World of Sport of type Series
    Premiere on channel BBC is kept, although the text name + type +
    channel, World of SportSeries PremiereBBC, contains the term Sports
    when case is ignored. *)
Lemma C6_counterexample :
  ¬ (∀ item : gmap string string,
       Scraper._filter_excluded_content [item] = []
       ↔ Spec.excluded_by (Spec.joined item)).
Proof.
  intros H.
  pose (item := ({[ "name" := "World of Sport"; "type" := "Series Premiere";
                    "channel" := "BBC" ]} : gmap string string)).
  assert (Hex : Spec.excluded_by (Spec.joined item)).
  { exists "Sports". split; [simpl; tauto |].
    by exists "world of ", "eries premierebbc". }
  apply H in Hex. vm_compute in Hex. discriminate.
Qed.

End exclusion.

(** ** The two filters, and the two copies of the logic *)

Section filters.
Import Py Run PyFacts.

(** C7: for every list of records and every date range, filtering by date
    range and then by exclusion gives the same list as filtering by
    exclusion and then by date range. *)
Theorem C7_filters_commute (items : list (gmap string string))
    (start_date end_date : string) :
  Scraper._filter_excluded_content
    (Scraper._filter_by_date_range items start_date end_date)
  = Scraper._filter_by_date_range
      (Scraper._filter_excluded_content items) start_date end_date.
Proof.
  unfold Scraper._filter_by_date_range.
  destruct (strptime start_date _) as [start|]; [|done].
  destruct (strptime end_date _) as [end_|]; [|done].
  unfold Scraper._filter_excluded_content. apply filter_comm.
Qed.

(** C9: the date parsing and the exclusion filter of the two scraper
    modules are extensionally equal: [_parse_date_optimized] of scraper.py
    and [_parse_date] of scraper_optimized.py return the same result for
    every header text, current year and clock reading, and the two
    [_filter_excluded_content] return the same list for every list. *)
Theorem C9_duplicated_logic_agrees :
  (∀ today date_text current_year,
     Scraper._parse_date_optimized today date_text current_year
     = ScraperOptimized._parse_date today date_text current_year) ∧
  (∀ items,
     Scraper._filter_excluded_content items
     = ScraperOptimized._filter_excluded_content items).
Proof.
  split.
  - intros today date_text current_year.
    unfold Scraper._parse_date_optimized, ScraperOptimized._parse_date.
    destruct (String.eqb date_text ""); [done |].
    generalize (title (strip date_text)). intros t.
    change ScraperOptimized.formats with Scraper.formats.
    induction Scraper.formats as [|fmt fmts IH]; simpl; [done |].
    by rewrite IH.
  - intros items. induction items as [|item items IH]; [done |].
    unfold Scraper._filter_excluded_content,
      ScraperOptimized._filter_excluded_content in *.
    cbn [List.filter]. by rewrite IH.
Qed.

End filters.

(** ** The date resolver *)

Section resolver.
Import Py Run PyFacts.

(** The patterns of the four formats. *)
Lemma formats_patterns :
  pattern "%A, %B %d, %Y"
  = Some [TWeekday; TLit ","; TSpaces; TMonthName; TSpaces; TDay;
          TLit ","; TSpaces; TYear] ∧
  pattern "%B %d, %Y"
  = Some [TMonthName; TSpaces; TDay; TLit ","; TSpaces; TYear] ∧
  pattern "%A, %B %d"
  = Some [TWeekday; TLit ","; TSpaces; TMonthName; TSpaces; TDay] ∧
  pattern "%B %d" = Some [TMonthName; TSpaces; TDay].
Proof. repeat split. Qed.

(** The block of a format that names a year returns what [strptime] read. *)
Lemma try_format_with_year now t cy fmt :
  Spec.has_year fmt = true →
  Scraper.try_format now t cy fmt
  = (λ d, strftime_iso (Spec.resolved now cy fmt d)) <$> strptime t fmt.
Proof.
  intros Hy. unfold Scraper.try_format, Spec.resolved.
  unfold Spec.has_year in *. rewrite Hy.
  destruct (strptime t fmt); done.
Qed.

(** The block of a format without a year never raises once [strptime] has
    read the text, and returns the date that the specification describes. *)
Lemma try_format_without_year now t cy fmt ts :
  Spec.in_range now cy →
  pattern fmt = Some ts → ¬ In TYear ts → Spec.has_year fmt = false →
  Scraper.try_format now t cy fmt
  = (λ d, strftime_iso (Spec.resolved now cy fmt d)) <$> strptime t fmt.
Proof.
  intros [Hcy Hnow] Hp Hts Hy. unfold Scraper.try_format, Spec.resolved.
  unfold Spec.has_year in *. rewrite Hy.
  destruct (strptime t fmt) as [d|] eqn:Hs; [|done].
  destruct (strptime_without_year _ _ _ _ Hp Hts Hs) as [Hd Hc].
  simpl.
  rewrite (replace_year_1900 d cy) by (done || lia). simpl.
  rewrite (replace_year_1900 _ (cy + 1)) by (done || lia). simpl.
  unfold minus_days.
  replace ((0 <? toordinal now - 30) && (toordinal now - 30 <=? _MAXORDINAL))
    with true by (symmetry; apply andb_true_iff; split; lia).
  simpl. unfold Spec.more_than_30_days_before, Spec.in_year.
  replace (instant (Datetime cy (month d) (day d) (tod d))
           <? (toordinal now - 30) * us_per_day + tod now)
    with (instant (Datetime cy (month d) (day d) (tod d)) + 30 * us_per_day
          <? instant now).
  2:{ unfold instant, us_per_day. apply eq_true_iff_eq.
      rewrite !Z.ltb_lt. lia. }
  by destruct (_ <? instant now).
Qed.

(** The loop over the four formats returns the date of the first format
    that matches. *)
Lemma try_formats_first_match now t cy :
  Spec.in_range now cy →
  Scraper.try_formats now t cy Scraper.formats
  = (λ '(fmt, d), strftime_iso (Spec.resolved now cy fmt d))
      <$> Spec.first_match Scraper.formats t.
Proof.
  intros Hr. destruct formats_patterns as (_ & _ & H3 & H4).
  unfold Scraper.formats. cbn [Scraper.try_formats Spec.first_match].
  rewrite !try_format_with_year by reflexivity.
  rewrite (try_format_without_year _ _ _ "%A, %B %d" _ Hr H3)
    by (vm_compute; intuition discriminate || reflexivity).
  rewrite (try_format_without_year _ _ _ "%B %d" _ Hr H4)
    by (vm_compute; intuition discriminate || reflexivity).
  repeat (match goal with
          | |- context [strptime t ?f] => destruct (strptime t f); [done |]
          end; cbn [fmap option_fmap option_map]).
  done.
Qed.

Lemma parse_date_first_match now text cy :
  Spec.in_range now cy →
  Scraper._parse_date_optimized now text cy
  = (λ '(fmt, d), strftime_iso (Spec.resolved now cy fmt d))
      <$> Spec.first_match Scraper.formats (title (strip text)).
Proof.
  intros Hr. unfold Scraper._parse_date_optimized.
  destruct (String.eqb text "") eqn:He.
  - apply String.eqb_eq in He. subst text. reflexivity.
  - simpl. by apply try_formats_first_match.
Qed.

(** A text that no format matches has no date, whatever the clock. *)
Lemma try_formats_no_match now t cy fmts :
  Forall (λ fmt, strptime t fmt = None) fmts →
  Scraper.try_formats now t cy fmts = None.
Proof.
  induction 1 as [|fmt fmts Hf _ IH]; [done |].
  cbn [Scraper.try_formats]. unfold Scraper.try_format at 1.
  rewrite Hf. exact IH.
Qed.

Lemma parse_date_no_match now text cy :
  Forall (λ fmt, strptime (title (strip text)) fmt = None) Scraper.formats →
  Scraper._parse_date_optimized now text cy = None.
Proof.
  intros H. unfold Scraper._parse_date_optimized.
  destruct (String.eqb text ""); [done |].
  by apply try_formats_no_match.
Qed.

(** C3: the resolver title-cases the header text, once stripped of
    surrounding whitespace, and tries the four formats
    [Weekday, Month Day, Year], [Month Day, Year], [Weekday, Month Day],
    [Month Day] in this order; the first format that matches determines
    the result, and a text that none matches has no date.  For a text
    without surrounding whitespace, as the extraction pass delivers it,
    the formats are tried on the title-cased text itself.  The header
    Friday, December 15, 2024 resolves to 2024-12-15. *)
Theorem C3_formats_in_order :
  Scraper.formats = ["%A, %B %d, %Y"; "%B %d, %Y"; "%A, %B %d"; "%B %d"] ∧
  (∀ now text cy,
     Spec.in_range now cy →
     Scraper._parse_date_optimized now text cy
     = (λ '(fmt, d), strftime_iso (Spec.resolved now cy fmt d))
         <$> Spec.first_match Scraper.formats (title (strip text))) ∧
  (∀ now text cy,
     Spec.in_range now cy → strip text = text →
     Scraper._parse_date_optimized now text cy
     = (λ '(fmt, d), strftime_iso (Spec.resolved now cy fmt d))
         <$> Spec.first_match Scraper.formats (title text)) ∧
  (∀ now cy,
     Scraper._parse_date_optimized now "Friday, December 15, 2024" cy
     = Some "2024-12-15").
Proof.
  split; [reflexivity |]. split; [|split].
  - intros now text cy Hr. by apply parse_date_first_match.
  - intros now text cy Hr Hs. rewrite <- Hs at 2.
    by apply parse_date_first_match.
  - intros now cy. reflexivity.
Qed.

Lemma C3_witness :
  Spec.in_range (Datetime 2025 8 10 0) 2025 ∧
  Scraper._parse_date_optimized (Datetime 2025 8 10 0) "monday, AUGUST 11" 2025
  = (λ '(fmt, d),
       strftime_iso (Spec.resolved (Datetime 2025 8 10 0) 2025 fmt d))
      <$> Spec.first_match Scraper.formats (title (strip "monday, AUGUST 11")).
Proof.
  assert (Hr : Spec.in_range (Datetime 2025 8 10 0) 2025).
  { split; [lia |]. vm_compute. split; [reflexivity | discriminate]. }
  split; [exact Hr |].
  exact (proj1 (proj2 C3_formats_in_order) _ "monday, AUGUST 11" _ Hr).
Defined.

(** C2: when the format that reads the header has no year, the date is put
    in the current year and moved to the next year if and only if it then
    lies more than 30 days before now.  With now on 2025-08-10 the header
    August 21 resolves to 2025-08-21; with now on 2025-01-05 the header
    December 31 resolves to 2025-12-31. *)
Theorem C2_implicit_year :
  (∀ now text cy fmt d,
     Spec.in_range now cy →
     Spec.first_match Scraper.formats (title (strip text)) = Some (fmt, d) →
     Spec.has_year fmt = false →
     Scraper._parse_date_optimized now text cy
     = Some (strftime_iso
               (Datetime
                  (if Spec.more_than_30_days_before
                        (Datetime cy (month d) (day d) 0) now
                   then cy + 1 else cy)
                  (month d) (day d) 0))) ∧
  (∀ t, 0 <= t < us_per_day →
     Scraper._parse_date_optimized (Datetime 2025 8 10 t) "August 21" 2025
     = Some "2025-08-21") ∧
  (∀ t, 0 <= t < us_per_day →
     Scraper._parse_date_optimized (Datetime 2025 1 5 t) "December 31" 2025
     = Some "2025-12-31").
Proof.
  assert (Hgen : ∀ now text cy fmt d,
     Spec.in_range now cy →
     Spec.first_match Scraper.formats (title (strip text)) = Some (fmt, d) →
     Spec.has_year fmt = false →
     tod d = 0 ∧
     Scraper._parse_date_optimized now text cy
     = Some (strftime_iso
               (Datetime
                  (if Spec.more_than_30_days_before
                        (Datetime cy (month d) (day d) 0) now
                   then cy + 1 else cy)
                  (month d) (day d) 0))).
  { intros now text cy fmt d Hr Hm Hy.
    rewrite parse_date_first_match, Hm by done. simpl.
    unfold Spec.resolved, Spec.in_year. rewrite Hy.
    assert (Ht : tod d = 0).
    { destruct formats_patterns as (_ & _ & H3 & H4).
      unfold Scraper.formats in Hm. cbn [Spec.first_match] in Hm.
      repeat match type of Hm with
             | match strptime ?t ?f with _ => _ end = _ =>
                 destruct (strptime t f) eqn:?
             end; try discriminate; injection Hm as <- <-;
        try discriminate Hy.
      - match goal with
        | H : strptime _ _ = Some _ |- _ =>
            eapply strptime_without_year in H as [-> _]; [done | exact H3 |]
        end.
        vm_compute. intuition discriminate.
      - match goal with
        | H : strptime _ _ = Some _ |- _ =>
            eapply strptime_without_year in H as [-> _]; [done | exact H4 |]
        end.
        vm_compute. intuition discriminate. }
    rewrite Ht. split; [done |]. by destruct (Spec.more_than_30_days_before _ _). }
  split; [|split].
  - intros now text cy fmt d Hr Hm Hy.
    exact (proj2 (Hgen _ _ _ _ _ Hr Hm Hy)).
  - intros t Ht.
    destruct (Hgen (Datetime 2025 8 10 t) "August 21" 2025 "%B %d"
                (Datetime 1900 8 21 0)) as [_ ->]; try reflexivity.
    + split; [lia |]. vm_compute. split; [reflexivity | discriminate].
    + replace (Spec.more_than_30_days_before _ _) with false; [reflexivity |].
      symmetry. apply Z.ltb_ge. unfold instant, us_per_day.
      change (toordinal (Datetime 2025 8 10 t)) with 739473.
      change (toordinal (Datetime 2025 (month (Datetime 1900 8 21 0))
                           (day (Datetime 1900 8 21 0)) 0)) with 739484.
      cbn [tod]. unfold us_per_day in Ht. lia.
  - intros t Ht.
    destruct (Hgen (Datetime 2025 1 5 t) "December 31" 2025 "%B %d"
                (Datetime 1900 12 31 0)) as [_ ->]; try reflexivity.
    + split; [lia |]. vm_compute. split; [reflexivity | discriminate].
    + replace (Spec.more_than_30_days_before _ _) with false; [reflexivity |].
      symmetry. apply Z.ltb_ge. unfold instant, us_per_day.
      change (toordinal (Datetime 2025 1 5 t)) with 739256.
      change (toordinal (Datetime 2025 (month (Datetime 1900 12 31 0))
                           (day (Datetime 1900 12 31 0)) 0)) with 739616.
      cbn [tod]. unfold us_per_day in Ht. lia.
Qed.

Lemma C2_witness :
  Spec.in_range (Datetime 2025 6 5 1) 2025 ∧
  Spec.first_match Scraper.formats (title (strip "May 6"))
  = Some ("%B %d", Datetime 1900 5 6 0) ∧
  Spec.has_year "%B %d" = false ∧
  Scraper._parse_date_optimized (Datetime 2025 6 5 1) "May 6" 2025
  = Some "2026-05-06".
Proof.
  assert (Hr : Spec.in_range (Datetime 2025 6 5 1) 2025).
  { split; [lia |]. vm_compute. split; [reflexivity | discriminate]. }
  split; [exact Hr |]. split; [reflexivity |]. split; [reflexivity |].
  exact (proj1 C2_implicit_year (Datetime 2025 6 5 1) "May 6" 2025 "%B %d"
           (Datetime 1900 5 6 0) Hr eq_refl eq_refl).
Defined.

End resolver.

(** ** The loop over the extracted records *)

Section processing.
Import Py Run PyFacts.

Lemma process_items_app w start end_ cy i (xs ys : list (gmap string string)) :
  Scraper.process_items w start end_ cy i (xs ++ ys)
  = (Scraper.process_items w start end_ cy i xs
     ++ Scraper.process_items w start end_ cy (i + length xs) ys)%list.
Proof.
  revert i. induction xs as [|x xs IH]; intros i; simpl.
  - by rewrite Nat.add_0_r.
  - rewrite IH. replace (S i + length xs)%nat with (i + S (length xs))%nat by lia.
    by destruct (Scraper.process_item _ _ _ _ x).
Qed.

(** C5: a record whose header text matches none of the four formats gets
    no date from the resolver, is not appended to the output, and the loop
    over the records goes on as if the record were not there (the loop is
    a total function: nothing is raised).  Sometime Soon is such a
    header. *)
Theorem C5_unparseable_header_dropped :
  (∀ text,
     Forall (λ fmt, strptime (title (strip text)) fmt = None)
       Scraper.formats →
     (∀ now cy, Scraper._parse_date_optimized now text cy = None) ∧
     (∀ (item : gmap string string) now start end_ cy,
        get item "date_header" "" = text →
        Scraper.process_item now start end_ cy item = None) ∧
     (∀ (item : gmap string string) w start end_ cy i before after,
        get item "date_header" "" = text →
        Scraper.process_items w start end_ cy i (before ++ item :: after)
        = (Scraper.process_items w start end_ cy i before
           ++ Scraper.process_items w start end_ cy
                (i + length before + 1) after)%list)) ∧
  Forall (λ fmt, strptime (title (strip "Sometime Soon")) fmt = None)
    Scraper.formats.
Proof.
  split.
  - intros text Hnone.
    assert (Hitem : ∀ (item : gmap string string) now start end_ cy,
              get item "date_header" "" = text →
              Scraper.process_item now start end_ cy item = None).
    { intros item now start end_ cy Hh. unfold Scraper.process_item.
      by rewrite Hh, parse_date_no_match. }
    split; [intros; by apply parse_date_no_match |].
    split; [exact Hitem |].
    intros item w start end_ cy i before after Hh.
    rewrite process_items_app. f_equal. cbn [Scraper.process_items].
    rewrite Hitem by done. f_equal. lia.
  - repeat constructor.
Qed.

Lemma C5_witness :
  Forall (λ fmt, strptime (title (strip "Sometime Soon")) fmt = None)
    Scraper.formats ∧
  get Examples.undated "date_header" "" = "Sometime Soon" ∧
  Scraper.process_items Examples.world (Datetime 2025 6 1 0)
    (Datetime 2025 6 3 0) 2025 0 ([Examples.show_a] ++ Examples.undated :: [])
  = (Scraper.process_items Examples.world (Datetime 2025 6 1 0)
       (Datetime 2025 6 3 0) 2025 0 [Examples.show_a]
     ++ Scraper.process_items Examples.world (Datetime 2025 6 1 0)
          (Datetime 2025 6 3 0) 2025 (0 + length [Examples.show_a] + 1) [])%list.
Proof.
  split; [exact (proj2 C5_unparseable_header_dropped) |].
  split; [reflexivity |].
  exact (proj2 (proj2 (proj1 C5_unparseable_header_dropped "Sometime Soon"
                         (proj2 C5_unparseable_header_dropped)))
           Examples.undated Examples.world _ _ _ _ _ _ eq_refl).
Defined.

End processing.

(** ** The extraction pass *)

Section extraction.
Import Py Run PyFacts.

(** Both modules run the same traversal and differ in the fields of the
    item they build; the invariant is proved once for a step of that
    shape. *)
Variable make : string → element → gmap string string.
Variable step :
  string * list (gmap string string) → element →
  string * list (gmap string string).
Hypothesis step_unfold : ∀ currentDate results elem,
  step (currentDate, results) elem
  = if String.eqb (tagName elem) "H6" then
      (js_trim (textContent elem), results)
    else if String.eqb (tagName elem) "A"
            && negb (String.eqb currentDate "")
    then
      if negb (String.eqb (or_empty (make currentDate elem !! "name")) "")
      then (currentDate, (results ++ [make currentDate elem])%list)
      else (currentDate, results)
    else (currentDate, results).

Lemma under_header_cons elem elements item :
  Spec.under_header make elements item → Spec.under_header make (elem :: elements) item.
Proof.
  intros (before & header & between & e & after & -> & H).
  by exists (elem :: before), header, between, e, after.
Qed.

Lemma fold_step_invariant (elements : list element) :
  ∀ currentDate results,
    ∃ new,
      snd (fold_left step elements (currentDate, results))
      = (results ++ new)%list ∧
      ∀ item, In item new →
              Spec.under_header make elements item
              ∨ Spec.under_current make currentDate elements item.
Proof.
  induction elements as [|elem elements IH]; intros currentDate results.
  - exists []. simpl. rewrite app_nil_r. split; [done | intros ? []].
  - cbn [fold_left]. rewrite step_unfold.
    destruct (String.eqb (tagName elem) "H6") eqn:Htag.
    { apply String.eqb_eq in Htag.
      destruct (IH (js_trim (textContent elem)) results) as (new & -> & Hnew).
      exists new. split; [done |]. intros item Hin. left.
      destruct (Hnew item Hin) as [H | H].
      - by apply under_header_cons.
      - destruct H as (between & e & after & -> & Hb & He & Hc & Hn & ->).
        by exists [], elem, between, e, after. }
    apply String.eqb_neq in Htag.
    assert (Hskip : ∀ results',
      ∃ new, snd (fold_left step elements (currentDate, results'))
             = (results' ++ new)%list ∧
             ∀ item, In item new →
                     Spec.under_header make (elem :: elements) item
                     ∨ Spec.under_current make currentDate (elem :: elements) item).
    { intros results'. destruct (IH currentDate results') as (new & -> & Hnew).
      exists new. split; [done |]. intros item Hin.
      destruct (Hnew item Hin) as [H | H].
      - left. by apply under_header_cons.
      - right.
        destruct H as (between & e & after & -> & Hb & He & Hc & Hn & ->).
        exists (elem :: between), e, after. split; [done |].
        split; [by constructor | done]. }
    destruct (String.eqb (tagName elem) "A") eqn:HA; [|by apply Hskip].
    destruct (String.eqb currentDate "") eqn:Hc; [by apply Hskip |].
    cbn [andb negb].
    destruct (String.eqb (or_empty (make currentDate elem !! "name")) "")
      eqn:Hn; [by apply Hskip |].
    cbn [negb].
    destruct (Hskip (results ++ [make currentDate elem])%list)
      as (new & -> & Hnew).
    exists (make currentDate elem :: new).
    split; [by rewrite <- app_assoc |].
    intros item [<- | Hin]; [|by apply Hnew].
    right. exists [], elem, elements.
    apply String.eqb_eq in HA. apply String.eqb_neq in Hc, Hn. done.
Qed.

Lemma fold_step_before_header (before : list element) results :
  Forall (λ e, tagName e ≠ "H6") before →
  fold_left step before ("", results) = ("", results).
Proof.
  induction 1 as [|elem before Hh _ IH]; [done |].
  cbn [fold_left]. rewrite step_unfold.
  apply String.eqb_neq in Hh. rewrite Hh. simpl.
  rewrite andb_false_r. exact IH.
Qed.

Lemma extracted_under_header (elements : list element) item :
  In item (snd (fold_left step elements ("", []))) →
  Spec.under_header make elements item.
Proof.
  destruct (fold_step_invariant elements "" []) as (new & -> & Hnew).
  intros Hin. destruct (Hnew item Hin) as [H | H]; [done |].
  by destruct H as (? & ? & ? & _ & _ & _ & Hc & _).
Qed.

End extraction.

Section extraction_claim.
Import Py Run PyFacts.

(** C10: the extraction pass emits a record for a listing element only if
    a date header precedes the element in document order: every emitted
    record was made from an anchor that follows a header, carries the
    non-empty trimmed text of the last header before it as its
    [date_header], and the elements before the first header contribute
    nothing.  This holds for the script of both modules. *)
Theorem C10_records_follow_a_header :
  (∀ section item,
     In item (Scraper.extractAllData section) →
     ∃ elements h,
       section = Some elements
       ∧ Spec.under_header Scraper.make_item elements item
       ∧ item !! "date_header" = Some h ∧ h ≠ "") ∧
  (∀ before rest,
     Forall (λ e, tagName e ≠ "H6") before →
     Scraper.extractAllData (Some (before ++ rest)%list)
     = Scraper.extractAllData (Some rest)) ∧
  (∀ section item,
     In item (ScraperOptimized.extractAllData section) →
     ∃ elements h,
       section = Some elements
       ∧ Spec.under_header ScraperOptimized.make_item elements item
       ∧ item !! "date_header" = Some h ∧ h ≠ "") ∧
  (∀ before rest,
     Forall (λ e, tagName e ≠ "H6") before →
     ScraperOptimized.extractAllData (Some (before ++ rest)%list)
     = ScraperOptimized.extractAllData (Some rest)).
Proof.
  repeat split.
  - intros [elements|] item Hin; [|done]. simpl in Hin.
    apply (extracted_under_header Scraper.make_item) in Hin;
      [|intros; reflexivity].
    pose proof Hin as (? & header & ? & elem & ? & _ & _ & _ & _ & Hh & _ & ->).
    exists elements, (js_trim (textContent header)).
    repeat split; try done.
  - intros before rest Hb. unfold Scraper.extractAllData.
    rewrite fold_left_app.
    by rewrite (fold_step_before_header Scraper.make_item)
      by (done || intros; reflexivity).
  - intros [elements|] item Hin; [|done]. simpl in Hin.
    apply (extracted_under_header ScraperOptimized.make_item) in Hin;
      [|intros; reflexivity].
    pose proof Hin as (? & header & ? & elem & ? & _ & _ & _ & _ & Hh & _ & ->).
    exists elements, (js_trim (textContent header)).
    repeat split; try done.
  - intros before rest Hb. unfold ScraperOptimized.extractAllData.
    rewrite fold_left_app.
    by rewrite (fold_step_before_header ScraperOptimized.make_item)
      by (done || intros; reflexivity).
Qed.

Lemma C10_witness :
  In Examples.show_a (Scraper.extractAllData (Some Examples.page)) ∧
  ∃ elements h,
    Some Examples.page = Some elements
    ∧ Spec.under_header Scraper.make_item elements Examples.show_a
    ∧ Examples.show_a !! "date_header" = Some h ∧ h ≠ "".
Proof.
  assert (Hin : In Examples.show_a
                  (Scraper.extractAllData (Some Examples.page))).
  { left. reflexivity. }
  split; [exact Hin |].
  exact (proj1 C10_records_follow_a_header (Some Examples.page)
           Examples.show_a Hin).
Defined.

End extraction_claim.

(** ** The scroll loop *)

Section scrolling.
Import Py Run PyFacts.

Lemma scrolls_app (a b : list event) :
  Spec.scrolls (a ++ b) = (Spec.scrolls a + Spec.scrolls b)%nat.
Proof. unfold Spec.scrolls. by rewrite List.filter_app, length_app. Qed.

(** One iteration makes at most one scroll. *)
Lemma scroll_body_bound (w : env) (i : nat) (σ : state) :
  (Spec.scrolls (trace (Scraper.scroll_body w i σ).2)
   ≤ Spec.scrolls (trace σ) + 1)%nat.
Proof.
  unfold Scraper.scroll_body, mbind, M_bind, mret, M_ret, call.
  destruct (height_before w i); simpl.
  2: { rewrite !scrolls_app. unfold Spec.scrolls. simpl. lia. }
  destruct (scroll_to w i); simpl.
  2: { rewrite !scrolls_app. unfold Spec.scrolls. simpl. lia. }
  destruct (height_after w i); simpl;
    rewrite !scrolls_app; unfold Spec.scrolls; simpl; lia.
Qed.

Lemma for_break_bound (w : env) (l : list nat) (σ : state) :
  (Spec.scrolls (trace (for_break l (Scraper.scroll_body w) σ).2)
   ≤ Spec.scrolls (trace σ) + length l)%nat.
Proof.
  revert σ. induction l as [|i l IH]; intros σ.
  - simpl. lia.
  - cbn [for_break]. unfold mbind, M_bind.
    pose proof (scroll_body_bound w i σ) as Hb.
    destruct (Scraper.scroll_body w i σ) as [[stop|e] σ1]; simpl in *.
    + destruct stop.
      * unfold mret, M_ret. simpl. lia.
      * specialize (IH σ1). lia.
    + lia.
Qed.

(** An iteration whose calls return. *)
Lemma scroll_body_returns (w : env) (i : nat) (σ : state) (a b : Z) :
  height_before w i = Returns a → scroll_to w i = Returns tt →
  height_after w i = Returns b →
  Scraper.scroll_body w i σ
  = (Returns (b =? a),
     State (var_driver σ) (trace σ ++ Spec.iteration)).
Proof.
  intros Ha Hs Hb.
  unfold Scraper.scroll_body, mbind, M_bind, mret, M_ret, call.
  rewrite Ha, Hs, Hb. simpl. by rewrite <- !app_assoc.
Qed.

Lemma first_stable_from_S (w : env) (i k : nat) :
  Spec.first_stable_from w i (S k) → Spec.first_stable_from w (S i) k.
Proof.
  intros H j Hj.
  destruct (H (S j) ltac:(lia)) as (a & b & Ha & Hs & Hb & Hab).
  exists a, b. replace (S i + j)%nat with (i + S j)%nat by lia.
  split; [done |]. split; [done |]. split; [done |].
  rewrite Hab. lia.
Qed.

(** The loop stops with the first iteration that finds the height
    unchanged. *)
Lemma for_break_first_stable (w : env) (k : nat) :
  ∀ i n σ,
    (1 ≤ k ≤ n)%nat → Spec.first_stable_from w i k →
    for_break (seq i n) (Scraper.scroll_body w) σ
    = (Returns tt,
       State (var_driver σ)
         (trace σ ++ concat (replicate k Spec.iteration))).
Proof.
  induction k as [|k IH]; intros i n σ Hk Hst; [lia |].
  destruct n as [|n]; [lia |].
  cbn [seq for_break]. unfold mbind, M_bind.
  destruct (Hst 0%nat ltac:(lia)) as (a & b & Ha & Hs & Hb & Hab).
  rewrite Nat.add_0_r in Ha, Hs, Hb.
  rewrite (scroll_body_returns w i σ a b) by done.
  destruct (Z.eqb_spec b a) as [Heq | Hne].
  - apply Hab in Heq. injection Heq as <-. cbn [replicate concat].
    by rewrite app_nil_r.
  - assert (k ≠ 0)%nat by (intros ->; by apply Hne, Hab).
    rewrite (IH (S i) n) by (lia || by apply first_stable_from_S).
    cbn [var_driver trace replicate concat]. by rewrite <- app_assoc.
Qed.

(** Without a stable iteration the loop runs over the whole range. *)
Lemma for_break_never_stable (w : env) (n : nat) :
  ∀ i σ,
    (∀ j, (j < n)%nat →
          ∃ a b, height_before w (i + j) = Returns a
                 ∧ scroll_to w (i + j) = Returns tt
                 ∧ height_after w (i + j) = Returns b ∧ b ≠ a) →
    for_break (seq i n) (Scraper.scroll_body w) σ
    = (Returns tt,
       State (var_driver σ)
         (trace σ ++ concat (replicate n Spec.iteration))).
Proof.
  induction n as [|n IH]; intros i σ Hst.
  - simpl. unfold mret, M_ret. rewrite app_nil_r. by destruct σ.
  - cbn [seq for_break]. unfold mbind, M_bind.
    destruct (Hst 0%nat ltac:(lia)) as (a & b & Ha & Hs & Hb & Hab).
    rewrite Nat.add_0_r in Ha, Hs, Hb.
    rewrite (scroll_body_returns w i σ a b) by done.
    destruct (Z.eqb_spec b a) as [Heq | Hne]; [done |].
    rewrite (IH (S i)).
    + cbn [var_driver trace replicate concat]. by rewrite <- app_assoc.
    + intros j Hj. destruct (Hst (S j) ltac:(lia)) as (a' & b' & H').
      exists a', b'. by replace (S i + j)%nat with (i + S j)%nat by lia.
Qed.

Lemma scrolls_iterations (k : nat) :
  Spec.scrolls (concat (replicate k Spec.iteration)) = k.
Proof.
  induction k as [|k IH]; [done |].
  cbn [replicate concat]. rewrite scrolls_app, IH. done.
Qed.

(** C4: the scroll loop makes at most 10 scrolls, whatever the heights it
    observes and whatever its calls raise; it stops with the first
    iteration whose scroll leaves the height unchanged; when no such
    iteration exists among the first 10 it makes exactly 10.  For heights
    that are stable at the third scroll it stops at iteration 3. *)
Theorem C4_scroll_loop :
  (∀ w σ,
     (Spec.scrolls (trace (Scraper.scroll_loop w σ).2)
      ≤ Spec.scrolls (trace σ) + 10)%nat) ∧
  (∀ w σ k,
     (1 ≤ k ≤ 10)%nat → Spec.first_stable w k →
     (Scraper.scroll_loop w σ).1 = Returns tt
     ∧ trace (Scraper.scroll_loop w σ).2
       = (trace σ ++ concat (replicate k Spec.iteration))%list
     ∧ Spec.scrolls (trace (Scraper.scroll_loop w σ).2)
       = (Spec.scrolls (trace σ) + k)%nat) ∧
  (∀ w σ,
     Spec.never_stable w 10 →
     Spec.scrolls (trace (Scraper.scroll_loop w σ).2)
     = (Spec.scrolls (trace σ) + 10)%nat) ∧
  (∀ w σ,
     Spec.first_stable w 3 →
     Spec.scrolls (trace (Scraper.scroll_loop w σ).2)
     = (Spec.scrolls (trace σ) + 3)%nat).
Proof.
  assert (Hstable : ∀ w σ k,
     (1 ≤ k ≤ 10)%nat → Spec.first_stable w k →
     (Scraper.scroll_loop w σ).1 = Returns tt
     ∧ trace (Scraper.scroll_loop w σ).2
       = (trace σ ++ concat (replicate k Spec.iteration))%list
     ∧ Spec.scrolls (trace (Scraper.scroll_loop w σ).2)
       = (Spec.scrolls (trace σ) + k)%nat).
  { intros w σ k Hk Hst. unfold Scraper.scroll_loop.
    rewrite (for_break_first_stable w k) by done.
    cbn [fst snd trace]. by rewrite scrolls_app, scrolls_iterations. }
  split; [|split; [exact Hstable | split]].
  - intros w σ. unfold Scraper.scroll_loop.
    pose proof (for_break_bound w (seq 0 Scraper.max_scrolls) σ) as H.
    by rewrite length_seq in H.
  - intros w σ Hn. unfold Scraper.scroll_loop.
    rewrite (for_break_never_stable w) by exact Hn.
    cbn [snd trace]. by rewrite scrolls_app, scrolls_iterations.
  - intros w σ Hst.
    exact (proj2 (proj2 (Hstable w σ 3%nat ltac:(lia) Hst))).
Qed.

Lemma C4_witness :
  Spec.first_stable Examples.world 3 ∧
  Spec.scrolls (trace (Scraper.scroll_loop Examples.world (State None [])).2)
  = (Spec.scrolls (trace (State None [])) + 3)%nat.
Proof.
  assert (H : Spec.first_stable Examples.world 3).
  { intros j Hj.
    destruct j as [|[|[|j]]]; [| | |lia]; do 2 eexists;
      (split; [reflexivity |]); (split; [reflexivity |]);
      (split; [reflexivity |]); split; (lia || done). }
  split; [exact H |].
  exact (proj2 (proj2 (proj2 C4_scroll_loop)) Examples.world (State None []) H).
Defined.

End scrolling.

(** ** The browser session *)

Section session.
Import Py Run PyFacts.

Lemma quiet_ret {A} (a : A) : Spec.quiet (mret a).
Proof.
  intros σ. unfold mret, M_ret. simpl.
  split; [done |]. exists []. split; [by rewrite app_nil_r | intros []].
Qed.

Lemma quiet_raise {A} (e : exn) : Spec.quiet (@raise A e).
Proof.
  intros σ. unfold raise. simpl.
  split; [done |]. exists []. split; [by rewrite app_nil_r | intros []].
Qed.

Lemma quiet_call {A} (ev : event) (o : outcome A) :
  ev ≠ EvQuit → Spec.quiet (call ev o).
Proof.
  intros Hev σ. split; [done |]. exists [ev]. split; [done |].
  intros [H | []]. by apply Hev.
Qed.

Lemma quiet_bind {A B} (m : M A) (f : A → M B) :
  Spec.quiet m → (∀ a, Spec.quiet (f a)) → Spec.quiet (m ≫= f).
Proof.
  intros Hm Hf σ. unfold mbind, M_bind.
  destruct (Hm σ) as (Hv & tr & Ht & Hq).
  destruct (m σ) as [[a|e] σ1]; simpl in *.
  - destruct (Hf a σ1) as (Hv' & tr' & Ht' & Hq').
    split; [congruence |]. exists (tr ++ tr')%list.
    rewrite Ht', Ht, <- app_assoc. split; [done |].
    rewrite in_app_iff. tauto.
  - split; [done |]. by exists tr.
Qed.

Lemma quiet_if {A} (b : bool) (m1 m2 : M A) :
  Spec.quiet m1 → Spec.quiet m2 → Spec.quiet (if b then m1 else m2).
Proof. by destruct b. Qed.

Lemma quiet_or_ValueError {A} (o : option A) (msg : string) :
  Spec.quiet (or_ValueError o msg).
Proof. destruct o; [apply quiet_ret | apply quiet_raise]. Qed.

Lemma quiet_try_except {A} (m : M A) (clauses : list (handler A)) :
  Spec.quiet m → Forall (λ c, ∀ e, Spec.quiet (c.2 e)) clauses →
  Spec.quiet (try_except m clauses).
Proof.
  intros Hm Hc σ. unfold try_except.
  destruct (Hm σ) as (Hv & tr & Ht & Hq).
  destruct (m σ) as [[a|e] σ1]; simpl in *; [split; [done | by exists tr] |].
  assert (Hsel : ∀ h, select_handler clauses e = Some h → Spec.quiet h).
  { clear -Hc. induction Hc as [|[accepts h0] clauses Hh _ IH]; intros h;
      simpl; [done |].
    destruct (accepts e); [intros [= <-]; apply Hh | apply IH]. }
  destruct (select_handler clauses e) as [h|];
    [|split; [done | by exists tr]].
  destruct (Hsel h eq_refl σ1) as (Hv' & tr' & Ht' & Hq').
  split; [congruence |]. exists (tr ++ tr')%list.
  rewrite Ht', Ht, <- app_assoc. split; [done |].
  rewrite in_app_iff. tauto.
Qed.

Lemma quiet_for_break (l : list nat) (body : nat → M bool) :
  (∀ i, Spec.quiet (body i)) → Spec.quiet (for_break l body).
Proof.
  intros Hb. induction l as [|i l IH]; [apply quiet_ret |].
  cbn [for_break]. apply quiet_bind; [apply Hb |].
  intros [|]; [apply quiet_ret | apply IH].
Qed.

Ltac quiet_step :=
  lazymatch goal with
  | |- Spec.quiet (mret _) => apply quiet_ret
  | |- Spec.quiet (raise _) => apply quiet_raise
  | |- Spec.quiet (call _ _) => apply quiet_call; discriminate
  | |- Spec.quiet (or_ValueError _ _) => apply quiet_or_ValueError
  | |- Spec.quiet (try_except _ _) =>
      apply quiet_try_except;
      [|repeat first [apply List.Forall_nil
                     |apply List.Forall_cons; [intros ?; cbn [snd] |]]]
  | |- Spec.quiet (for_break _ _) => apply quiet_for_break; intros
  | |- Spec.quiet (if _ then _ else _) => apply quiet_if
  | |- Spec.quiet (_ ≫= _) => apply quiet_bind; [|intros]
  end.

Lemma quiet_init_driver (cfg : Scraper.config) (w : env) :
  Spec.quiet (Scraper._init_driver cfg w).
Proof. unfold Scraper._init_driver. repeat quiet_step. Qed.

Lemma quiet_init_driver_optimized (cfg : ScraperOptimized.config) (w : env) :
  Spec.quiet (ScraperOptimized._init_driver cfg w).
Proof. unfold ScraperOptimized._init_driver. repeat quiet_step. Qed.

(** The shape of both scrape functions: [driver = None], then a [try]
    block that acquires the session and works with it, then a [finally]
    block that quits the session if [driver] holds one. *)
Lemma scoped_session {A} (init : M driver_handle) (rest : M A)
    (quit : outcome unit) (σ0 : state) :
  Spec.quiet init → Spec.quiet rest →
  let σ' :=
    ((set_driver None;;
      try_finally
        (try_except
           (driver ← init; set_driver (Some driver);; rest)
           [(is_Exception, λ e, raise e)])
        (driver ← get_driver;
         match driver with
         | Some _ => call EvQuit quit
         | None => mret tt
         end)) σ0).2 in
  (var_driver σ' = Some Driver
   ↔ ∃ σ1, init (State None (trace σ0)) = (Returns Driver, σ1)) ∧
  (var_driver σ' = Some Driver →
   ∃ tr, trace σ' = (trace σ0 ++ tr ++ [EvQuit])%list ∧ ¬ In EvQuit tr).
Proof.
  intros Hinit Hrest.
  unfold mbind, M_bind, set_driver, try_finally, try_except, get_driver.
  cbn [fst snd].
  destruct (Hinit (State None (trace σ0))) as (Hv1 & t1 & Ht1 & Hq1).
  destruct (init (State None (trace σ0))) as [[[]|e] σ1] eqn:Hi;
    cbn [fst snd var_driver trace] in *.
  - destruct (Hrest (State (Some Driver) (trace σ1)))
      as (Hv2 & t2 & Ht2 & Hq2).
    assert (Hend : ∀ (r : outcome A) σ2,
      var_driver σ2 = Some Driver →
      trace σ2 = (trace σ1 ++ t2)%list →
      let σ' := (match (match var_driver σ2 with
                        | Some _ => call EvQuit quit
                        | None => mret tt
                        end) σ2 with
                 | (Returns _, σ'') => (r, σ'')
                 | (Raises e, σ'') => (Raises e, σ'')
                 end).2 in
      var_driver σ' = Some Driver
      ∧ trace σ' = (trace σ0 ++ (t1 ++ t2) ++ [EvQuit])%list).
    { intros r σ2 Hv Ht. rewrite Hv. unfold call.
      destruct quit; cbn [snd var_driver trace];
        rewrite Hv, Ht, Ht1, <- !app_assoc; done. }
    assert (Hq : ¬ In EvQuit (t1 ++ t2)) by (rewrite in_app_iff; tauto).
    destruct (rest (State (Some Driver) (trace σ1))) as [[a|e] σ2];
      cbn [fst snd var_driver trace select_handler] in *.
    + destruct (Hend (Returns a) σ2 Hv2 Ht2) as [Hv Ht].
      split; [split; [by eexists | done] |]. intros _. by exists (t1 ++ t2)%list.
    + destruct (is_Exception e); unfold raise;
        destruct (Hend (Raises e) σ2 Hv2 Ht2) as [Hv Ht];
        (split; [split; [by eexists | done] |]);
        intros _; by exists (t1 ++ t2)%list.
  - assert (Hnone : ∀ σ2 : state, var_driver σ2 = None →
      var_driver (match (match var_driver σ2 with
                         | Some _ => call EvQuit quit
                         | None => mret tt
                         end) σ2 with
                  | (Returns _, σ'') => (@Raises A e, σ'')
                  | (Raises e', σ'') => (Raises e', σ'')
                  end).2 = None).
    { intros σ2 Hv. by rewrite Hv. }
    cbn [select_handler].
    destruct (is_Exception e); unfold raise; rewrite Hnone by done;
      (split; [split; [done | intros [? [=]]] | done]).
Qed.

(** The path that releases the session.  In every execution in which
    [_init_driver] has returned a session to the variable [driver], the
    last call of the execution is [driver.quit()], and it is the only one:
    whether the pipeline returns, the extraction fails or any call raises.
    This holds for [_scrape_by_date_navigation] and [scrape_date_range] of
    scraper.py and for [scrape_date_range] of scraper_optimized.py; at the
    exit of the first and the last, [driver] holds a session exactly when
    [_init_driver] returned one. *)
Lemma session_released_after_init :
  (∀ cfg w start_date end_date σ0,
     let σ' :=
       (Scraper._scrape_by_date_navigation cfg w start_date end_date σ0).2 in
     (var_driver σ' = Some Driver
      ↔ ∃ σ1, Scraper._init_driver cfg w (State None (trace σ0))
              = (Returns Driver, σ1)) ∧
     (var_driver σ' = Some Driver →
      ∃ tr, trace σ' = (trace σ0 ++ tr ++ [EvQuit])%list
            ∧ ¬ In EvQuit tr)) ∧
  (∀ cfg w start_date end_date tr0,
     let σ' :=
       (Scraper.scrape_date_range cfg w start_date end_date
          (State None tr0)).2 in
     var_driver σ' = Some Driver →
     ∃ tr, trace σ' = (tr0 ++ tr ++ [EvQuit])%list ∧ ¬ In EvQuit tr) ∧
  (∀ cfg w start_date end_date σ0,
     let σ' :=
       (ScraperOptimized.scrape_date_range cfg w start_date end_date σ0).2 in
     (var_driver σ' = Some Driver
      ↔ ∃ σ1, ScraperOptimized._init_driver cfg w (State None (trace σ0))
              = (Returns Driver, σ1)) ∧
     (var_driver σ' = Some Driver →
      ∃ tr, trace σ' = (trace σ0 ++ tr ++ [EvQuit])%list
            ∧ ¬ In EvQuit tr)).
Proof.
  assert (Hnav : ∀ cfg w start_date end_date σ0,
     let σ' :=
       (Scraper._scrape_by_date_navigation cfg w start_date end_date σ0).2 in
     (var_driver σ' = Some Driver
      ↔ ∃ σ1, Scraper._init_driver cfg w (State None (trace σ0))
              = (Returns Driver, σ1)) ∧
     (var_driver σ' = Some Driver →
      ∃ tr, trace σ' = (trace σ0 ++ tr ++ [EvQuit])%list
            ∧ ¬ In EvQuit tr)).
  { intros cfg w start_date end_date σ0.
    unfold Scraper._scrape_by_date_navigation.
    apply scoped_session; [apply quiet_init_driver |].
    unfold Scraper.scroll_loop, Scraper.scroll_body. repeat quiet_step. }
  split; [exact Hnav |]. split.
  - intros cfg w start_date end_date tr0.
    unfold Scraper.scrape_date_range,
      Scraper._scrape_full_calendar_and_filter.
    set (probe := try_except _ _).
    assert (Hp : Spec.quiet probe) by (subst probe; repeat quiet_step).
    replace (if String.eqb (Scraper.scrape_method cfg) "full_page"
             then Scraper._scrape_by_date_navigation cfg w start_date end_date
             else Scraper._scrape_by_date_navigation cfg w start_date end_date)
      with (Scraper._scrape_by_date_navigation cfg w start_date end_date)
      by (by destruct (String.eqb _ _)).
    unfold mbind, M_bind. cbv zeta.
    destruct (Hp (State None tr0)) as (Hv & tp & Ht & Hq).
    destruct (probe (State None tr0)) as [[[]|e] σp];
      cbn [fst snd var_driver trace] in *; [|congruence].
    intros Hd.
    destruct (proj2 (Hnav cfg w start_date end_date σp) Hd)
      as (tr & Htr & Hqtr).
    exists (tp ++ tr)%list. split.
    + rewrite Htr, Ht, <- !app_assoc. done.
    + rewrite in_app_iff. tauto.
  - intros cfg w start_date end_date σ0.
    unfold ScraperOptimized.scrape_date_range.
    apply scoped_session; [apply quiet_init_driver_optimized |].
    unfold ScraperOptimized.scroll_loop, ScraperOptimized.scroll_body.
    repeat quiet_step.
Qed.

Example session_released_in_scenario :
  var_driver
    (Scraper.scrape_date_range Examples.cfg Examples.world "2025-06-01"
       "2025-06-03" (State None [])).2 = Some Driver ∧
  ∃ tr,
    trace (Scraper.scrape_date_range Examples.cfg Examples.world "2025-06-01"
             "2025-06-03" (State None [])).2
    = ([] ++ tr ++ [EvQuit])%list ∧ ¬ In EvQuit tr.
Proof.
  assert (H : var_driver
    (Scraper.scrape_date_range Examples.cfg Examples.world "2025-06-01"
       "2025-06-03" (State None [])).2 = Some Driver) by reflexivity.
  split; [exact H |].
  exact (proj1 (proj2 session_released_after_init) Examples.cfg Examples.world
           "2025-06-01" "2025-06-03" [] H).
Defined.

(** The path that misses it.  [_init_driver] keeps the browser that
    [webdriver.Chrome] returns in a variable of its own and configures it
    inside the [try] block; its handlers raise an [Exception] and do not
    quit the browser.  When a configuration call raises, [_init_driver]
    raises before its [return driver]: the variable [driver] of the caller
    stays [None], and the [finally] block, which quits what [driver] holds,
    quits nothing. *)
Remark configuration_failure_trace cfg w start_date end_date σ0 e0 :
  path_exists w = true → webdriver_Chrome w = Returns tt →
  Scraper.headless cfg = true → set_page_load_timeout w = Raises e0 →
  let r := Scraper._scrape_by_date_navigation cfg w start_date end_date σ0 in
  (∃ e, r.1 = Raises e) ∧ var_driver r.2 = None
  ∧ trace r.2 = (trace σ0 ++ [EvChrome; EvConfigure])%list.
Proof.
  intros Hp Hc Hh Ht.
  unfold Scraper._scrape_by_date_navigation, Scraper._init_driver.
  unfold mbind, M_bind, mret, M_ret, set_driver, try_finally, try_except,
    get_driver, call, raise.
  rewrite Hp, Hc, Hh, Ht. cbn [negb select_handler fst snd].
  destruct (is_OSError e0); [|destruct (is_WebDriverException e0)];
    try destruct (contains _ _ || contains _ _);
    try destruct (contains "chromedriver" _);
    cbn [select_handler is_Exception exn_cls];
    try destruct (is_Exception e0);
    cbn; rewrite <- ?app_assoc; eauto.
Qed.

Remark configuration_failure_trace_optimized cfg w start_date end_date σ0 e0 :
  path_exists w = true → webdriver_Chrome w = Returns tt →
  set_page_load_timeout w = Raises e0 →
  let r := ScraperOptimized.scrape_date_range cfg w start_date end_date σ0 in
  (∃ e, r.1 = Raises e) ∧ var_driver r.2 = None
  ∧ trace r.2 = (trace σ0 ++ [EvChrome; EvConfigure])%list.
Proof.
  intros Hp Hc Ht.
  unfold ScraperOptimized.scrape_date_range, ScraperOptimized._init_driver.
  unfold mbind, M_bind, mret, M_ret, set_driver, try_finally, try_except,
    get_driver, call, raise.
  rewrite Hp, Hc, Ht. cbn [negb select_handler fst snd].
  destruct (is_WebDriverException e0);
    cbn [select_handler is_Exception exn_cls];
    try destruct (is_Exception e0);
    cbn; rewrite <- ?app_assoc; eauto.
Qed.

(** C8: a browser session that was acquired is not quit on every exit
    path.  In the world [Examples.lost_browser] the driver binary is there,
    [webdriver.Chrome] returns a browser, and the first call on it,
    [driver.set_page_load_timeout], raises a [WebDriverException].  For the
    dates 2025-06-01 and 2025-06-03, [scrape_date_range] of scraper.py
    then raises the [Exception] of [_init_driver] with the variable
    [driver] still [None], after the calls [requests.get],
    [webdriver.Chrome] and [set_page_load_timeout] and no others;
    [_scrape_by_date_navigation] and [scrape_date_range] of
    scraper_optimized.py do the same after the last two calls.  In each of
    the three executions the session is leaked: the browser was started and
    [driver.quit()] is not called. *)
Theorem C8_started_browser_not_quit :
  (Scraper.scrape_date_range Examples.cfg Examples.lost_browser
     "2025-06-01" "2025-06-03" (State None [])
   = (Raises Examples.failed_to_start,
      State None [EvRequest; EvChrome; EvConfigure])
   ∧ Spec.session_leaked Examples.lost_browser
       (trace (Scraper.scrape_date_range Examples.cfg Examples.lost_browser
                 "2025-06-01" "2025-06-03" (State None [])).2)) ∧
  (Scraper._scrape_by_date_navigation Examples.cfg Examples.lost_browser
     "2025-06-01" "2025-06-03" (State None [])
   = (Raises Examples.failed_to_start, State None [EvChrome; EvConfigure])
   ∧ Spec.session_leaked Examples.lost_browser
       (trace (Scraper._scrape_by_date_navigation Examples.cfg
                 Examples.lost_browser "2025-06-01" "2025-06-03"
                 (State None [])).2)) ∧
  (ScraperOptimized.scrape_date_range Examples.cfg_optimized
     Examples.lost_browser "2025-06-01" "2025-06-03" (State None [])
   = (Raises Examples.failed_to_start_optimized,
      State None [EvChrome; EvConfigure])
   ∧ Spec.session_leaked Examples.lost_browser
       (trace (ScraperOptimized.scrape_date_range Examples.cfg_optimized
                 Examples.lost_browser "2025-06-01" "2025-06-03"
                 (State None [])).2)).
Proof.
  assert (H1 : Scraper.scrape_date_range Examples.cfg Examples.lost_browser
                 "2025-06-01" "2025-06-03" (State None [])
               = (Raises Examples.failed_to_start,
                  State None [EvRequest; EvChrome; EvConfigure]))
    by (vm_compute; reflexivity).
  assert (H2 : Scraper._scrape_by_date_navigation Examples.cfg
                 Examples.lost_browser "2025-06-01" "2025-06-03"
                 (State None [])
               = (Raises Examples.failed_to_start,
                  State None [EvChrome; EvConfigure]))
    by (vm_compute; reflexivity).
  assert (H3 : ScraperOptimized.scrape_date_range Examples.cfg_optimized
                 Examples.lost_browser "2025-06-01" "2025-06-03"
                 (State None [])
               = (Raises Examples.failed_to_start_optimized,
                  State None [EvChrome; EvConfigure]))
    by (vm_compute; reflexivity).
  rewrite H1, H2, H3. cbn [snd trace].
  unfold Spec.session_leaked, Spec.session_acquired.
  repeat split; try reflexivity; cbn; intuition discriminate.
Qed.

End session.

(** ** The records that a scrape returns *)

Section emitted.
Import Py Run PyFacts.

Lemma is_digit_digit_char (n : Z) : is_digit (digit_char (n mod 10)) = true.
Proof.
  assert (H : 0 <= n mod 10 < 10) by (apply Z.mod_pos_bound; lia).
  assert (Hc : n mod 10 = 0 ∨ n mod 10 = 1 ∨ n mod 10 = 2 ∨ n mod 10 = 3
               ∨ n mod 10 = 4 ∨ n mod 10 = 5 ∨ n mod 10 = 6
               ∨ n mod 10 = 7 ∨ n mod 10 = 8 ∨ n mod 10 = 9) by lia.
  repeat (destruct Hc as [-> | Hc]; [reflexivity |]).
  by rewrite Hc.
Qed.

(** [strftime("%Y-%m-%d")] always writes the shape YYYY-MM-DD. *)
Lemma iso_form_strftime (d : datetime) :
  Spec.iso_form (strftime_iso d) = true.
Proof.
  unfold strftime_iso, pad4, pad2. simpl.
  by rewrite !is_digit_digit_char.
Qed.

Lemma strptime_midnight (t fmt : string) (d : datetime) :
  strptime t fmt = Some d → tod d = 0.
Proof.
  unfold strptime. destruct (pattern fmt) as [ts|]; [|done]. simpl.
  destruct (match_tokens ts _ t) as [|[g r] l]; [done |].
  destruct r; [|done]. unfold datetime_of_groups.
  destruct (match g_year g with Some y => _ | None => _ end) as [y fix_].
  destruct (make_datetime y _ _); [|done]. simpl.
  intros H. apply make_datetime_Some in H as [-> _]. done.
Qed.

(** What the block of a format returns is written by [strftime]. *)
Lemma try_format_strftime now t cy fmt r :
  Scraper.try_format now t cy fmt = Some r → ∃ d, r = strftime_iso d.
Proof.
  unfold Scraper.try_format.
  destruct (strptime t fmt) as [d0|]; [|done]. simpl.
  destruct (if negb (contains "%Y" fmt) then _ else _) as [d|]; [|done].
  simpl. intros [= <-]. by exists d.
Qed.

Lemma parse_date_strftime now text cy r :
  Scraper._parse_date_optimized now text cy = Some r →
  ∃ d, r = strftime_iso d.
Proof.
  unfold Scraper._parse_date_optimized.
  destruct (String.eqb text ""); [done |].
  generalize (title (strip text)). intros t.
  induction Scraper.formats as [|fmt fmts IH]; [done |].
  cbn [Scraper.try_formats].
  destruct (Scraper.try_format now t cy fmt) as [r'|] eqn:Hf; [|exact IH].
  intros [= <-]. by eapply try_format_strftime.
Qed.

Lemma process_item_ok now start end_ cy (item item' : gmap string string) :
  Spec.extracted_ok item →
  Scraper.process_item now start end_ cy item = Some item' →
  (∃ name, item' !! "name" = Some name ∧ name ≠ "") ∧
  (∃ date d,
     item' !! "date" = Some date ∧ Spec.iso_form date = true
     ∧ strptime date "%Y-%m-%d" = Some d
     ∧ instant start <= instant d <= instant end_) ∧
  Forall (λ key, is_Some (item' !! key)) Spec.other_fields.
Proof.
  intros [(name & Hname & Hne) Hkeys]. unfold Scraper.process_item.
  destruct (Scraper._parse_date_optimized _ _ _) as [parsed|] eqn:Hp; [|done].
  destruct (String.eqb parsed ""); [done |].
  destruct (strptime parsed "%Y-%m-%d") as [d|] eqn:Hd; [|done].
  destruct (dt_leb start d && dt_leb d end_) eqn:Hr; [|done].
  destruct (delete "date_header" (<["date":=parsed]> item) !! "channel")
    as [channel|] eqn:Hc; [|done].
  simpl. intros [= <-].
  apply parse_date_strftime in Hp as [d0 ->].
  apply andb_true_iff in Hr as [H1 H2].
  apply Z.leb_le in H1, H2.
  split; [|split].
  - exists name. by simplify_map_eq.
  - exists (strftime_iso d0), d.
    split; [by simplify_map_eq |].
    split; [apply iso_form_strftime | done].
  - unfold Spec.other_fields in *.
    repeat match goal with
           | H : Forall _ (_ :: _) |- _ => apply Forall_cons in H as [? H]
           end.
    repeat (apply List.Forall_cons; [by simplify_map_eq | ]).
    apply List.Forall_nil.
Qed.

Lemma Forall_filter_bool {A} (P : A → Prop) (f : A → bool) (l : list A) :
  Forall P l → Forall P (List.filter f l).
Proof.
  induction 1 as [|x l Hx _ IH]; simpl; [done |].
  destruct (f x); [by constructor | done].
Qed.

Lemma process_items_ok w start end_ cy i (items : list (gmap string string)) :
  Forall Spec.extracted_ok items →
  Forall (λ item',
            (∃ name, item' !! "name" = Some name ∧ name ≠ "") ∧
            (∃ date d,
               item' !! "date" = Some date ∧ Spec.iso_form date = true
               ∧ strptime date "%Y-%m-%d" = Some d
               ∧ instant start <= instant d <= instant end_) ∧
            Forall (λ key, is_Some (item' !! key)) Spec.other_fields)
    (Scraper.process_items w start end_ cy i items).
Proof.
  intros H. revert i. induction H as [|item items Hi _ IH]; intros i.
  - constructor.
  - cbn [Scraper.process_items].
    destruct (Scraper.process_item _ _ _ _ item) as [item'|] eqn:Hp;
      [|apply IH].
    constructor; [|apply IH]. by eapply process_item_ok.
Qed.

Lemma extracted_items_ok (section : option (list element)) :
  Forall Spec.extracted_ok (Scraper.extractAllData section).
Proof.
  apply List.Forall_forall. intros item Hin.
  destruct section as [elements|]; [|done]. simpl in Hin.
  apply (extracted_under_header Scraper.make_item) in Hin;
    [|intros; reflexivity].
  destruct Hin as (? & header & ? & elem & ? & _ & _ & _ & _ & _ & Hn & ->).
  split.
  - exists (or_empty (div_h3 elem)). split; [reflexivity | exact Hn].
  - unfold Spec.other_fields.
    repeat (apply List.Forall_cons; [by eexists |]). apply List.Forall_nil.
Qed.

Lemma extracted_items_ok_optimized (section : option (list element)) :
  Forall Spec.extracted_ok (ScraperOptimized.extractAllData section).
Proof.
  apply List.Forall_forall. intros item Hin.
  destruct section as [elements|]; [|done]. simpl in Hin.
  apply (extracted_under_header ScraperOptimized.make_item) in Hin;
    [|intros; reflexivity].
  destruct Hin as (? & header & ? & elem & ? & _ & _ & _ & _ & _ & Hn & ->).
  split.
  - exists (or_empty (div_h3 elem)). split; [reflexivity | exact Hn].
  - unfold Spec.other_fields.
    repeat (apply List.Forall_cons; [by eexists |]). apply List.Forall_nil.
Qed.

(** The records of the last stages of the pipeline, for parsed bounds. *)
Lemma pipeline_records_ok w start_date end_date start end_
    (all_data : list (gmap string string)) :
  strptime start_date "%Y-%m-%d" = Some start →
  strptime end_date "%Y-%m-%d" = Some end_ →
  Forall Spec.extracted_ok all_data →
  Forall (Spec.emitted_ok start_date end_date)
    (Scraper._filter_excluded_content
       (Scraper.process_items w start end_ (now_year w) 0 all_data)).
Proof.
  intros Hs He Hall. apply Forall_filter_bool.
  eapply List.Forall_impl; [|by apply process_items_ok].
  intros item (Hname & (date & d & Hdate & Hiso & Hd & Hr) & Hkeys).
  split; [done |]. split; [|done].
  exists date, d, start, end_. repeat (split; [done |]).
  unfold instant in Hr.
  rewrite (strptime_midnight _ _ _ Hs), (strptime_midnight _ _ _ He),
    (strptime_midnight _ _ _ Hd) in Hr.
  unfold us_per_day in Hr. lia.
Qed.

(** Reading a run that returns. *)
Lemma bind_returns {A B} (m : M A) (f : A → M B) σ b σ' :
  (m ≫= f) σ = (Returns b, σ') →
  ∃ a σ1, m σ = (Returns a, σ1) ∧ f a σ1 = (Returns b, σ').
Proof.
  unfold mbind, M_bind. destruct (m σ) as [[a|e] σ1]; [|done].
  intros H. by exists a, σ1.
Qed.

Lemma try_finally_returns {A} (m : M A) (f : M unit) σ b σ' :
  try_finally m f σ = (Returns b, σ') → ∃ σ1, m σ = (Returns b, σ1).
Proof.
  unfold try_finally. destruct (m σ) as [r σ1].
  destruct (f σ1) as [[[]|e] σ2]; [|done].
  intros [= -> _]. by exists σ1.
Qed.

Lemma try_except_reraise_returns {A} (m : M A) (accepts : exn → bool)
    σ b σ' :
  try_except m [(accepts, λ e, raise e)] σ = (Returns b, σ') →
  m σ = (Returns b, σ').
Proof.
  unfold try_except. destruct (m σ) as [[a|e] σ1]; [done |].
  cbn [select_handler]. by destruct (accepts e).
Qed.

Lemma or_ValueError_returns {A} (o : option A) msg σ a σ' :
  or_ValueError o msg σ = (Returns a, σ') → o = Some a.
Proof. destruct o; [by intros [= -> _] | done]. Qed.

Lemma mret_returns {A} (a b : A) (σ σ' : state) :
  (mret a : M A) σ = (Returns b, σ') → a = b.
Proof. by intros [= -> _]. Qed.

Lemma navigation_returns cfg w start_date end_date σ records σ' :
  Scraper._scrape_by_date_navigation cfg w start_date end_date σ
  = (Returns records, σ') →
  ∃ start end_ section,
    strptime start_date "%Y-%m-%d" = Some start
    ∧ strptime end_date "%Y-%m-%d" = Some end_
    ∧ records
      = Scraper._filter_excluded_content
          (Scraper.process_items w start end_ (now_year w) 0
             (Scraper.extractAllData section)).
Proof.
  unfold Scraper._scrape_by_date_navigation. intros H.
  apply bind_returns in H as (_ & σ1 & _ & H).
  apply try_finally_returns in H as (σ2 & H).
  apply try_except_reraise_returns in H.
  apply bind_returns in H as (driver & σ3 & _ & H).
  apply bind_returns in H as (_ & σ4 & _ & H).
  apply bind_returns in H as (start & σ5 & Hs & H).
  apply bind_returns in H as (end_ & σ6 & He & H).
  cbv zeta in H.
  apply bind_returns in H as (_ & σ7 & _ & H).
  apply bind_returns in H as (_ & σ8 & _ & H).
  apply bind_returns in H as (section & σ9 & _ & H).
  apply mret_returns in H.
  apply or_ValueError_returns in Hs, He.
  by exists start, end_, section.
Qed.

Lemma optimized_returns cfg w start_date end_date σ records σ' :
  ScraperOptimized.scrape_date_range cfg w start_date end_date σ
  = (Returns records, σ') →
  ∃ start end_ section,
    strptime start_date "%Y-%m-%d" = Some start
    ∧ strptime end_date "%Y-%m-%d" = Some end_
    ∧ records
      = Scraper._filter_excluded_content
          (Scraper.process_items w start end_ (now_year w) 0
             (ScraperOptimized.extractAllData section)).
Proof.
  unfold ScraperOptimized.scrape_date_range. intros H.
  apply bind_returns in H as (_ & σ1 & _ & H).
  apply try_finally_returns in H as (σ2 & H).
  apply try_except_reraise_returns in H.
  apply bind_returns in H as (driver & σ3 & _ & H).
  apply bind_returns in H as (_ & σ4 & _ & H).
  apply bind_returns in H as (start & σ5 & Hs & H).
  apply bind_returns in H as (end_ & σ6 & He & H).
  cbv zeta in H.
  apply bind_returns in H as (_ & σ7 & _ & H).
  apply bind_returns in H as (_ & σ8 & _ & H).
  apply bind_returns in H as (section & σ9 & _ & H).
  apply mret_returns in H.
  apply or_ValueError_returns in Hs, He.
  exists start, end_, section. repeat (split; [done |]).
  rewrite <- H. reflexivity.
Qed.

(** C1: every record that a scrape returns has a non-empty name, a date of
    the shape YYYY-MM-DD naming a calendar day from the start date to the
    end date of the request, both included, and the fields type,
    description, channel, channel_image, show_image and website present.
    This holds for [scrape_date_range] of both modules. *)
Theorem C1_emitted_records :
  (∀ cfg w start_date end_date σ records σ',
     Scraper.scrape_date_range cfg w start_date end_date σ
     = (Returns records, σ') →
     Forall (Spec.emitted_ok start_date end_date) records) ∧
  (∀ cfg w start_date end_date σ records σ',
     ScraperOptimized.scrape_date_range cfg w start_date end_date σ
     = (Returns records, σ') →
     Forall (Spec.emitted_ok start_date end_date) records).
Proof.
  split.
  - intros cfg w start_date end_date σ records σ' H.
    unfold Scraper.scrape_date_range,
      Scraper._scrape_full_calendar_and_filter in H.
    apply bind_returns in H as (_ & σ1 & _ & H).
    assert (H' : Scraper._scrape_by_date_navigation cfg w start_date
                   end_date σ1 = (Returns records, σ'))
      by (by destruct (String.eqb _ _)).
    apply navigation_returns in H' as (start & end_ & section & Hs & He & ->).
    eapply pipeline_records_ok; [done | done |]. apply extracted_items_ok.
  - intros cfg w start_date end_date σ records σ' H.
    apply optimized_returns in H as (start & end_ & section & Hs & He & ->).
    eapply pipeline_records_ok; [done | done |].
    apply extracted_items_ok_optimized.
Qed.

Lemma C1_witness :
  Scraper.scrape_date_range Examples.cfg Examples.world "2025-06-01"
    "2025-06-03" (State None [])
  = (Returns Examples.emitted, Examples.final_state) ∧
  Forall (Spec.emitted_ok "2025-06-01" "2025-06-03") Examples.emitted.
Proof.
  assert (H : Scraper.scrape_date_range Examples.cfg Examples.world
                "2025-06-01" "2025-06-03" (State None [])
              = (Returns Examples.emitted, Examples.final_state))
    by (vm_compute; reflexivity).
  split; [exact H |].
  exact (proj1 C1_emitted_records _ _ _ _ _ _ _ H).
Defined.

End emitted.

(** ** The extraction script, day by day *)

Section extraction_blocks.
Import Py Run PyFacts.

Variable make : string → element → gmap string string.
Variable step :
  string * list (gmap string string) → element →
  string * list (gmap string string).
Hypothesis step_unfold : ∀ currentDate results elem,
  step (currentDate, results) elem
  = if String.eqb (tagName elem) "H6" then
      (js_trim (textContent elem), results)
    else if String.eqb (tagName elem) "A"
            && negb (String.eqb currentDate "")
    then
      if negb (String.eqb (or_empty (make currentDate elem !! "name")) "")
      then (currentDate, (results ++ [make currentDate elem])%list)
      else (currentDate, results)
    else (currentDate, results).
Hypothesis make_name : ∀ currentDate elem,
  or_empty (make currentDate elem !! "name") = or_empty (div_h3 elem).

(** The loop over a run of elements without a header, under a date. *)
Lemma fold_step_block (block : list element) currentDate results :
  Forall (λ e, tagName e ≠ "H6") block →
  fold_left step block (currentDate, results)
  = (currentDate,
     (results ++
      (if String.eqb currentDate "" then []
       else make currentDate <$> List.filter SpecX.named_anchor block))%list).
Proof.
  intros H. revert results.
  induction H as [|elem block Hh _ IH]; intros results.
  - simpl. destruct (String.eqb currentDate ""); by rewrite app_nil_r.
  - cbn [fold_left List.filter]. rewrite step_unfold.
    apply String.eqb_neq in Hh. rewrite Hh. unfold SpecX.named_anchor.
    rewrite make_name.
    destruct (String.eqb (tagName elem) "A"); cbn [andb]; [|apply IH].
    destruct (String.eqb currentDate "") eqn:Hc; cbn [negb]; [apply IH |].
    destruct (String.eqb (or_empty (div_h3 elem)) ""); cbn [negb];
      [apply IH |].
    rewrite IH. by rewrite <- app_assoc.
Qed.

Lemma extract_day (before block : list element) (header : element) :
  tagName header = "H6" →
  Forall (λ e, tagName e ≠ "H6") block →
  (fold_left step (before ++ header :: block) ("", [])).2
  = ((fold_left step before ("", [])).2 ++
     (if String.eqb (js_trim (textContent header)) "" then []
      else make (js_trim (textContent header))
             <$> List.filter SpecX.named_anchor block))%list.
Proof.
  intros Hh Hb. rewrite fold_left_app. cbn [fold_left].
  destruct (fold_left step before ("", [])) as [cur res] eqn:Hf.
  rewrite step_unfold. apply String.eqb_eq in Hh. rewrite Hh.
  by rewrite fold_step_block.
Qed.

End extraction_blocks.

Section extraction_more.
Import Py Run PyFacts.

(** X1: the extraction script works day by day.  For a page that ends
    with a date header and a run of elements without a header, the
    records are those of the page before that header, followed by one
    record for each anchor of the run that has a non-empty title, in
    order, each under the trimmed text of the header; a header whose
    trimmed text is empty adds none.  This holds for the script of both
    modules. *)
Theorem extraction_of_a_day :
  (∀ before header block,
     tagName header = "H6" →
     Forall (λ e, tagName e ≠ "H6") block →
     Scraper.extractAllData (Some (before ++ header :: block)%list)
     = (Scraper.extractAllData (Some before) ++
        (if String.eqb (js_trim (textContent header)) "" then []
         else Scraper.make_item (js_trim (textContent header))
                <$> List.filter SpecX.named_anchor block))%list) ∧
  (∀ before header block,
     tagName header = "H6" →
     Forall (λ e, tagName e ≠ "H6") block →
     ScraperOptimized.extractAllData (Some (before ++ header :: block)%list)
     = (ScraperOptimized.extractAllData (Some before) ++
        (if String.eqb (js_trim (textContent header)) "" then []
         else ScraperOptimized.make_item (js_trim (textContent header))
                <$> List.filter SpecX.named_anchor block))%list).
Proof.
  split; intros before header block Hh Hb.
  - apply (extract_day Scraper.make_item); (done || intros; reflexivity).
  - apply (extract_day ScraperOptimized.make_item);
      (done || intros; reflexivity).
Qed.

Lemma make_item_without_extras currentDate elem :
  SpecX.without_extras (Scraper.make_item currentDate elem)
  = ScraperOptimized.make_item currentDate elem.
Proof. reflexivity. Qed.

End extraction_more.

(** ** The two modules side by side *)

Section two_modules.
Import Py Run PyFacts.

Lemma extract_without_extras (section : option (list element)) :
  ScraperOptimized.extractAllData section
  = SpecX.without_extras <$> Scraper.extractAllData section.
Proof.
  destruct section as [elements|]; [|done].
  unfold ScraperOptimized.extractAllData, Scraper.extractAllData.
  assert (H : ∀ currentDate results,
    fold_left ScraperOptimized.extract_step elements
      (currentDate, SpecX.without_extras <$> results)
    = ((fold_left Scraper.extract_step elements (currentDate, results)).1,
       SpecX.without_extras
         <$> (fold_left Scraper.extract_step elements
                (currentDate, results)).2)).
  { induction elements as [|elem elements IH]; intros currentDate results;
      [done |].
    cbn [fold_left].
    unfold ScraperOptimized.extract_step at 2, Scraper.extract_step at 2 4.
    destruct (String.eqb (tagName elem) "H6"); [apply IH |].
    destruct (String.eqb (tagName elem) "A"
              && negb (String.eqb currentDate "")); [|apply IH].
    change (or_empty (ScraperOptimized.make_item currentDate elem !! "name"))
      with (or_empty (div_h3 elem)).
    change (or_empty (Scraper.make_item currentDate elem !! "name"))
      with (or_empty (div_h3 elem)).
    destruct (negb (String.eqb (or_empty (div_h3 elem)) "")); [|apply IH].
    rewrite <- IH, fmap_app. reflexivity. }
  specialize (H "" []).
  change (SpecX.without_extras <$> []) with (@nil (gmap string string)) in H.
  by rewrite H.
Qed.

Lemma process_item_without_extras today start end_ cy
    (item : gmap string string) :
  Scraper.process_item today start end_ cy (SpecX.without_extras item)
  = SpecX.without_extras <$> Scraper.process_item today start end_ cy item.
Proof.
  unfold Scraper.process_item, SpecX.without_extras, get.
  rewrite !lookup_delete_ne by done.
  destruct (Scraper._parse_date_optimized _ _ _) as [parsed|]; [|done].
  destruct (String.eqb parsed ""); [done |].
  destruct (strptime parsed _) as [d|]; [|done].
  destruct (dt_leb start d && dt_leb d end_); [|done].
  rewrite !lookup_delete_ne, !lookup_insert_ne, !lookup_delete_ne by done.
  destruct (item !! "channel") as [channel|]; [|done]. simpl. f_equal.
  apply map_eq. intros k.
  destruct (decide (k = "country")) as [->|]; [by simplify_map_eq |].
  destruct (decide (k = "website_url")) as [->|]; [by simplify_map_eq |].
  destruct (decide (k = "channel")) as [->|]; [by simplify_map_eq |].
  destruct (decide (k = "date_header")) as [->|]; [by simplify_map_eq |].
  destruct (decide (k = "date")) as [->|]; by simplify_map_eq.
Qed.

Lemma process_items_without_extras w start end_ cy i
    (items : list (gmap string string)) :
  Scraper.process_items w start end_ cy i (SpecX.without_extras <$> items)
  = SpecX.without_extras <$> Scraper.process_items w start end_ cy i items.
Proof.
  revert i. induction items as [|item items IH]; intros i; [done |].
  cbn [fmap list_fmap Scraper.process_items].
  rewrite process_item_without_extras.
  destruct (Scraper.process_item _ _ _ _ item); simpl; by rewrite IH.
Qed.

Lemma filter_excluded_without_extras (items : list (gmap string string)) :
  Scraper._filter_excluded_content (SpecX.without_extras <$> items)
  = SpecX.without_extras <$> Scraper._filter_excluded_content items.
Proof.
  unfold Scraper._filter_excluded_content.
  induction items as [|item items IH]; [done |].
  rewrite fmap_cons. cbn [List.filter].
  assert (Hc : Scraper.content_text (SpecX.without_extras item)
               = Scraper.content_text item).
  { unfold Scraper.content_text, SpecX.without_extras, get.
    by rewrite !lookup_delete_ne by done. }
  rewrite Hc. destruct (negb _); [rewrite fmap_cons |]; by rewrite IH.
Qed.

Lemma resolved_records_without_extras w start end_ cy section :
  ScraperOptimized._filter_excluded_content
    (ScraperOptimized.process_items w start end_ cy 0
       (ScraperOptimized.extractAllData section))
  = SpecX.without_extras
      <$> SpecX.resolved_records w start end_ cy
            (Scraper.extractAllData section).
Proof.
  unfold SpecX.resolved_records.
  rewrite <- filter_excluded_without_extras, <- process_items_without_extras,
    <- extract_without_extras.
  reflexivity.
Qed.

End two_modules.

Section two_modules_runs.
Import Py Run PyFacts.

Lemma try_finally_returns_both {A} (m : M A) (f : M unit) σ b σ' :
  try_finally m f σ = (Returns b, σ') →
  ∃ σ1, m σ = (Returns b, σ1) ∧ f σ1 = (Returns tt, σ').
Proof.
  unfold try_finally. destruct (m σ) as [r σ1].
  destruct (f σ1) as [[[]|e] σ2] eqn:Hf; [|done].
  intros [= -> ->]. by exists σ1.
Qed.

Lemma call_returns {A} (ev : event) (o : outcome A) σ a σ' :
  call ev o σ = (Returns a, σ') → o = Returns a.
Proof. unfold call. by intros [= H _]. Qed.

(** A [try] whose only handler always raises returns only when its body
    returns. *)
Lemma try_except_raising_returns {A} (m : M A) (accepts : exn → bool)
    (h : exn → M A) σ b σ' :
  (∀ e σ1, ∃ e' σ2, h e σ1 = (Raises e', σ2)) →
  try_except m [(accepts, h)] σ = (Returns b, σ') →
  m σ = (Returns b, σ').
Proof.
  intros Hh. unfold try_except. destruct (m σ) as [[a|e] σ1]; [done |].
  cbn [select_handler]. destruct (accepts e); [|done].
  destruct (Hh e σ1) as (e' & σ2 & ->). done.
Qed.

(** Whether and how the scroll loop ends depends on the world only. *)
Lemma for_break_result_any_state (w : env) (l : list nat) (σ σ' : state) :
  (for_break l (Scraper.scroll_body w) σ).1
  = (for_break l (Scraper.scroll_body w) σ').1.
Proof.
  revert σ σ'. induction l as [|i l IH]; intros σ σ'; [done |].
  cbn [for_break]. unfold mbind, M_bind.
  unfold Scraper.scroll_body at 1 3.
  unfold mbind, M_bind, mret, M_ret, call.
  destruct (height_before w i); [|done].
  destruct (scroll_to w i); [|done].
  destruct (height_after w i) as [b|]; [|done].
  destruct (b =? _); [done | apply IH].
Qed.

(** What the world answered when [_init_driver] of scraper.py returned. *)
Lemma init_driver_returns cfg w σ d σ' :
  Scraper._init_driver cfg w σ = (Returns d, σ') →
  path_exists w = true ∧ webdriver_Chrome w = Returns tt
  ∧ set_page_load_timeout w = Returns tt.
Proof.
  unfold Scraper._init_driver.
  unfold mbind, M_bind, mret, M_ret, call, raise, try_except.
  destruct (path_exists w); [|done]. cbn [negb].
  destruct (webdriver_Chrome w) as [[]|e1];
    [|cbn [select_handler];
      repeat match goal with
             | |- context [if ?b then _ else _] => destruct b
             end; done].
  destruct (negb (Scraper.headless cfg));
    [destruct (maximize_window w) as [[]|e2];
      [|cbn [select_handler];
        repeat match goal with
               | |- context [if ?b then _ else _] => destruct b
               end; done] |];
    (destruct (set_page_load_timeout w) as [[]|e3];
      [done
      |cbn [select_handler];
       repeat match goal with
              | |- context [if ?b then _ else _] => destruct b
              end; done]).
Qed.

End two_modules_runs.

Section two_modules_agree.
Import Py Run PyFacts.

Lemma scroll_loop_returns_any_state (w : env) (σ σ0 σ' : state) :
  Scraper.scroll_loop w σ = (Returns tt, σ') →
  ∃ σ0', ScraperOptimized.scroll_loop w σ0 = (Returns tt, σ0').
Proof.
  intros H.
  change (ScraperOptimized.scroll_loop w σ0) with (Scraper.scroll_loop w σ0).
  pose proof (for_break_result_any_state w (seq 0 Scraper.max_scrolls) σ σ0)
    as Heq.
  unfold Scraper.scroll_loop in *. rewrite H in Heq. cbn [fst] in Heq.
  destruct (for_break _ _ σ0) as [r σ0']. cbn [fst] in Heq. subst r.
  by exists σ0'.
Qed.

Lemma quiet_var_driver {A} (m : M A) σ r σ' :
  Spec.quiet m → m σ = (r, σ') → var_driver σ' = var_driver σ.
Proof. intros Hq H. destruct (Hq σ) as [Hv _]. by rewrite H in Hv. Qed.

Ltac quiet_steps :=
  repeat lazymatch goal with
  | |- Spec.quiet (mret _) => apply quiet_ret
  | |- Spec.quiet (raise _) => apply quiet_raise
  | |- Spec.quiet (call _ _) => apply quiet_call; discriminate
  | |- Spec.quiet (or_ValueError _ _) => apply quiet_or_ValueError
  | |- Spec.quiet (try_except _ _) =>
      apply quiet_try_except;
      [|repeat first [apply List.Forall_nil
                     |apply List.Forall_cons; [intros ?; cbn [snd] |]]]
  | |- Spec.quiet (for_break _ _) => apply quiet_for_break; intros
  | |- Spec.quiet (if _ then _ else _) => apply quiet_if
  | |- Spec.quiet (_ ≫= _) => apply quiet_bind; [|intros]
  end.

Lemma optimized_run_returns cfg cfg' w start_date end_date σ σ' σ0 records :
  Scraper._scrape_by_date_navigation cfg w start_date end_date σ
  = (Returns records, σ') →
  (ScraperOptimized.scrape_date_range cfg' w start_date end_date σ0).1
  = Returns (SpecX.without_extras <$> records).
Proof.
  unfold Scraper._scrape_by_date_navigation. intros H.
  apply bind_returns in H as ([] & σ1 & _ & H).
  apply try_finally_returns_both in H as (σ2 & H & Hquit).
  apply try_except_reraise_returns in H.
  apply bind_returns in H as ([] & σ3 & Hinit & H).
  apply bind_returns in H as ([] & σ4 & Hset & H).
  (* the session is still in [driver] when the [finally] block runs *)
  assert (Hq : driver_quit w = Returns tt).
  { assert (Hv : var_driver σ2 = Some Driver).
    { injection Hset as <-.
      eapply quiet_var_driver in H; [exact H |].
      unfold Scraper.scroll_loop, Scraper.scroll_body. quiet_steps. }
    unfold mbind, M_bind, get_driver in Hquit. rewrite Hv in Hquit.
    by apply call_returns in Hquit. }
  apply bind_returns in H as (start & σ5 & Hs & H).
  apply bind_returns in H as (end_ & σ6 & He & H).
  cbv zeta in H.
  apply bind_returns in H as ([] & σ7 & Hget & H).
  apply bind_returns in H as ([] & σ8 & Hscroll & H).
  apply bind_returns in H as (section & σ9 & Hsec & H).
  apply mret_returns in H. subst records.
  apply or_ValueError_returns in Hs, He.
  apply init_driver_returns in Hinit as (Hp & Hc & Ht).
  apply try_except_raising_returns in Hget;
    [|intros e σa; destruct (contains _ _); eauto].
  apply call_returns in Hget. apply call_returns in Hsec.
  unfold ScraperOptimized.scrape_date_range,
    ScraperOptimized._init_driver.
  rewrite Hs, He, Hp, Hc, Ht, Hget, Hsec, Hq.
  unfold or_ValueError.
  unfold mbind, M_bind, mret, M_ret, set_driver, try_finally, try_except,
    get_driver, call, raise.
  cbn [negb fst snd select_handler var_driver trace].
  match goal with
  | |- context [ScraperOptimized.scroll_loop w ?s] =>
      destruct (scroll_loop_returns_any_state w σ7 s σ8 Hscroll)
        as [σ0' ->]
  end.
  destruct (var_driver σ0'); cbn [fst];
    by rewrite resolved_records_without_extras.
Qed.

(** X2: scraper_optimized.py computes what scraper.py computes, less the
    two fields [website_url] and [country] that only the script of
    scraper.py writes.  On the same page, with the same range, current
    year and clock, the three stages of scraper_optimized.py yield the
    records of scraper.py without these fields; and in a world in which
    [_scrape_by_date_navigation] of scraper.py returns records,
    [scrape_date_range] of scraper_optimized.py returns the same records
    without these fields. *)
Theorem optimized_agrees :
  (∀ w start end_ current_year section,
     ScraperOptimized._filter_excluded_content
       (ScraperOptimized.process_items w start end_ current_year 0
          (ScraperOptimized.extractAllData section))
     = SpecX.without_extras
         <$> SpecX.resolved_records w start end_ current_year
               (Scraper.extractAllData section)) ∧
  (∀ cfg cfg' w start_date end_date σ σ' σ0 records,
     Scraper._scrape_by_date_navigation cfg w start_date end_date σ
     = (Returns records, σ') →
     (ScraperOptimized.scrape_date_range cfg' w start_date end_date σ0).1
     = Returns (SpecX.without_extras <$> records)).
Proof.
  split.
  - intros. apply resolved_records_without_extras.
  - intros. by eapply optimized_run_returns.
Qed.

End two_modules_agree.

(** ** The shape and the origin of the returned records *)

Section record_shape.
Import Py Run PyFacts.

Ltac solve_keys :=
  unfold SpecX.record_keys, SpecX.record_keys_optimized;
  cbn [list_to_set]; set_unfold; intuition congruence.

Lemma dom_make_item (currentDate : string) (elem : element) :
  dom (Scraper.make_item currentDate elem)
  = {["date_header"]} ∪ (SpecX.record_keys ∖ {["date"]}).
Proof.
  unfold Scraper.make_item, list_to_map. cbn [foldr uncurry].
  rewrite !dom_insert_L, dom_empty_L. solve_keys.
Qed.

Lemma make_item_extras (currentDate : string) (elem : element) :
  Scraper.make_item currentDate elem !! "website_url" = Some ""
  ∧ Scraper.make_item currentDate elem !! "country" = Some "US".
Proof. done. Qed.

Lemma dom_make_item_optimized (currentDate : string) (elem : element) :
  dom (ScraperOptimized.make_item currentDate elem)
  = {["date_header"]} ∪ (SpecX.record_keys_optimized ∖ {["date"]}).
Proof.
  unfold ScraperOptimized.make_item, list_to_map. cbn [foldr uncurry].
  rewrite !dom_insert_L, dom_empty_L. solve_keys.
Qed.

(** The date loop turns the keys of an extracted record into the keys
    [keys] of a returned one. *)
Lemma process_item_shape (keys : gset string) now start end_ cy
    (item item' : gmap string string) :
  {["channel"]}
  ∪ ({["date"]} ∪ ({["date_header"]} ∪ (keys ∖ {["date"]})))
    ∖ {["date_header"]} = keys →
  dom item = {["date_header"]} ∪ (keys ∖ {["date"]}) →
  Scraper.process_item now start end_ cy item = Some item' →
  dom item' = keys
  ∧ item' !! "website_url" = item !! "website_url"
  ∧ item' !! "country" = item !! "country".
Proof.
  intros Hkeys Hdom. unfold Scraper.process_item.
  destruct (Scraper._parse_date_optimized _ _ _) as [parsed|]; [|done].
  destruct (String.eqb parsed ""); [done |].
  destruct (strptime parsed "%Y-%m-%d") as [d|]; [|done].
  destruct (dt_leb start d && dt_leb d end_); [|done].
  destruct (delete "date_header" (<["date":=parsed]> item) !! "channel")
    as [channel|]; [|done].
  simpl. intros [= <-].
  split; [|by simplify_map_eq].
  by rewrite dom_insert_L, dom_delete_L, dom_insert_L, Hdom.
Qed.

Lemma record_keys_closed :
  {["channel"]}
  ∪ ({["date"]} ∪ ({["date_header"]} ∪ (SpecX.record_keys ∖ {["date"]})))
    ∖ {["date_header"]} = SpecX.record_keys
  ∧ "date_header" ∉ SpecX.record_keys.
Proof. split; solve_keys. Qed.

Lemma record_keys_optimized_closed :
  {["channel"]}
  ∪ ({["date"]}
     ∪ ({["date_header"]} ∪ (SpecX.record_keys_optimized ∖ {["date"]})))
    ∖ {["date_header"]} = SpecX.record_keys_optimized
  ∧ "date_header" ∉ SpecX.record_keys_optimized.
Proof. split; solve_keys. Qed.

End record_shape.

Section returned_records.
Import Py Run PyFacts.

(** Reading a run of scraper.py that returns: the probe is over, the
    dates have parsed and the page has been read. *)
Lemma navigation_returns_page cfg w start_date end_date σ records σ' :
  Scraper._scrape_by_date_navigation cfg w start_date end_date σ
  = (Returns records, σ') →
  ∃ start end_ section,
    strptime start_date "%Y-%m-%d" = Some start
    ∧ strptime end_date "%Y-%m-%d" = Some end_
    ∧ main_section w = Returns section
    ∧ records
      = SpecX.resolved_records w start end_ (now_year w)
          (Scraper.extractAllData section).
Proof.
  unfold Scraper._scrape_by_date_navigation. intros H.
  apply bind_returns in H as ([] & σ1 & _ & H).
  apply try_finally_returns in H as (σ2 & H).
  apply try_except_reraise_returns in H.
  apply bind_returns in H as (driver & σ3 & _ & H).
  apply bind_returns in H as ([] & σ4 & _ & H).
  apply bind_returns in H as (start & σ5 & Hs & H).
  apply bind_returns in H as (end_ & σ6 & He & H).
  cbv zeta in H.
  apply bind_returns in H as ([] & σ7 & _ & H).
  apply bind_returns in H as ([] & σ8 & _ & H).
  apply bind_returns in H as (section & σ9 & Hsec & H).
  apply mret_returns in H. apply call_returns in Hsec.
  apply or_ValueError_returns in Hs, He.
  by exists start, end_, section.
Qed.

Lemma scrape_returns cfg w start_date end_date σ records σ' :
  Scraper.scrape_date_range cfg w start_date end_date σ
  = (Returns records, σ') →
  ∃ σ1, Scraper._scrape_by_date_navigation cfg w start_date end_date σ1
        = (Returns records, σ').
Proof.
  unfold Scraper.scrape_date_range, Scraper._scrape_full_calendar_and_filter.
  intros H. apply bind_returns in H as ([] & σ1 & _ & H).
  exists σ1. by destruct (String.eqb _ _).
Qed.

Lemma scrape_returns_page cfg w start_date end_date σ records σ' :
  Scraper.scrape_date_range cfg w start_date end_date σ
  = (Returns records, σ') →
  ∃ start end_ section,
    strptime start_date "%Y-%m-%d" = Some start
    ∧ strptime end_date "%Y-%m-%d" = Some end_
    ∧ main_section w = Returns section
    ∧ records
      = SpecX.resolved_records w start end_ (now_year w)
          (Scraper.extractAllData section).
Proof.
  intros H. apply scrape_returns in H as [σ1 H].
  by eapply navigation_returns_page.
Qed.

Lemma process_items_Forall (P Q : gmap string string → Prop)
    w start end_ cy i (items : list (gmap string string)) :
  (∀ now item item', P item →
     Scraper.process_item now start end_ cy item = Some item' → Q item') →
  Forall P items →
  Forall Q (Scraper.process_items w start end_ cy i items).
Proof.
  intros HPQ H. revert i. induction H as [|item items Hi _ IH]; intros i.
  - constructor.
  - cbn [Scraper.process_items].
    destruct (Scraper.process_item _ _ _ _ item) as [item'|] eqn:Hp;
      [|apply IH].
    constructor; [|apply IH]. by eapply HPQ.
Qed.

Lemma extracted_items_made (section : option (list element)) :
  Forall (λ item, ∃ currentDate elem,
            item = Scraper.make_item currentDate elem)
    (Scraper.extractAllData section).
Proof.
  apply List.Forall_forall. intros item Hin.
  destruct section as [elements|]; [|done]. simpl in Hin.
  apply (extracted_under_header Scraper.make_item) in Hin;
    [|intros; reflexivity].
  destruct Hin as (? & header & ? & elem & ? & _ & _ & _ & _ & _ & _ & ->).
  by eexists _, _.
Qed.

Lemma extracted_items_made_optimized (section : option (list element)) :
  Forall (λ item, ∃ currentDate elem,
            item = ScraperOptimized.make_item currentDate elem)
    (ScraperOptimized.extractAllData section).
Proof.
  apply List.Forall_forall. intros item Hin.
  destruct section as [elements|]; [|done]. simpl in Hin.
  apply (extracted_under_header ScraperOptimized.make_item) in Hin;
    [|intros; reflexivity].
  destruct Hin as (? & header & ? & elem & ? & _ & _ & _ & _ & _ & _ & ->).
  by eexists _, _.
Qed.

(** X3: a record that [scrape_date_range] of scraper.py returns has
    exactly the ten keys name, type, description, channel, channel_image,
    show_image, website, website_url, country and date, with an empty
    website_url and the country US; a record that [scrape_date_range] of
    scraper_optimized.py returns has exactly the eight keys without
    website_url and country.  The temporary key date_header is in
    neither. *)
Theorem returned_record_keys :
  (∀ cfg w start_date end_date σ records σ',
     Scraper.scrape_date_range cfg w start_date end_date σ
     = (Returns records, σ') →
     Forall (λ r, dom r = SpecX.record_keys
                  ∧ r !! "website_url" = Some ""
                  ∧ r !! "country" = Some "US"
                  ∧ r !! "date_header" = None) records) ∧
  (∀ cfg w start_date end_date σ records σ',
     ScraperOptimized.scrape_date_range cfg w start_date end_date σ
     = (Returns records, σ') →
     Forall (λ r, dom r = SpecX.record_keys_optimized
                  ∧ r !! "date_header" = None) records).
Proof.
  split; intros cfg w start_date end_date σ records σ' H.
  - apply scrape_returns_page in H
      as (start & end_ & section & _ & _ & _ & ->).
    apply Forall_filter_bool.
    eapply process_items_Forall; [|apply extracted_items_made].
    intros now item item' (currentDate & elem & ->) Hp.
    apply (process_item_shape SpecX.record_keys) in Hp as (Hdom & -> & ->);
      [|apply record_keys_closed|apply dom_make_item].
    repeat (split; [done |]).
    apply not_elem_of_dom. rewrite Hdom. apply record_keys_closed.
  - apply optimized_returns in H as (start & end_ & section & _ & _ & ->).
    apply Forall_filter_bool.
    eapply process_items_Forall; [|apply extracted_items_made_optimized].
    intros now item item' (currentDate & elem & ->) Hp.
    apply (process_item_shape SpecX.record_keys_optimized) in Hp
      as (Hdom & _ & _);
      [|apply record_keys_optimized_closed|apply dom_make_item_optimized].
    split; [done |].
    apply not_elem_of_dom. rewrite Hdom. apply record_keys_optimized_closed.
Qed.

End returned_records.

Section provenance.
Import Py Run PyFacts.

(** [str.replace] leaves a text without an occurrence as it is. *)
Lemma replace_absent (old new s : string) :
  contains old s = false → replace old new s = s.
Proof.
  unfold replace. induction s as [|c s IH]; [done |].
  cbn [contains replace_from]. intros H.
  apply orb_false_iff in H as [-> H]. by rewrite IH.
Qed.

Lemma process_item_same_listing now start end_ cy
    (item item' : gmap string string) :
  Scraper.process_item now start end_ cy item = Some item' →
  SpecX.same_listing item item'.
Proof.
  unfold Scraper.process_item.
  destruct (Scraper._parse_date_optimized _ _ _) as [parsed|]; [|done].
  destruct (String.eqb parsed ""); [done |].
  destruct (strptime parsed "%Y-%m-%d") as [d|]; [|done].
  destruct (dt_leb start d && dt_leb d end_); [|done].
  destruct (delete "date_header" (<["date":=parsed]> item) !! "channel")
    as [channel|] eqn:Hc; [|done].
  simpl. intros [= <-].
  rewrite lookup_delete_ne, lookup_insert_ne in Hc by done.
  split; [|split; [|split]].
  - intros key H1 H2 H3.
    by rewrite lookup_insert_ne, lookup_delete_ne, lookup_insert_ne.
  - exists channel. split; [done |]. rewrite lookup_insert_eq.
    split; [done |]. intros H. by rewrite replace_absent.
  - by rewrite lookup_insert_ne, lookup_delete_eq.
  - rewrite lookup_insert_ne, lookup_delete_ne, lookup_insert_eq by done.
    by eexists.
Qed.

Lemma process_items_same_listing w start end_ cy i
    (all_data : list (gmap string string)) :
  ∃ kept, sublist kept all_data
          ∧ Forall2 SpecX.same_listing kept
              (Scraper.process_items w start end_ cy i all_data).
Proof.
  revert i. induction all_data as [|item rest IH]; intros i.
  - exists []. by split.
  - cbn [Scraper.process_items]. destruct (IH (S i)) as (kept & Hs & Hf).
    destruct (Scraper.process_item _ _ _ _ item) as [item'|] eqn:Hp.
    + exists (item :: kept). split; [by apply sublist_skip |].
      constructor; [by eapply process_item_same_listing | done].
    + exists kept. split; [by apply sublist_cons | done].
Qed.

Lemma Forall2_filter_r {A B} (R : A → B → Prop) (f : B → bool)
    (l : list A) (k : list B) :
  Forall2 R l k →
  ∃ l', sublist l' l ∧ Forall2 R l' (List.filter f k).
Proof.
  induction 1 as [|a b l k Hab _ (l' & Hs & Hf)].
  - exists []. by split.
  - cbn [List.filter]. destruct (f b).
    + exists (a :: l'). split; [by apply sublist_skip | by constructor].
    + exists l'. split; [by apply sublist_cons | done].
Qed.

(** X4: the records that the date loop and the exclusion filter let
    through are, in the order of the page, extracted records of the page:
    each stands for one extracted record of a subsequence, with every
    field other than date, date_header and channel as extracted, the
    channel with its typo corrected (unchanged when it has none), a date
    in place of the date header. *)
Theorem returned_records_from_page w start end_ current_year
    (all_data : list (gmap string string)) :
  ∃ kept, sublist kept all_data
          ∧ Forall2 SpecX.same_listing kept
              (SpecX.resolved_records w start end_ current_year all_data).
Proof.
  destruct (process_items_same_listing w start end_ current_year 0 all_data)
    as (kept & Hs & Hf).
  eapply Forall2_filter_r in Hf as (kept' & Hs' & Hf).
  exists kept'. split; [by etrans | exact Hf].
Qed.

End provenance.

Section ranges.
Import Py Run PyFacts.

Lemma process_item_wider now start end_ start' end_' cy
    (item item' : gmap string string) :
  instant start' <= instant start → instant end_ <= instant end_' →
  Scraper.process_item now start end_ cy item = Some item' →
  Scraper.process_item now start' end_' cy item = Some item'.
Proof.
  intros H1 H2. unfold Scraper.process_item.
  destruct (Scraper._parse_date_optimized _ _ _) as [parsed|]; [|done].
  destruct (String.eqb parsed ""); [done |].
  destruct (strptime parsed "%Y-%m-%d") as [d|]; [|done].
  destruct (dt_leb start d && dt_leb d end_) eqn:Hr; [|done].
  apply andb_true_iff in Hr as [H3 H4]. unfold dt_leb in *.
  apply Z.leb_le in H3, H4.
  assert ((instant start' <=? instant d) = true) as -> by (apply Z.leb_le; lia).
  assert ((instant d <=? instant end_') = true) as -> by (apply Z.leb_le; lia).
  done.
Qed.

Lemma sublist_List_filter {A} (f : A → bool) (l k : list A) :
  sublist l k → sublist (List.filter f l) (List.filter f k).
Proof.
  induction 1 as [|x l k _ IH|x l k _ IH]; cbn [List.filter].
  - done.
  - destruct (f x); [by apply sublist_skip | done].
  - destruct (f x); [by apply sublist_cons | done].
Qed.

(** X5: a wider date range loses no record: the records resolved for a
    range are, in order, among those resolved for any range that
    contains it, on the same page and with the same clock. *)
Theorem wider_range_keeps_records w start end_ start' end_' current_year
    (all_data : list (gmap string string)) :
  instant start' <= instant start → instant end_ <= instant end_' →
  sublist (SpecX.resolved_records w start end_ current_year all_data)
          (SpecX.resolved_records w start' end_' current_year all_data).
Proof.
  intros H1 H2. unfold SpecX.resolved_records.
  apply sublist_List_filter. generalize 0%nat.
  induction all_data as [|item rest IH]; intros i; [done |].
  cbn [Scraper.process_items].
  destruct (Scraper.process_item _ start end_ _ item) as [item'|] eqn:Hp.
  - rewrite (process_item_wider _ _ _ _ _ _ _ _ H1 H2 Hp).
    by apply sublist_skip.
  - destruct (Scraper.process_item _ start' end_' _ item);
      [by apply sublist_cons | done].
Qed.

End ranges.

(** ** The stand-alone filters *)

Section standalone_filters.
Import Py Run PyFacts.

Lemma List_filter_all {A} (f : A → bool) (l : list A) :
  Forall (λ x, f x = true) l → List.filter f l = l.
Proof.
  induction 1 as [|x l Hx _ IH]; [done |].
  cbn [List.filter]. by rewrite Hx, IH.
Qed.

Lemma List_filter_idemp {A} (f : A → bool) (l : list A) :
  List.filter f (List.filter f l) = List.filter f l.
Proof.
  apply List_filter_all, List.Forall_forall. intros x Hx.
  by apply filter_In in Hx as [_ Hx].
Qed.

(** X6: the stand-alone date filter fails open.  With a bound that is no
    date it returns the list as it is; with two dates it keeps every item
    that has no date, an empty date or a date that does not parse,
    whatever the range. *)
Theorem date_filter_fails_open (items : list (gmap string string))
    (start_date end_date : string) :
  (strptime start_date "%Y-%m-%d" = None
   ∨ strptime end_date "%Y-%m-%d" = None →
   Scraper._filter_by_date_range items start_date end_date = items) ∧
  (∀ item, In item items →
     item !! "date" = None ∨ item !! "date" = Some ""
     ∨ (∃ date, item !! "date" = Some date
                ∧ strptime date "%Y-%m-%d" = None) →
     In item (Scraper._filter_by_date_range items start_date end_date)).
Proof.
  unfold Scraper._filter_by_date_range. split.
  - intros [-> | ->]; [done |]. by destruct (strptime start_date _).
  - intros item Hin Hd.
    destruct (strptime start_date _) as [start|]; [|done].
    destruct (strptime end_date _) as [end_|]; [|done].
    apply filter_In. split; [done |].
    unfold Scraper.in_date_range, get.
    destruct Hd as [-> | [-> | (date & -> & Hd)]]; cbn [from_option id];
      [done | done |].
    rewrite Hd. by destruct (String.eqb date "").
Qed.

(** X7: what a scrape of scraper.py returns is left as it is by both
    stand-alone filters, the date filter for the dates of the request and
    the exclusion filter. *)
Theorem returned_records_pass_filters cfg w start_date end_date σ records σ' :
  Scraper.scrape_date_range cfg w start_date end_date σ
  = (Returns records, σ') →
  Scraper._filter_by_date_range records start_date end_date = records
  ∧ Scraper._filter_excluded_content records = records.
Proof.
  intros H.
  apply scrape_returns_page in H
    as (start & end_ & section & Hs & He & _ & ->).
  split.
  - unfold Scraper._filter_by_date_range. rewrite Hs, He.
    apply List_filter_all. unfold SpecX.resolved_records.
    apply Forall_filter_bool.
    eapply List.Forall_impl;
      [|apply process_items_ok, extracted_items_ok].
    intros item (_ & (date & d & Hdate & Hiso & Hd & Hr) & _).
    unfold Scraper.in_date_range, get. rewrite Hdate. cbn [from_option id].
    rewrite Hd. destruct (String.eqb date ""); [done |].
    unfold dt_leb. apply andb_true_iff. split; apply Z.leb_le; lia.
  - apply List_filter_idemp.
Qed.

End standalone_filters.

(** ** More on the date resolver *)

Section resolver_window.
Import Py Run PyFacts.

(** A format without a year reads a day of the year 1900, at midnight. *)
Lemma first_match_yearless (t fmt : string) (d : datetime) :
  Spec.first_match Scraper.formats t = Some (fmt, d) →
  Spec.has_year fmt = false →
  d = Datetime 1900 (month d) (day d) 0
  ∧ check_date_fields 1900 (month d) (day d) = true.
Proof.
  intros Hm Hy. unfold Scraper.formats in Hm. cbn [Spec.first_match] in Hm.
  destruct formats_patterns as (_ & _ & P3 & P4).
  destruct (strptime t "%A, %B %d, %Y");
    [injection Hm as <- <-; discriminate Hy |].
  destruct (strptime t "%B %d, %Y");
    [injection Hm as <- <-; discriminate Hy |].
  destruct (strptime t "%A, %B %d") as [d3|] eqn:H3.
  - injection Hm as <- <-.
    eapply strptime_without_year; [exact P3 | | exact H3].
    vm_compute. intuition discriminate.
  - destruct (strptime t "%B %d") as [d4|] eqn:H4; [|done].
    injection Hm as <- <-.
    eapply strptime_without_year; [exact P4 | | exact H4].
    vm_compute. intuition discriminate.
Qed.

Lemma days_before_month_step (y y' m : Z) :
  _days_before_month y' m <= _days_before_month y m + 1.
Proof.
  unfold _days_before_month.
  destruct ((2 <? m) && _is_leap y'), ((2 <? m) && _is_leap y); lia.
Qed.

(** The last day that [datetime] accepts is day [_MAXORDINAL]. *)
Lemma toordinal_max (dt : datetime) :
  Spec.valid dt → 1 <= toordinal dt <= _MAXORDINAL.
Proof.
  intros [H _]. pose proof (day_of_year_bounds _ _ _ H) as Hd.
  apply check_date_fields_bounds in H as (Hy & _ & _).
  unfold toordinal, _ymd2ord.
  pose proof (days_before_year_succ (year dt)) as Hs.
  pose proof (days_before_year_mono (year dt + 1) 10000 ltac:(lia)) as Hm.
  pose proof (days_before_year_mono 1 (year dt) ltac:(lia)) as Hm1.
  change (_days_before_year 10000) with 3652059 in Hm.
  change (_days_before_year 1) with 0 in Hm1.
  unfold _MAXORDINAL. lia.
Qed.

(** X8: with the year of the clock as the current year, a header without
    a year resolves to the day of that month and day which lies at most
    30 days before today and at most 365 days after it. *)
Theorem implicit_year_window (now : datetime) (text fmt : string)
    (d : datetime) :
  Spec.valid now → 30 < toordinal now → year now <= 9998 →
  Spec.first_match Scraper.formats (title (strip text)) = Some (fmt, d) →
  Spec.has_year fmt = false →
  ∃ r, Scraper._parse_date_optimized now text (year now)
       = Some (strftime_iso r)
       ∧ Spec.valid r ∧ month r = month d ∧ day r = day d
       ∧ toordinal now - 30 <= toordinal r <= toordinal now + 365.
Proof.
  intros Hv H30 Hy Hm Hf.
  pose proof (toordinal_max now Hv) as Hmax.
  pose proof Hv as [Hnow Htod].
  pose proof (check_date_fields_bounds _ _ _ Hnow) as (Hyear & _ & _).
  assert (Hr : Spec.in_range now (year now)).
  { split; lia. }
  rewrite parse_date_first_match, Hm by done. cbn [fmap option_fmap option_map].
  destruct (first_match_yearless _ _ _ Hm Hf) as [Hd Hc].
  exists (Spec.resolved now (year now) fmt d). split; [done |].
  unfold Spec.resolved. rewrite Hf. unfold Spec.in_year.
  rewrite Hd. cbn [month day tod].
  pose proof (check_date_fields_1900 (year now) _ _ ltac:(lia) Hc) as Hc0.
  pose proof (check_date_fields_1900 (year now + 1) _ _ ltac:(lia) Hc) as Hc1.
  pose proof (day_of_year_bounds _ _ _ Hnow) as Dn.
  pose proof (day_of_year_bounds _ _ _ Hc0) as D0.
  pose proof (day_of_year_bounds _ _ _ Hc1) as D1.
  pose proof (days_before_year_succ (year now)) as Hs.
  pose proof (days_before_month_step (year now) (year now + 1) (month d))
    as Hst.
  unfold Spec.more_than_30_days_before.
  destruct (_ <? instant now) eqn:Hlt;
    [apply Z.ltb_lt in Hlt | apply Z.ltb_ge in Hlt];
    (split; [split; [exact Hc1 || exact Hc0 | by cbn] |]);
    (split; [done |]); (split; [done |]);
    unfold instant, toordinal, _ymd2ord, us_per_day in *;
    cbn [year month day tod] in *;
    destruct (_is_leap (year now)), (_is_leap (year now + 1)); lia.
Qed.

End resolver_window.

Section resolver_text.
Import Py Run PyFacts.

Lemma to_lower_facts (c : ascii) :
  is_cased (to_lower c) = is_cased c
  ∧ to_lower (to_lower c) = to_lower c
  ∧ to_upper (to_lower c) = to_upper c
  ∧ isspace (to_lower c) = isspace c
  ∧ (is_cased c = false → to_lower c = c).
Proof.
  destruct c as [[] [] [] [] [] [] [] []]; by vm_compute.
Qed.

Lemma title_from_lower (p : bool) (s : string) :
  title_from p (lower s) = title_from p s.
Proof.
  revert p. induction s as [|c s IH]; intros p; [done |].
  cbn [lower title_from].
  destruct (to_lower_facts c) as (-> & -> & -> & _ & Hc).
  rewrite !IH. destruct (is_cased c); [done | by rewrite Hc].
Qed.

Lemma lstrip_lower (s : string) : lstrip (lower s) = lower (lstrip s).
Proof.
  induction s as [|c s IH]; [done |]. cbn [lower lstrip].
  destruct (to_lower_facts c) as (_ & _ & _ & -> & _).
  by destruct (isspace c).
Qed.

Lemma rstrip_lower (s : string) : rstrip (lower s) = lower (rstrip s).
Proof.
  induction s as [|c s IH]; [done |]. cbn [lower rstrip].
  rewrite IH. destruct (to_lower_facts c) as (_ & _ & _ & -> & _).
  destruct (rstrip s); cbn [lower]; [by destruct (isspace c) | done].
Qed.

Lemma strip_lower (s : string) : strip (lower s) = lower (strip s).
Proof. unfold strip. by rewrite rstrip_lower, lstrip_lower. Qed.

(** The resolver as a function of the stripped text: the test
    [if not date_text] adds nothing, as no format matches the empty
    text. *)
Lemma parse_date_stripped now text cy :
  Scraper._parse_date_optimized now text cy
  = Scraper.try_formats now (title (strip text)) cy Scraper.formats.
Proof.
  unfold Scraper._parse_date_optimized.
  destruct (String.eqb text "") eqn:He; [|done].
  apply String.eqb_eq in He. by subst text.
Qed.

Lemma rstrip_idemp (s : string) : rstrip (rstrip s) = rstrip s.
Proof.
  induction s as [|c s IH]; [done |]. cbn [rstrip].
  destruct (rstrip s) as [|c' r] eqn:Hr.
  - destruct (isspace c) eqn:Hc; [done |]. cbn [rstrip]. by rewrite Hc.
  - cbn [rstrip] in *. by rewrite IH.
Qed.

Lemma lstrip_idemp (s : string) : lstrip (lstrip s) = lstrip s.
Proof.
  induction s as [|c s IH]; [done |]. cbn [lstrip].
  destruct (isspace c) eqn:Hc; [done |]. cbn [lstrip]. by rewrite Hc.
Qed.

Lemma rstrip_lstrip (s : string) :
  rstrip s = s → rstrip (lstrip s) = lstrip s.
Proof.
  induction s as [|c s IH]; [done |]. cbn [rstrip lstrip].
  destruct (isspace c) eqn:Hc.
  - destruct (rstrip s) as [|c' r] eqn:Hr; [done |].
    intros [= <-]. by apply IH.
  - intros H. cbn [rstrip]. by rewrite Hc.
Qed.

Lemma strip_idemp (s : string) : strip (strip s) = strip s.
Proof.
  unfold strip.
  rewrite (rstrip_lstrip (rstrip s)) by apply rstrip_idemp.
  apply lstrip_idemp.
Qed.

(** X9: the resolver reads a header up to letter case and surrounding
    whitespace: two texts that differ only in the case of their letters
    resolve alike, and so do a text and the same text stripped. *)
Theorem resolver_ignores_case_and_margin now cy :
  (∀ text text', lower text = lower text' →
     Scraper._parse_date_optimized now text cy
     = Scraper._parse_date_optimized now text' cy) ∧
  (∀ text,
     Scraper._parse_date_optimized now (strip text) cy
     = Scraper._parse_date_optimized now text cy).
Proof.
  split.
  - intros text text' H. rewrite !parse_date_stripped.
    unfold title.
    rewrite <- (title_from_lower false (strip text)),
      <- (title_from_lower false (strip text')), <- !strip_lower.
    by rewrite H.
  - intros text. by rewrite !parse_date_stripped, strip_idemp.
Qed.

End resolver_text.

Section resolver_years.
Import Py Run PyFacts.

(** X10: a header that names its year is resolved without the clock and
    without the current year: the result is the date that [strptime]
    reads, whatever they are. *)
Theorem explicit_year_ignores_clock (text fmt : string) (d : datetime) :
  Spec.first_match Scraper.formats (title (strip text)) = Some (fmt, d) →
  Spec.has_year fmt = true →
  ∀ now current_year,
    Scraper._parse_date_optimized now text current_year
    = Some (strftime_iso d).
Proof.
  intros Hm Hy now cy. rewrite parse_date_stripped.
  unfold Scraper.formats in *. cbn [Spec.first_match] in Hm.
  cbn [Scraper.try_formats].
  rewrite !try_format_with_year by reflexivity.
  destruct (strptime _ "%A, %B %d, %Y") as [d1|].
  { injection Hm as <- <-. reflexivity. }
  destruct (strptime _ "%B %d, %Y") as [d2|].
  { injection Hm as <- <-. reflexivity. }
  destruct (strptime _ "%A, %B %d") as [d3|];
    [injection Hm as <- <-; discriminate Hy |].
  destruct (strptime _ "%B %d") as [d4|];
    [injection Hm as <- <-; discriminate Hy | done].
Qed.

(** X11: the leap day needs its year.  A header without a year never
    resolves to a 29th of February, in a leap year as in any other: the
    two headers that name it have no date, so the listings under them
    are dropped. *)
Theorem leap_day_needs_a_year :
  (∀ now current_year,
     Scraper._parse_date_optimized now "February 29" current_year = None
     ∧ Scraper._parse_date_optimized now "Saturday, February 29" current_year
       = None) ∧
  (∀ text fmt d,
     Spec.first_match Scraper.formats (title (strip text)) = Some (fmt, d) →
     Spec.has_year fmt = false →
     ¬ (month d = 2 ∧ day d = 29)).
Proof.
  split.
  - intros now cy. split; apply parse_date_no_match;
      repeat (apply List.Forall_cons; [by vm_compute |]);
      apply List.Forall_nil.
  - intros text fmt d Hm Hy [H2 H29].
    destruct (first_match_yearless _ _ _ Hm Hy) as [_ Hc].
    rewrite H2, H29 in Hc. discriminate Hc.
Qed.

End resolver_years.

(** ** The connectivity test, the launch and the page load *)

Section probe.
Import Py Run PyFacts.

(** X12: the connectivity test is advisory.  When [requests.get] raises
    [ConnectionError] or [Timeout], the scrape raises an [Exception] and
    the test is the only call made: no browser is launched.  On every
    other outcome, whatever the status code and whatever other
    [Exception] it raises, the scrape goes on as
    [_scrape_by_date_navigation]; the configured scrape method makes no
    difference. *)
Theorem probe_is_advisory cfg w start_date end_date σ :
  let σ1 := State (var_driver σ) (trace σ ++ [EvRequest]) in
  let result := Scraper.scrape_date_range cfg w start_date end_date σ in
  (∀ e, requests_get w = Raises e →
        is_ConnectionError e || is_Timeout e = true →
        (∃ msg, result.1 = Raises (Exn ExceptionC msg))
        ∧ result.2 = σ1) ∧
  ((∃ status_code, requests_get w = Returns status_code)
   ∨ (∃ e, requests_get w = Raises e ∧ is_Exception e = true
           ∧ is_ConnectionError e || is_Timeout e = false) →
   result = Scraper._scrape_by_date_navigation cfg w start_date end_date σ1) ∧
  (∀ method,
     Scraper.scrape_date_range
       (Scraper.Config (Scraper.base_url cfg) (Scraper.timeout cfg)
          (Scraper.headless cfg) method) w start_date end_date σ
     = result).
Proof.
  intros σ1 result. subst result.
  unfold Scraper.scrape_date_range, Scraper._scrape_full_calendar_and_filter.
  unfold mbind at 1, M_bind at 1, try_except, mbind, M_bind, call, mret,
    M_ret, raise.
  split; [|split].
  - intros e -> He. cbn [select_handler].
    destruct (is_ConnectionError e); [by eauto |].
    cbn [orb] in He. rewrite He. by eauto.
  - intros [[status_code ->] | (e & -> & He & Hn)].
    + by destruct (String.eqb _ _).
    + cbn [select_handler].
      apply orb_false_iff in Hn as [-> ->]. rewrite He.
      by destruct (String.eqb _ _).
  - intros method. cbn [Scraper.scrape_method].
    destruct (requests_get w) as [status_code|e].
    + by destruct (String.eqb method _), (String.eqb _ _).
    + cbn [select_handler].
      destruct (is_ConnectionError e); [done |].
      destruct (is_Timeout e); [done |].
      destruct (is_Exception e); [|done].
      by destruct (String.eqb method _), (String.eqb _ _).
Qed.

End probe.

Section launch.
Import Py Run PyFacts.

Lemma contains_app_l (sub a b : string) :
  contains sub a = true → contains sub (a +:+ b) = true.
Proof.
  rewrite !contains_spec. intros (pre & post & ->).
  exists pre, (post +:+ b). by rewrite !app_assoc_s.
Qed.

(** The outcomes of [_init_driver] of scraper.py, call by call. *)
Lemma init_driver_cases cfg w σ :
  let result := Scraper._init_driver cfg w σ in
  (path_exists w = false →
   (∃ msg, result.1 = Raises (Exn ExceptionC msg)) ∧ result.2 = σ) ∧
  ((∃ σ', result = (Returns Driver, σ'))
   ↔ path_exists w = true ∧ webdriver_Chrome w = Returns tt
     ∧ (Scraper.headless cfg = false → maximize_window w = Returns tt)
     ∧ set_page_load_timeout w = Returns tt
     ∧ implicitly_wait w = Returns tt) ∧
  (∀ e, result.1 = Raises e →
        is_OSError e = false ∧ is_WebDriverException e = false) ∧
  (∀ e, result.1 = Raises e →
        SpecX.launch_failures_known w →
        exn_cls e = ExceptionC
        ∧ contains "chrome" (lower (exn_str e)) = true).
Proof.
  intros result. subst result. unfold Scraper._init_driver.
  unfold SpecX.launch_failures_known.
  unfold mbind, M_bind, mret, M_ret, call, raise, try_except.
  destruct (path_exists w); cbn [negb fst snd].
  2:{ split; [by eauto |]. split; [split; [by intros [? ?] | by intros [? _]] |].
      split; intros e [= <-]; [done |]. intros _. done. }
  split; [done |].
  assert (Hwrap : ∀ (e0 : exn) (σ0 : state),
    let r := match select_handler
                 [(is_OSError,
                   λ e : exn,
                     if contains "WinError 193" (exn_str e)
                        || contains "not a valid Win32 application" (exn_str e)
                     then (λ σ1 : state, (@Raises driver_handle (Exn ExceptionC
                       ("ChromeDriver architecture mismatch detected. " +:+
                        "Please run 'python fix_chromedriver.py' to download the correct version for your system.")), σ1))
                     else (λ σ1 : state, (Raises (Exn ExceptionC
                       ("Chrome driver error: " +:+ exn_str e)), σ1)));
                  (is_WebDriverException,
                   λ e : exn,
                     if contains "chromedriver" (lower (exn_str e))
                     then (λ σ1 : state, (Raises (Exn ExceptionC
                       ("ChromeDriver not found or incompatible. " +:+
                        "Please run 'python fix_chromedriver.py' to fix this issue.")), σ1))
                     else (λ σ1 : state, (Raises (Exn ExceptionC
                       ("Failed to start Chrome. Please ensure Chrome browser is installed. Error: "
                        +:+ exn_str e)), σ1)))] e0 with
             | Some h => h σ0
             | None => (Raises e0, σ0)
             end in
    (∀ σ', r ≠ (Returns Driver, σ')) ∧
    (∀ e, r.1 = Raises e →
          is_OSError e = false ∧ is_WebDriverException e = false) ∧
    (∀ e, r.1 = Raises e →
          is_OSError e0 || is_WebDriverException e0 = true →
          exn_cls e = ExceptionC
          ∧ contains "chrome" (lower (exn_str e)) = true)).
  { intros e0 σ0. cbn [select_handler].
    destruct (is_OSError e0) eqn:Ho.
    - destruct (contains "WinError 193" _ || contains _ _); cbn [fst];
        (split; [done |]); (split; intros e [= <-]; [done | intros _]);
        (split; [done |]); cbn [exn_str];
        first [by vm_compute | rewrite lower_app; by apply contains_app_l].
    - destruct (is_WebDriverException e0) eqn:Hw.
      + destruct (contains "chromedriver" _); cbn [fst];
          (split; [done |]); (split; intros e [= <-]; [done | intros _]);
          (split; [done |]); cbn [exn_str];
          first [by vm_compute | rewrite lower_app; by apply contains_app_l].
      + cbn [fst]. split; [done |]. split; intros e [= <-]; done. }
  destruct (webdriver_Chrome w) as [[]|e1].
  2:{ destruct (Hwrap e1 (State (var_driver σ) (trace σ ++ [EvChrome])))
        as (H1 & H2 & H3).
      split; [split; [intros [σ' H]; by apply H1 in H | by intros (_ & ? & _)] |].
      split; [exact H2 |].
      intros e He Hk. apply H3; [done |]. eapply Hk; [|reflexivity]; by left. }
  destruct (Scraper.headless cfg) eqn:Hh; cbn [negb].
  - destruct (set_page_load_timeout w) as [[]|e3].
    2:{ destruct (Hwrap e3 (State (var_driver σ)
                              ((trace σ ++ [EvChrome]) ++ [EvConfigure])))
          as (H1 & H2 & H3).
        split; [split; [intros [σ' H]; by apply H1 in H
                       | by intros (_ & _ & _ & ? & _)] |].
        split; [exact H2 |].
        intros e He Hk. apply H3; [done |].
        eapply Hk; [|reflexivity]; right; right; by left. }
    destruct (implicitly_wait w) as [[]|e4].
    2:{ destruct (Hwrap e4 (State (var_driver σ)
                              (((trace σ ++ [EvChrome]) ++ [EvConfigure])
                               ++ [EvConfigure])))
          as (H1 & H2 & H3).
        split; [split; [intros [σ' H]; by apply H1 in H
                       | by intros (_ & _ & _ & _ & ?)] |].
        split; [exact H2 |].
        intros e He Hk. apply H3; [done |].
        eapply Hk; [|reflexivity]; right; right; right; by left. }
    cbn [fst snd]. split; [split; [done | by eauto] |].
    split; intros e [=].
  - destruct (maximize_window w) as [[]|e2].
    2:{ destruct (Hwrap e2 (State (var_driver σ)
                              ((trace σ ++ [EvChrome]) ++ [EvConfigure])))
          as (H1 & H2 & H3).
        split; [split; [intros [σ' H]; by apply H1 in H
                       | intros (_ & _ & H & _); by specialize (H eq_refl)] |].
        split; [exact H2 |].
        intros e He Hk. apply H3; [done |]. eapply Hk; [|reflexivity]; right; by left. }
    destruct (set_page_load_timeout w) as [[]|e3].
    2:{ destruct (Hwrap e3 (State (var_driver σ)
                              (((trace σ ++ [EvChrome]) ++ [EvConfigure])
                               ++ [EvConfigure])))
          as (H1 & H2 & H3).
        split; [split; [intros [σ' H]; by apply H1 in H
                       | by intros (_ & _ & _ & ? & _)] |].
        split; [exact H2 |].
        intros e He Hk. apply H3; [done |].
        eapply Hk; [|reflexivity]; right; right; by left. }
    destruct (implicitly_wait w) as [[]|e4].
    2:{ destruct (Hwrap e4 (State (var_driver σ)
                              ((((trace σ ++ [EvChrome]) ++ [EvConfigure])
                                ++ [EvConfigure]) ++ [EvConfigure])))
          as (H1 & H2 & H3).
        split; [split; [intros [σ' H]; by apply H1 in H
                       | by intros (_ & _ & _ & _ & ?)] |].
        split; [exact H2 |].
        intros e He Hk. apply H3; [done |].
        eapply Hk; [|reflexivity]; right; right; right; by left. }
    cbn [fst snd]. split; [split; [done | by eauto] |].
    split; intros e [=].
Qed.


(** X13: [_init_driver] of scraper.py.  Without the driver binary it
    raises before any call is made.  It returns exactly when the binary
    is there and every launch call returns.  It passes on neither an
    [OSError] nor a [WebDriverException]: when the launch calls fail with
    these only, what it raises is a plain [Exception] whose message
    names Chrome. *)
Theorem init_driver_outcomes cfg w σ :
  let result := Scraper._init_driver cfg w σ in
  (path_exists w = false →
   (∃ msg, result.1 = Raises (Exn ExceptionC msg)) ∧ result.2 = σ) ∧
  ((∃ σ', result = (Returns Driver, σ'))
   ↔ path_exists w = true ∧ webdriver_Chrome w = Returns tt
     ∧ (Scraper.headless cfg = false → maximize_window w = Returns tt)
     ∧ set_page_load_timeout w = Returns tt
     ∧ implicitly_wait w = Returns tt) ∧
  (∀ e, result.1 = Raises e →
        is_OSError e = false ∧ is_WebDriverException e = false) ∧
  (∀ e, result.1 = Raises e →
        SpecX.launch_failures_known w →
        exn_cls e = ExceptionC
        ∧ contains "chrome" (lower (exn_str e)) = true).
Proof. apply init_driver_cases. Qed.

End launch.

Section late_validation.
Import Py Run PyFacts.

(** X14: the dates of a request are read only after the browser has been
    launched.  When the launch succeeds and a date of the request is no
    date, [_scrape_by_date_navigation] raises; by then it has launched
    and configured the browser, and it quits it at once: the page is
    never loaded.  What it raises is the [ValueError] of [strptime]
    unless [driver.quit()] itself raises. *)
Theorem invalid_date_after_launch cfg w start_date end_date σ :
  path_exists w = true → webdriver_Chrome w = Returns tt →
  (Scraper.headless cfg = false → maximize_window w = Returns tt) →
  set_page_load_timeout w = Returns tt → implicitly_wait w = Returns tt →
  strptime start_date "%Y-%m-%d" = None
  ∨ strptime end_date "%Y-%m-%d" = None →
  let result := Scraper._scrape_by_date_navigation cfg w start_date end_date σ in
  (∃ e, result.1 = Raises e
        ∧ (driver_quit w = Returns tt → exn_cls e = ValueErrorC)) ∧
  trace result.2
  = (trace σ ++ [EvChrome]
     ++ (if Scraper.headless cfg then [] else [EvConfigure])
     ++ [EvConfigure; EvConfigure; EvQuit])%list.
Proof.
  intros Hp Hc Hm Ht Hi Hd result. subst result.
  unfold Scraper._scrape_by_date_navigation, Scraper._init_driver.
  unfold or_ValueError.
  unfold mbind, M_bind, mret, M_ret, set_driver, try_finally, try_except,
    get_driver, call, raise.
  rewrite Hp, Hc, Ht, Hi. cbn [negb fst snd var_driver trace].
  destruct (Scraper.headless cfg); cbn [negb];
    [|rewrite (Hm eq_refl)]; cbn [fst snd var_driver trace];
    (destruct (strptime start_date _) as [start|];
     [destruct Hd as [Hd | Hd]; [done |]; rewrite Hd |]);
    cbn [select_handler is_Exception exn_cls fst snd var_driver trace];
    (destruct (driver_quit w) as [[]|e'];
     cbn [fst snd trace];
     (split; [eexists; split; [reflexivity | by intros] |]);
     by rewrite <- !app_assoc).
Qed.

End late_validation.

Section page_load.
Import Py Run PyFacts.

(** X15: a page that fails to load.  After a launch that succeeds and
    with two proper dates, when [driver.get] raises an [Exception]:
    [_scrape_by_date_navigation] quits the session at once, without a
    scroll and without an extraction, and raises; when [driver.quit()]
    returns, it raises the exception of [driver.get] itself, unless the
    text of that exception mentions a timeout in any letter case: then it
    raises a plain [Exception] with a fixed message instead.
    [scrape_date_range] of scraper_optimized.py always raises the
    exception of [driver.get] itself. *)
Theorem page_load_failure cfg cfg' w start_date end_date σ start end_ e :
  path_exists w = true → webdriver_Chrome w = Returns tt →
  (Scraper.headless cfg = false → maximize_window w = Returns tt) →
  set_page_load_timeout w = Returns tt → implicitly_wait w = Returns tt →
  strptime start_date "%Y-%m-%d" = Some start →
  strptime end_date "%Y-%m-%d" = Some end_ →
  driver_get w = Raises e → is_Exception e = true →
  driver_quit w = Returns tt →
  let result := Scraper._scrape_by_date_navigation cfg w start_date end_date σ in
  let result' :=
    ScraperOptimized.scrape_date_range cfg' w start_date end_date σ in
  result.1
  = Raises (if contains "timeout" (lower (exn_str e))
            then Exn ExceptionC
                   "Website timeout: The TVInsider website is not responding. Please try again later."
            else e)
  ∧ trace result.2
    = (trace σ ++ [EvChrome]
       ++ (if Scraper.headless cfg then [] else [EvConfigure])
       ++ [EvConfigure; EvConfigure; EvGet; EvQuit])%list
  ∧ result'.1 = Raises e
  ∧ trace result'.2
    = (trace σ ++ [EvChrome; EvConfigure; EvGet; EvQuit])%list.
Proof.
  intros Hp Hc Hm Ht Hi Hs He Hg Hex Hq result result'.
  subst result result'.
  unfold Scraper._scrape_by_date_navigation, Scraper._init_driver,
    ScraperOptimized.scrape_date_range, ScraperOptimized._init_driver.
  unfold or_ValueError.
  unfold mbind, M_bind, mret, M_ret, set_driver, try_finally, try_except,
    get_driver, call, raise.
  rewrite Hp, Hc, Ht, Hi, Hs, He, Hg, Hq.
  cbn [negb fst snd var_driver trace select_handler]. rewrite Hex.
  destruct (Scraper.headless cfg); cbn [negb];
    [|rewrite (Hm eq_refl)]; cbn [fst snd var_driver trace];
    (destruct (contains "timeout" (lower (exn_str e)));
     cbn [select_handler is_Exception exn_cls fst snd var_driver trace];
     rewrite ?Hex; cbn [fst snd var_driver trace];
     rewrite <- !app_assoc; done).
Qed.

End page_load.

Section call_order.
Import Py Run PyFacts.

Lemma call_returns_state {A} (ev : event) (o : outcome A) σ a σ' :
  call ev o σ = (Returns a, σ') →
  σ' = State (var_driver σ) (trace σ ++ [ev]).
Proof. unfold call. by intros [= _ <-]. Qed.

(** An iteration of the scroll loop that returns has made its three
    calls. *)
Lemma scroll_body_returns_state (w : env) (i : nat) σ stop σ' :
  Scraper.scroll_body w i σ = (Returns stop, σ') →
  σ' = State (var_driver σ) (trace σ ++ Spec.iteration).
Proof.
  unfold Scraper.scroll_body, mbind, M_bind, mret, M_ret, call.
  destruct (height_before w i); [|done].
  destruct (scroll_to w i); [|done].
  destruct (height_after w i); [|done].
  cbn [var_driver trace]. intros [= _ <-].
  by rewrite <- !app_assoc.
Qed.

(** A scroll loop that returns has made full iterations only, at least
    one and at most one for each index. *)
Lemma for_break_returns_state (w : env) (l : list nat) σ σ' :
  for_break l (Scraper.scroll_body w) σ = (Returns tt, σ') →
  ∃ k, (k <= length l)%nat ∧ (l ≠ [] → (1 <= k)%nat)
       ∧ σ' = State (var_driver σ)
                (trace σ ++ concat (replicate k Spec.iteration)).
Proof.
  revert σ. induction l as [|i l IH]; intros σ.
  - intros [= <-]. exists 0%nat. cbn. rewrite app_nil_r.
    split; [lia |]. split; [done | by destruct σ].
  - cbn [for_break]. intros H.
    apply bind_returns in H as (stop & σ1 & Hb & H).
    apply scroll_body_returns_state in Hb. subst σ1.
    destruct stop.
    + injection H as <-. exists 1%nat. cbn [replicate concat length].
      rewrite app_nil_r. split; [lia |]. done.
    + apply IH in H as (k & Hk & _ & ->). exists (S k).
      cbn [replicate concat length var_driver trace].
      rewrite <- !app_assoc. split; [lia |]. split; [lia | done].
Qed.

Lemma scroll_loop_returns_state (w : env) σ σ' :
  Scraper.scroll_loop w σ = (Returns tt, σ') →
  ∃ k, (1 <= k <= 10)%nat
       ∧ σ' = State (var_driver σ)
                (trace σ ++ concat (replicate k Spec.iteration)).
Proof.
  unfold Scraper.scroll_loop. intros H.
  apply for_break_returns_state in H as (k & Hk & H1 & ->).
  exists k. split; [|done]. rewrite length_seq in Hk.
  unfold Scraper.max_scrolls in *. split; [by apply H1 | done].
Qed.

Lemma init_driver_returns_state cfg w σ d σ' :
  Scraper._init_driver cfg w σ = (Returns d, σ') →
  σ' = State (var_driver σ)
         (trace σ ++ [EvChrome]
          ++ (if Scraper.headless cfg then [] else [EvConfigure])
          ++ [EvConfigure; EvConfigure]).
Proof.
  unfold Scraper._init_driver.
  unfold mbind, M_bind, mret, M_ret, call, raise, try_except.
  destruct (path_exists w); [|done]. cbn [negb].
  destruct (webdriver_Chrome w) as [[]|e1];
    [|cbn [select_handler];
      repeat match goal with
             | |- context [if ?b then _ else _] => destruct b
             end; done].
  destruct (Scraper.headless cfg); cbn [negb];
    [|destruct (maximize_window w) as [[]|e2];
      [|cbn [select_handler];
        repeat match goal with
               | |- context [if ?b then _ else _] => destruct b
               end; done]];
    (destruct (set_page_load_timeout w) as [[]|e3];
      [|cbn [select_handler];
        repeat match goal with
               | |- context [if ?b then _ else _] => destruct b
               end; done]);
    (destruct (implicitly_wait w) as [[]|e4];
      [|cbn [select_handler];
        repeat match goal with
               | |- context [if ?b then _ else _] => destruct b
               end; done]);
    cbn [var_driver trace]; intros H; apply (f_equal snd) in H;
    cbn [snd] in H; subst σ'; cbn [app]; by rewrite <- !app_assoc.
Qed.

Lemma init_driver_optimized_returns_state cfg w σ d σ' :
  ScraperOptimized._init_driver cfg w σ = (Returns d, σ') →
  σ' = State (var_driver σ) (trace σ ++ [EvChrome; EvConfigure]).
Proof.
  unfold ScraperOptimized._init_driver.
  unfold mbind, M_bind, mret, M_ret, call, raise, try_except.
  destruct (path_exists w); [|done]. cbn [negb].
  destruct (webdriver_Chrome w) as [[]|e1];
    [|cbn [select_handler]; by destruct (is_WebDriverException e1)].
  destruct (set_page_load_timeout w) as [[]|e3];
    [|cbn [select_handler]; by destruct (is_WebDriverException e3)].
  cbn [var_driver trace]. intros H. apply (f_equal snd) in H.
  cbn [snd] in H. subst σ'. by rewrite <- !app_assoc.
Qed.

Lemma navigation_returns_state cfg w start_date end_date σ records σ' :
  Scraper._scrape_by_date_navigation cfg w start_date end_date σ
  = (Returns records, σ') →
  ∃ k, (1 <= k <= 10)%nat
       ∧ σ' = State (Some Driver)
                (trace σ ++ [EvChrome]
                 ++ (if Scraper.headless cfg then [] else [EvConfigure])
                 ++ [EvConfigure; EvConfigure; EvGet]
                 ++ concat (replicate k Spec.iteration)
                 ++ [EvExtract; EvQuit]).
Proof.
  unfold Scraper._scrape_by_date_navigation. intros H.
  apply bind_returns in H as ([] & σ1 & Hset0 & H).
  injection Hset0 as <-.
  apply try_finally_returns_both in H as (σ2 & H & Hquit).
  apply try_except_reraise_returns in H.
  apply bind_returns in H as ([] & σ3 & Hinit & H).
  apply init_driver_returns_state in Hinit. subst σ3.
  apply bind_returns in H as ([] & σ4 & Hset & H).
  injection Hset as <-.
  apply bind_returns in H as (start & σ5 & Hs & H).
  apply bind_returns in H as (end_ & σ6 & He & H).
  cbv zeta in H.
  apply bind_returns in H as ([] & σ7 & Hget & H).
  apply bind_returns in H as ([] & σ8 & Hscroll & H).
  apply bind_returns in H as (section & σ9 & Hsec & H).
  injection H as _ <-.
  destruct (strptime start_date _); [|done]. injection Hs as _ <-.
  destruct (strptime end_date _); [|done]. injection He as _ <-.
  apply try_except_raising_returns in Hget;
    [|intros e σa; destruct (contains _ _); eauto].
  apply call_returns_state in Hget. subst σ7.
  apply scroll_loop_returns_state in Hscroll as (k & Hk & ->).
  apply call_returns_state in Hsec. subst σ9.
  cbn [var_driver trace] in Hquit.
  unfold mbind, M_bind, get_driver in Hquit. cbn [var_driver] in Hquit.
  apply call_returns_state in Hquit. subst σ'.
  exists k. split; [done |]. cbn [var_driver trace].
  f_equal. destruct (Scraper.headless cfg);
    rewrite <- !app_assoc; cbn [app]; by rewrite <- ?app_assoc.
Qed.

Lemma optimized_returns_state cfg w start_date end_date σ records σ' :
  ScraperOptimized.scrape_date_range cfg w start_date end_date σ
  = (Returns records, σ') →
  ∃ k, (1 <= k <= 10)%nat
       ∧ σ' = State (Some Driver)
                (trace σ ++ [EvChrome; EvConfigure; EvGet]
                 ++ concat (replicate k Spec.iteration)
                 ++ [EvExtract; EvQuit]).
Proof.
  unfold ScraperOptimized.scrape_date_range. intros H.
  apply bind_returns in H as ([] & σ1 & Hset0 & H).
  injection Hset0 as <-.
  apply try_finally_returns_both in H as (σ2 & H & Hquit).
  apply try_except_reraise_returns in H.
  apply bind_returns in H as ([] & σ3 & Hinit & H).
  apply init_driver_optimized_returns_state in Hinit. subst σ3.
  apply bind_returns in H as ([] & σ4 & Hset & H).
  injection Hset as <-.
  apply bind_returns in H as (start & σ5 & Hs & H).
  apply bind_returns in H as (end_ & σ6 & He & H).
  cbv zeta in H.
  apply bind_returns in H as ([] & σ7 & Hget & H).
  apply bind_returns in H as ([] & σ8 & Hscroll & H).
  apply bind_returns in H as (section & σ9 & Hsec & H).
  injection H as _ <-.
  destruct (strptime start_date _); [|done]. injection Hs as _ <-.
  destruct (strptime end_date _); [|done]. injection He as _ <-.
  apply call_returns_state in Hget. subst σ7.
  change (ScraperOptimized.scroll_loop w) with (Scraper.scroll_loop w)
    in Hscroll.
  apply scroll_loop_returns_state in Hscroll as (k & Hk & ->).
  apply call_returns_state in Hsec. subst σ9.
  cbn [var_driver trace] in Hquit.
  unfold mbind, M_bind, get_driver in Hquit. cbn [var_driver] in Hquit.
  apply call_returns_state in Hquit. subst σ'.
  exists k. split; [done |]. cbn [var_driver trace].
  f_equal. rewrite <- !app_assoc. cbn [app]. by rewrite <- ?app_assoc.
Qed.

(** X26: the calls of a scrape that returns, in their order.
    [scrape_date_range] of scraper.py makes the connectivity test,
    launches the browser, configures it (three calls, two when
    headless), loads the page, runs from 1 to 10 full iterations of the
    scroll loop, extracts once and quits; [scrape_date_range] of
    scraper_optimized.py does the same without the connectivity test and
    with one configuration call.  At the exit the variable [driver] holds
    the session. *)
Theorem calls_of_a_scrape :
  (∀ cfg w start_date end_date σ records σ',
     Scraper.scrape_date_range cfg w start_date end_date σ
     = (Returns records, σ') →
     ∃ k, (1 <= k <= 10)%nat
          ∧ σ' = State (Some Driver)
                   (trace σ ++ [EvRequest; EvChrome]
                    ++ (if Scraper.headless cfg then [] else [EvConfigure])
                    ++ [EvConfigure; EvConfigure; EvGet]
                    ++ concat (replicate k Spec.iteration)
                    ++ [EvExtract; EvQuit])) ∧
  (∀ cfg w start_date end_date σ records σ',
     ScraperOptimized.scrape_date_range cfg w start_date end_date σ
     = (Returns records, σ') →
     ∃ k, (1 <= k <= 10)%nat
          ∧ σ' = State (Some Driver)
                   (trace σ ++ [EvChrome; EvConfigure; EvGet]
                    ++ concat (replicate k Spec.iteration)
                    ++ [EvExtract; EvQuit])).
Proof.
  split; [|intros; by eapply optimized_returns_state].
  intros cfg w start_date end_date σ records σ' H.
  unfold Scraper.scrape_date_range, Scraper._scrape_full_calendar_and_filter
    in H.
  apply bind_returns in H as ([] & σ1 & Hprobe & H).
  assert (Hσ1 : σ1 = State (var_driver σ) (trace σ ++ [EvRequest])).
  { revert Hprobe.
    unfold try_except, mbind, M_bind, call, mret, M_ret, raise.
    destruct (requests_get w) as [status_code|e]; [by intros [= <-] |].
    cbn [select_handler].
    destruct (is_ConnectionError e); [done |].
    destruct (is_Timeout e); [done |].
    destruct (is_Exception e); [by intros [= <-] | done]. }
  subst σ1.
  assert (H' : Scraper._scrape_by_date_navigation cfg w start_date end_date
                 (State (var_driver σ) (trace σ ++ [EvRequest]))
               = (Returns records, σ'))
    by (by destruct (String.eqb _ _)).
  apply navigation_returns_state in H' as (k & Hk & ->).
  exists k. split; [done |]. cbn [trace]. f_equal.
  by rewrite <- !app_assoc.
Qed.

End call_order.

(** ** [normalize_website_url] *)

Section links.
Import Py Run PyFacts.

(** [c in s] for one character. *)
Lemma contains_char_cons (c d : ascii) (s : string) :
  contains (String c "") (String d s)
  = (if ascii_dec c d then true else contains (String c "") s).
Proof.
  cbn [contains String.prefix].
  destruct (ascii_dec c d); [by destruct s | done].
Qed.

Lemma contains_char_app (c : ascii) (a b : string) :
  contains (String c "") (a +:+ b)
  = contains (String c "") a || contains (String c "") b.
Proof.
  induction a as [|d a IH].
  - cbn [String.append]. by destruct b.
  - change (String d a +:+ b) with (String d (a +:+ b)).
    rewrite !contains_char_cons, IH. by destruct (ascii_dec c d).
Qed.

Lemma contains_cons_false (sub : string) (c : ascii) (s : string) :
  contains sub (String c s) = false → contains sub s = false.
Proof. cbn [contains]. by intros [_ H]%orb_false_iff. Qed.

(** The text before the first [sep] has no [sep]. *)
Lemma before_first_no_sep (sep : ascii) (s : string) :
  contains (String sep "") (LinkGenerator.before_first sep s) = false.
Proof.
  induction s as [|c s IH]; [done |]. cbn [LinkGenerator.before_first].
  destruct (Ascii.eqb_spec c sep) as [->|Hne]; [done |].
  cbn [contains String.prefix]. rewrite IH.
  destruct (ascii_dec sep c) as [->|_]; [done |]. done.
Qed.

(** Cutting a text at a separator adds no character to it. *)
Lemma before_first_keeps (sep c : ascii) (s : string) :
  contains (String c "") s = false →
  contains (String c "") (LinkGenerator.before_first sep s) = false.
Proof.
  induction s as [|d s IH]; [done |]. cbn [LinkGenerator.before_first].
  intros H. destruct (Ascii.eqb d sep); [done |].
  pose proof (contains_cons_false _ _ _ H) as H'.
  cbn [contains String.prefix] in *. rewrite (IH H').
  destruct (ascii_dec c d); [|done].
  destruct s; done.
Qed.

Lemma first_mapping_In mappings website_clean replacement :
  LinkGenerator.first_mapping mappings website_clean = Some replacement →
  In replacement (snd <$> mappings).
Proof.
  induction mappings as [|[pattern r] rest IH]; [done |].
  cbn [LinkGenerator.first_mapping]. destruct (contains pattern _).
  - intros [= <-]. by left.
  - intros H. right. by apply IH.
Qed.

(** What [normalize_website_url] answers for a text that is not empty. *)
Lemma normalize_website_url_host (website : string) :
  website ≠ "" →
  ∃ host, LinkGenerator.normalize_website_url website = "https://" +:+ host
          ∧ contains "/" host = false ∧ contains "?" host = false.
Proof.
  intros Hne. unfold LinkGenerator.normalize_website_url.
  apply String.eqb_neq in Hne. rewrite Hne. cbv zeta.
  set (cut := LinkGenerator.before_first "/" _).
  assert (Hslash : contains "/" (LinkGenerator.before_first "?" cut) = false)
    by apply before_first_keeps, before_first_no_sep.
  assert (Hquery : contains "?" (LinkGenerator.before_first "?" cut) = false)
    by apply before_first_no_sep.
  destruct (LinkGenerator.first_mapping _ _) as [replacement|] eqn:Hm.
  - exists replacement. split; [done |].
    apply first_mapping_In in Hm. cbn in Hm.
    repeat (destruct Hm as [<- | Hm]; [by vm_compute |]). done.
  - exists (LinkGenerator.before_first "?" cut).
    assert (String.prefix "http://" (LinkGenerator.before_first "?" cut)
            = false) as ->.
    { destruct (String.prefix "http://" _) eqn:Hp; [|done].
      apply prefix_spec in Hp as [post Hp].
      assert (contains "/" (LinkGenerator.before_first "?" cut) = true)
        as Hc; [|congruence].
      apply contains_spec. exists "http:", ("/" +:+ post). by rewrite Hp. }
    assert (String.prefix "https://" (LinkGenerator.before_first "?" cut)
            = false) as ->.
    { destruct (String.prefix "https://" _) eqn:Hp; [|done].
      apply prefix_spec in Hp as [post Hp].
      assert (contains "/" (LinkGenerator.before_first "?" cut) = true)
        as Hc; [|congruence].
      apply contains_spec. exists "https:", ("/" +:+ post). by rewrite Hp. }
    done.
Qed.

(** X16: [normalize_website_url] answers [#] for the empty text and for
    no other; for every other text it answers [https://] followed by a
    host with neither [/] nor [?] in it: never a path, a query or
    another scheme. *)
Theorem normalized_url_shape (website : string) :
  (LinkGenerator.normalize_website_url website = "#" ↔ website = "") ∧
  (website ≠ "" →
   ∃ host, LinkGenerator.normalize_website_url website = "https://" +:+ host
           ∧ contains "/" host = false ∧ contains "?" host = false).
Proof.
  split; [|apply normalize_website_url_host]. split.
  - intros H. destruct (String.eqb_spec website "") as [->|Hne]; [done |].
    destruct (normalize_website_url_host _ Hne) as (host & Hh & _).
    rewrite Hh in H. done.
  - by intros ->.
Qed.

End links.

Section link_wrapping.
Import Py Run PyFacts.

Lemma remove_prefix_app (p s : string) :
  LinkGenerator.remove_prefix p (p +:+ s) = Some s.
Proof.
  induction p as [|a p IH]; [by destruct s |].
  change (String a p +:+ s) with (String a (p +:+ s)).
  cbn [LinkGenerator.remove_prefix]. by rewrite Ascii.eqb_refl.
Qed.

Lemma remove_prefix_Some (p s r : string) :
  LinkGenerator.remove_prefix p s = Some r → s = p +:+ r.
Proof.
  revert s. induction p as [|a p IH]; intros s.
  - destruct s; by intros [= <-].
  - destruct s as [|b s]; [done |]. cbn [LinkGenerator.remove_prefix].
    destruct (Ascii.eqb_spec a b) as [<- | _]; [|done].
    intros H. by rewrite (IH _ H).
Qed.

Lemma append_empty_r (s : string) : s +:+ "" = s.
Proof. induction s as [|c s IH]; [done |]. cbn. by rewrite IH. Qed.

(** The text before the first [sep] of a text that goes on with [sep]. *)
Lemma before_first_app_sep (sep : ascii) (s t : string) :
  contains (String sep "") s = false →
  LinkGenerator.before_first sep (s +:+ String sep t) = s.
Proof.
  induction s as [|c s IH].
  - intros _. cbn. by rewrite Ascii.eqb_refl.
  - rewrite contains_char_cons. destruct (ascii_dec sep c) as [|Hne]; [done |].
    intros H. change (String c s +:+ String sep t)
      with (String c (s +:+ String sep t)).
    cbn [LinkGenerator.before_first].
    assert (Ascii.eqb c sep = false) as ->
      by (apply Ascii.eqb_neq; by intros ->).
    by rewrite IH.
Qed.

Lemma before_first_absent (sep : ascii) (s : string) :
  contains (String sep "") s = false → LinkGenerator.before_first sep s = s.
Proof.
  induction s as [|c s IH]; [done |].
  rewrite contains_char_cons. destruct (ascii_dec sep c) as [|Hne]; [done |].
  intros H. cbn [LinkGenerator.before_first].
  assert (Ascii.eqb c sep = false) as ->
    by (apply Ascii.eqb_neq; by intros ->).
  by rewrite IH.
Qed.

(** What follows the host in a URL: nothing, a path or a query. *)
Lemma rest_cases (rest : string) :
  rest = "" ∨ String.prefix "/" rest = true ∨ String.prefix "?" rest = true →
  rest = "" ∨ ∃ sep t, rest = String sep t ∧ (sep = "/" ∨ sep = "?")%char.
Proof.
  intros [-> | H]; [by left | right].
  destruct rest as [|c t]; [by destruct H |]. exists c, t. split; [done |].
  cbn [String.prefix] in H.
  destruct H as [H | H]; destruct (ascii_dec _ c) as [<- | _]; try done; tauto.
Qed.

(** A host followed by nothing, a path or a query starts with no scheme,
    and with [www.] only if the host does. *)
Lemma remove_prefix_host (p host rest : string) :
  In p ["https://"; "http://"; "www."] →
  contains "/" host = false → contains "?" host = false →
  contains ":" host = false → String.prefix "www." host = false →
  rest = "" ∨ String.prefix "/" rest = true ∨ String.prefix "?" rest = true →
  LinkGenerator.remove_prefix p (host +:+ rest) = None.
Proof.
  intros Hp H1 H2 H3 Hw Hr.
  destruct (LinkGenerator.remove_prefix p (host +:+ rest)) as [r|] eqn:H;
    [exfalso | done].
  apply remove_prefix_Some in H.
  assert (Hhost : ∃ r', host = p +:+ r' ∨ host = "http:" ∨ host = "https:").
  { destruct (rest_cases _ Hr) as [-> | (sep & t & -> & Hsep)].
    - rewrite append_empty_r in H. exists r. by left.
    - assert (Hs : contains (String sep "") host = false)
        by (by destruct Hsep as [-> | ->]).
      apply (f_equal (LinkGenerator.before_first sep)) in H.
      rewrite before_first_app_sep in H by done. rewrite H.
      destruct Hp as [<- | [<- | [<- | []]]], Hsep as [-> | ->];
        cbn;
        first [by (eexists; left; reflexivity) | by (exists ""; tauto)]. }
  destruct Hhost as [r' [-> | [-> | ->]]]; [|done | done].
  destruct Hp as [<- | [<- | [<- | []]]].
  - assert (contains "/" ("https://" +:+ r') = true) as Hc; [|congruence].
    apply contains_spec. by exists "https:", ("/" +:+ r').
  - assert (contains "/" ("http://" +:+ r') = true) as Hc; [|congruence].
    apply contains_spec. by exists "http:", ("/" +:+ r').
  - assert (String.prefix "www." ("www." +:+ r') = true) as Hc; [|congruence].
    apply prefix_spec. by exists r'.
Qed.

(** The text that [normalize_website_url] looks up, for a URL around a
    host. *)
Lemma cleaned_host (scheme www host rest : string) :
  In scheme [""; "http://"; "https://"] → In www [""; "www."] →
  contains "/" host = false → contains "?" host = false →
  contains ":" host = false → String.prefix "www." host = false →
  rest = "" ∨ String.prefix "/" rest = true ∨ String.prefix "?" rest = true →
  LinkGenerator.before_first "?"
    (LinkGenerator.before_first "/"
       (LinkGenerator.sub_www
          (LinkGenerator.sub_scheme (scheme +:+ www +:+ host +:+ rest))))
  = host.
Proof.
  intros Hs Hw H1 H2 H3 Hp Hr.
  assert (Hwww : LinkGenerator.sub_www (www +:+ host +:+ rest)
                 = host +:+ rest).
  { unfold LinkGenerator.sub_www.
    destruct Hw as [<- | [<- | []]].
    - cbn [String.append]. rewrite remove_prefix_host; try done.
      cbn; tauto.
    - by rewrite remove_prefix_app. }
  assert (Hsch : LinkGenerator.sub_scheme (scheme +:+ www +:+ host +:+ rest)
                 = www +:+ host +:+ rest).
  { unfold LinkGenerator.sub_scheme.
    destruct Hs as [<- | [<- | [<- | []]]].
    - cbn [String.append]. destruct Hw as [<- | [<- | []]].
      + cbn [String.append].
        rewrite !remove_prefix_host; try done; cbn; tauto.
      + reflexivity.
    - change (LinkGenerator.remove_prefix "https://"
                ("http://" +:+ www +:+ host +:+ rest)) with (@None string).
      by rewrite remove_prefix_app.
    - by rewrite remove_prefix_app. }
  rewrite Hsch, Hwww.
  destruct (rest_cases _ Hr) as [-> | (sep & t & -> & [-> | ->])].
  - rewrite append_empty_r.
    by rewrite (before_first_absent "/"), (before_first_absent "?").
  - rewrite before_first_app_sep by done. by rewrite before_first_absent.
  - assert (LinkGenerator.before_first "/" (host +:+ String "?" t)
            = host +:+ String "?" (LinkGenerator.before_first "/" t)) as ->.
    { clear -H1. induction host as [|c host IH]; [done |].
      rewrite contains_char_cons in H1.
      destruct (ascii_dec "/" c) as [|Hne]; [done |].
      change (String c host +:+ String "?" t)
        with (String c (host +:+ String "?" t)).
      cbn [LinkGenerator.before_first].
      assert (Ascii.eqb c "/" = false) as ->
        by (apply Ascii.eqb_neq; by intros ->).
      by rewrite IH. }
    by rewrite before_first_app_sep.
Qed.

(** X17: [normalize_website_url] looks at the host only.  Around a host,
    a text without [/], [?] and [:] that is not empty and does not start
    with [www.], neither the scheme [http://] or [https://], nor a
    leading [www.], nor a path or a query after it changes the answer:
    it is the answer for the host alone. *)
Theorem normalized_url_of_host (scheme www host rest : string) :
  In scheme [""; "http://"; "https://"] → In www [""; "www."] →
  host ≠ "" →
  contains "/" host = false → contains "?" host = false →
  contains ":" host = false → String.prefix "www." host = false →
  rest = "" ∨ String.prefix "/" rest = true ∨ String.prefix "?" rest = true →
  LinkGenerator.normalize_website_url (scheme +:+ www +:+ host +:+ rest)
  = LinkGenerator.normalize_website_url host.
Proof.
  intros Hs Hw Hne H1 H2 H3 Hp Hr.
  unfold LinkGenerator.normalize_website_url. cbv zeta.
  rewrite (cleaned_host scheme www host rest) by done.
  pose proof (cleaned_host "" "" host "" ltac:(cbn; tauto) ltac:(cbn; tauto)
                H1 H2 H3 Hp ltac:(tauto)) as Hc.
  cbn [String.append] in Hc. rewrite append_empty_r in Hc. rewrite Hc.
  assert (String.eqb host "" = false) as -> by (by apply String.eqb_neq).
  assert (String.eqb (scheme +:+ www +:+ host +:+ rest) "" = false) as ->;
    [|done].
  apply String.eqb_neq. intros H.
  destruct Hs as [<- | [<- | [<- | []]]]; [|done | done].
  destruct Hw as [<- | [<- | []]]; [|done].
  cbn [String.append] in H. by destruct host.
Qed.

End link_wrapping.

(** ** The endpoint [/api/scrape] *)

Section endpoint_facts.
Import Py Run PyFacts.
Variable value_error_str : string → string.

(** The handlers of the endpoint answer; they do not raise. *)
Lemma endpoint_scrape_step cfg w start_date end_date σ :
  let step :=
    try_except
      (results ← Scraper.scrape_date_range cfg w start_date end_date;
       mret (inr results))
      [(is_Exception,
        λ scrape_error,
          mret (inl (App.scrape_error_response (exn_str scrape_error))))] in
  match Scraper.scrape_date_range cfg w start_date end_date σ with
  | (Returns records, σ') => step σ = (Returns (inr records), σ')
  | (Raises e, σ') =>
      if is_Exception e
      then step σ
           = (Returns (inl (App.scrape_error_response (exn_str e))), σ')
      else step σ = (Raises e, σ')
  end.
Proof.
  cbv zeta. unfold try_except, mbind, M_bind, mret, M_ret.
  destruct (Scraper.scrape_date_range _ _ _ _ σ) as [[records|e] σ'];
    [done |].
  cbn [select_handler]. by destruct (is_Exception e).
Qed.

Lemma scrape_error_response_500 (error_message : string) :
  App.status (App.scrape_error_response error_message) = 500.
Proof.
  unfold App.scrape_error_response.
  destruct (_ || _); [done |]. by destruct (contains "chrome" _).
Qed.

(** The endpoint, once both dates are there and parse. *)
Lemma scrape_content_parsed cfg w data session_id sessions σ start end_ :
  let start_date := get data "start_date" "" in
  let end_date := get data "end_date" "" in
  strptime start_date "%Y-%m-%d" = Some start →
  strptime end_date "%Y-%m-%d" = Some end_ →
  App.scrape_content value_error_str cfg w data session_id sessions σ
  = if 30 <? toordinal end_ - toordinal start then
      (Returns (App.Response 400
                  (App.ErrorBody "Date range cannot exceed 30 days"),
                sessions), σ)
    else if instant end_ <? instant start then
      (Returns (App.Response 400
                  (App.ErrorBody "Start date must be before end date"),
                sessions), σ)
    else
      match Scraper.scrape_date_range cfg w start_date end_date σ with
      | (Returns records, σ') =>
          (Returns
             (App.Response 200
                (App.SuccessBody (length (App.add_website_url <$> records))
                   (App.add_website_url <$> records)),
              <[default "default" session_id :=
                  App.Session (App.add_website_url <$> records)
                    (start_date, end_date)]> sessions), σ')
      | (Raises e, σ') =>
          if is_Exception e
          then (Returns (App.scrape_error_response (exn_str e), sessions), σ')
          else (Raises e, σ')
      end.
Proof.
  intros start_date end_date Hs He. unfold App.scrape_content.
  fold start_date end_date.
  assert (String.eqb start_date "" = false) as ->.
  { apply String.eqb_neq. intros H. by rewrite H in Hs. }
  assert (String.eqb end_date "" = false) as ->.
  { apply String.eqb_neq. intros H. by rewrite H in He. }
  cbn [orb]. unfold App.strptime_or_raise. rewrite Hs, He.
  unfold try_except at 1. unfold mbind at 1 2, M_bind at 1 2.
  unfold mret at 1 2, M_ret at 1 2.
  destruct (30 <? _); [done |].
  destruct (instant end_ <? instant start); [done |].
  unfold mbind at 1, M_bind at 1.
  pose proof (endpoint_scrape_step cfg w start_date end_date σ) as Hstep.
  cbv zeta in Hstep.
  destruct (Scraper.scrape_date_range _ _ _ _ σ) as [[records|e] σ'].
  - by rewrite Hstep.
  - destruct (is_Exception e) eqn:Hex; rewrite Hstep; [done |].
    cbn [select_handler]. by rewrite Hex.
Qed.

(** The endpoint when a date is missing or is no date: the scraper is
    not called. *)
Lemma scrape_content_unparsed cfg w data session_id sessions σ :
  let start_date := get data "start_date" "" in
  let end_date := get data "end_date" "" in
  strptime start_date "%Y-%m-%d" = None
  ∨ strptime end_date "%Y-%m-%d" = None →
  ∃ resp,
    App.scrape_content value_error_str cfg w data session_id sessions σ
    = (Returns (resp, sessions), σ)
    ∧ (App.status resp = 400 ∨ App.status resp = 500
       ∨ App.status resp = 504)
    ∧ (∀ count items, App.body_of resp ≠ App.SuccessBody count items).
Proof.
  intros start_date end_date Hd. unfold App.scrape_content.
  fold start_date end_date.
  unfold try_except, App.strptime_or_raise, mbind, M_bind, mret, M_ret, raise.
  destruct (String.eqb start_date "" || String.eqb end_date "");
    [eexists; split; [reflexivity | split; [by left | done]] |].
  destruct (strptime start_date _) as [start|].
  - destruct Hd as [Hd | ->]; [done |].
    cbn [select_handler is_Exception exn_cls exn_str].
    destruct (_ || _); eexists; (split; [reflexivity |]);
      (split; [tauto | done]).
  - cbn [select_handler is_Exception exn_cls exn_str].
    destruct (_ || _); eexists; (split; [reflexivity |]);
      (split; [tauto | done]).
Qed.

(** X18: the endpoint calls the scraper only for two dates that parse,
    with the end date from 0 to 30 days after the start date.  In every
    other case it makes no call at all. *)
Theorem endpoint_guards_scraper cfg w data session_id sessions σ :
  let result :=
    App.scrape_content value_error_str cfg w data session_id sessions σ in
  result.2 ≠ σ →
  ∃ start end_,
    strptime (get data "start_date" "") "%Y-%m-%d" = Some start
    ∧ strptime (get data "end_date" "") "%Y-%m-%d" = Some end_
    ∧ 0 <= toordinal end_ - toordinal start <= 30.
Proof.
  intros result Hcall. subst result.
  destruct (strptime (get data "start_date" "") "%Y-%m-%d") as [start|]
    eqn:Hs.
  2:{ destruct (scrape_content_unparsed cfg w data session_id sessions σ)
        as (resp & H & _ & _); [by left |]. by rewrite H in Hcall. }
  destruct (strptime (get data "end_date" "") "%Y-%m-%d") as [end_|] eqn:He.
  2:{ destruct (scrape_content_unparsed cfg w data session_id sessions σ)
        as (resp & H & _ & _); [by right |]. by rewrite H in Hcall. }
  rewrite (scrape_content_parsed _ _ _ _ _ _ _ _ Hs He) in Hcall.
  exists start, end_. split; [done |]. split; [done |].
  destruct (30 <? _) eqn:H30; [done |].
  destruct (instant end_ <? instant start) eqn:Hord; [done |].
  apply Z.ltb_ge in H30, Hord. unfold instant in Hord.
  rewrite (strptime_midnight _ _ _ Hs), (strptime_midnight _ _ _ He) in Hord.
  unfold us_per_day in Hord. lia.
Qed.

(** X19: what the endpoint answers.  It never raises an [Exception].
    Its status is 200, 400, 500 or 504.  It answers 200 exactly when the
    two dates pass its checks and the scraper returns; the answer then
    counts and carries the returned records, each with its website URL
    set, and the same records are stored with the two dates under the
    session id, or under [default] without one.  With every other answer
    the sessions are as they were. *)
Theorem endpoint_answers cfg w data session_id sessions σ :
  let start_date := get data "start_date" "" in
  let end_date := get data "end_date" "" in
  let result :=
    App.scrape_content value_error_str cfg w data session_id sessions σ in
  (∀ e, result.1 = Raises e → is_Exception e = false) ∧
  (∀ resp sessions',
     result.1 = Returns (resp, sessions') →
     (App.status resp = 200 ∨ App.status resp = 400
      ∨ App.status resp = 500 ∨ App.status resp = 504) ∧
     (App.status resp = 200 →
      ∃ start end_ records,
        strptime start_date "%Y-%m-%d" = Some start
        ∧ strptime end_date "%Y-%m-%d" = Some end_
        ∧ 0 <= toordinal end_ - toordinal start <= 30
        ∧ Scraper.scrape_date_range cfg w start_date end_date σ
          = (Returns records, result.2)
        ∧ App.body_of resp
          = App.SuccessBody (length records) (App.add_website_url <$> records)
        ∧ sessions'
          = <[default "default" session_id :=
                App.Session (App.add_website_url <$> records)
                  (start_date, end_date)]> sessions) ∧
     (App.status resp ≠ 200 → sessions' = sessions)) ∧
  (∀ start end_ records σ',
     strptime start_date "%Y-%m-%d" = Some start →
     strptime end_date "%Y-%m-%d" = Some end_ →
     0 <= toordinal end_ - toordinal start <= 30 →
     Scraper.scrape_date_range cfg w start_date end_date σ
     = (Returns records, σ') →
     ∃ resp sessions',
       result = (Returns (resp, sessions'), σ') ∧ App.status resp = 200).
Proof.
  intros start_date end_date result. subst result.
  destruct (strptime start_date "%Y-%m-%d") as [start|] eqn:Hs.
  2:{ destruct (scrape_content_unparsed cfg w data session_id sessions σ)
        as (resp & H & Hst & _); [by left |]. rewrite H. cbn [fst snd].
      split; [done |]. split; [|done].
      intros ? ? [= <- <-]. split; [tauto |]. split; [lia | done]. }
  destruct (strptime end_date "%Y-%m-%d") as [end_|] eqn:He.
  2:{ destruct (scrape_content_unparsed cfg w data session_id sessions σ)
        as (resp & H & Hst & _); [by right |]. rewrite H. cbn [fst snd].
      split; [done |]. split; [|done].
      intros ? ? [= <- <-]. split; [tauto |]. split; [lia | done]. }
  rewrite (scrape_content_parsed _ _ _ _ _ _ _ _ Hs He).
  fold start_date end_date.
  destruct (30 <? _) eqn:H30.
  { cbn [fst snd]. split; [done |]. split.
    - intros ? ? [= <- <-]. cbn. split; [tauto |]. split; [lia | done].
    - intros ? ? ? ? [= <-] [= <-] Hr _. apply Z.ltb_lt in H30. lia. }
  destruct (instant end_ <? instant start) eqn:Hord.
  { cbn [fst snd]. split; [done |]. split.
    - intros ? ? [= <- <-]. cbn. split; [tauto |]. split; [lia | done].
    - intros ? ? ? ? [= <-] [= <-] Hr _. apply Z.ltb_lt in Hord.
      unfold instant in Hord.
      rewrite (strptime_midnight _ _ _ Hs), (strptime_midnight _ _ _ He)
        in Hord.
      unfold us_per_day in Hord. lia. }
  destruct (Scraper.scrape_date_range _ _ _ _ σ) as [[records|e] σ'] eqn:Hrun.
  - cbn [fst snd]. split; [done |]. split.
    + intros ? ? [= <- <-]. cbn [App.status App.body_of].
      split; [tauto |]. split; [|done]. intros _.
      exists start, end_, records. rewrite length_fmap.
      repeat (split; [done |]). split; [|done].
      apply Z.ltb_ge in H30, Hord. unfold instant in Hord.
      rewrite (strptime_midnight _ _ _ Hs), (strptime_midnight _ _ _ He)
        in Hord.
      unfold us_per_day in Hord. lia.
    + intros ? ? records' σ'' _ _ _ [= <- <-]. by eexists _, _.
  - destruct (is_Exception e) eqn:Hex; cbn [fst snd].
    + split; [done |]. split; [|done].
      intros ? ? [= <- <-]. rewrite scrape_error_response_500.
      split; [tauto |]. split; [lia | done].
    + split; [by intros ? [= <-] |]. split; done.
Qed.

(** X20: the answer 504, the timeout answer, is never given for a
    failure of the scraper: the endpoint gives it only when a date of the
    request is no date, on the wording of the [ValueError] of
    [strptime].  A failure of the scraper, a page that takes too long to
    load included, is answered with 500. *)
Theorem timeout_answer_only_for_dates cfg w data session_id sessions σ :
  let result :=
    App.scrape_content value_error_str cfg w data session_id sessions σ in
  ∀ resp sessions',
    result.1 = Returns (resp, sessions') →
    App.status resp = 504 →
    (strptime (get data "start_date" "") "%Y-%m-%d" = None
     ∨ strptime (get data "end_date" "") "%Y-%m-%d" = None)
    ∧ result.2 = σ.
Proof.
  intros result resp sessions'. subst result.
  destruct (strptime (get data "start_date" "") "%Y-%m-%d") as [start|]
    eqn:Hs.
  2:{ destruct (scrape_content_unparsed cfg w data session_id sessions σ)
        as (resp' & H & _ & _); [by left |]. rewrite H. cbn [fst snd].
      intros _ _. split; [by left | done]. }
  destruct (strptime (get data "end_date" "") "%Y-%m-%d") as [end_|] eqn:He.
  2:{ destruct (scrape_content_unparsed cfg w data session_id sessions σ)
        as (resp' & H & _ & _); [by right |]. rewrite H. cbn [fst snd].
      intros _ _. split; [by right | done]. }
  rewrite (scrape_content_parsed _ _ _ _ _ _ _ _ Hs He).
  destruct (30 <? _); [by intros [= <- <-] |].
  destruct (instant end_ <? instant start); [by intros [= <- <-] |].
  destruct (Scraper.scrape_date_range _ _ _ _ σ) as [[records|e] σ'].
  - by intros [= <- <-].
  - destruct (is_Exception e); [|done].
    intros [= <- <-]. by rewrite scrape_error_response_500.
Qed.

End endpoint_facts.

Section endpoint_records.
Import Py Run PyFacts.
Variable value_error_str : string → string.

(** The loop "Normalize website URLs" writes what [normalize_website_url]
    answers, the answer [#] for an empty website included. *)
Lemma add_website_url_insert (item : gmap string string) :
  App.add_website_url item
  = <["website_url" :=
        LinkGenerator.normalize_website_url (get item "website" "")]> item.
Proof.
  unfold App.add_website_url.
  destruct (String.eqb_spec (get item "website" "") "") as [-> | _]; done.
Qed.

(** X21: in an answer of the endpoint that carries records, every record
    has its website and a website URL made from it: [#] for an empty
    website, and otherwise [https://] followed by a host without [/] or
    [?]; the empty website URL that scraper.py writes is gone.  The
    record is otherwise as the scraper returned it. *)
Theorem answered_records_have_urls cfg w data session_id sessions σ :
  let start_date := get data "start_date" "" in
  let end_date := get data "end_date" "" in
  let result :=
    App.scrape_content value_error_str cfg w data session_id sessions σ in
  ∀ status count items sessions',
    result.1
    = Returns (App.Response status (App.SuccessBody count items), sessions') →
    ∃ records,
      Scraper.scrape_date_range cfg w start_date end_date σ
      = (Returns records, result.2)
      ∧ Forall2
          (λ record item,
             (∀ key, key ≠ "website_url" → item !! key = record !! key)
             ∧ ∃ website url,
                 item !! "website" = Some website
                 ∧ item !! "website_url" = Some url
                 ∧ (website = "" ∧ url = "#"
                    ∨ website ≠ ""
                      ∧ ∃ host, url = "https://" +:+ host
                                ∧ contains "/" host = false
                                ∧ contains "?" host = false))
          records items.
Proof.
  intros start_date end_date result status count items sessions'.
  subst result.
  destruct (strptime start_date "%Y-%m-%d") as [start|] eqn:Hs.
  2:{ destruct (scrape_content_unparsed value_error_str cfg w data session_id
                  sessions σ) as (resp & H & _ & Hb); [by left |].
      rewrite H. cbn [fst]. intros [= -> _]. by destruct (Hb count items). }
  destruct (strptime end_date "%Y-%m-%d") as [end_|] eqn:He.
  2:{ destruct (scrape_content_unparsed value_error_str cfg w data session_id
                  sessions σ) as (resp & H & _ & Hb); [by right |].
      rewrite H. cbn [fst]. intros [= -> _]. by destruct (Hb count items). }
  rewrite (scrape_content_parsed _ _ _ _ _ _ _ _ _ Hs He).
  fold start_date end_date.
  destruct (30 <? _); [done |].
  destruct (instant end_ <? instant start); [done |].
  destruct (Scraper.scrape_date_range _ _ _ _ σ) as [[records|e] σ'] eqn:Hrun.
  2:{ destruct (is_Exception e); [|done]. cbn [fst].
      unfold App.scrape_error_response.
      destruct (_ || _); [done |]. by destruct (contains "chrome" _). }
  cbn [fst snd]. intros [= _ _ <- _]. exists records. split; [done |].
  apply scrape_returns_page in Hrun
    as (start' & end_' & section & Hs' & He' & _ & ->).
  assert (Hok : Forall (Spec.emitted_ok start_date end_date)
                  (SpecX.resolved_records w start' end_' (now_year w)
                     (Scraper.extractAllData section))).
  { eapply pipeline_records_ok; [done | done | apply extracted_items_ok]. }
  induction Hok as [|record records (_ & _ & Hkeys) _ IH]; [constructor |].
  rewrite fmap_cons. constructor; [|exact IH].
  rewrite add_website_url_insert.
  split; [intros key Hk; by rewrite lookup_insert_ne |].
  assert (Hw : is_Some (record !! "website")).
  { unfold Spec.other_fields in Hkeys.
    by repeat (apply Forall_cons in Hkeys as [? Hkeys]). }
  destruct Hw as [website Hw]. exists website. eexists.
  split; [by rewrite lookup_insert_ne |].
  split; [by rewrite lookup_insert_eq |].
  unfold get. rewrite Hw. cbn [from_option id].
  destruct (String.eqb_spec website "") as [-> | Hne]; [by left | right].
  split; [done |]. by apply normalize_website_url_host.
Qed.

(** When [_init_driver] raises, [_scrape_by_date_navigation] raises the
    same exception and quits nothing. *)
Lemma navigation_init_raises cfg w start_date end_date σ e :
  (Scraper._init_driver cfg w (State None (trace σ))).1 = Raises e →
  Scraper._scrape_by_date_navigation cfg w start_date end_date σ
  = (Raises e, (Scraper._init_driver cfg w (State None (trace σ))).2).
Proof.
  intros H. unfold Scraper._scrape_by_date_navigation.
  pose proof (quiet_init_driver cfg w (State None (trace σ))) as [Hv _].
  unfold mbind at 1, M_bind at 1, set_driver at 1.
  unfold try_finally, try_except. unfold mbind at 1, M_bind at 1.
  destruct (Scraper._init_driver cfg w (State None (trace σ)))
    as [[d|e'] σ1]; [done |].
  cbn [fst snd] in *. injection H as ->. cbn [select_handler].
  unfold mbind, M_bind, get_driver, raise, mret, M_ret.
  cbn [var_driver] in Hv.
  destruct (is_Exception e); rewrite Hv; done.
Qed.

(** X22: a browser that cannot be launched is answered with 500 and one
    of two fixed messages.  For a request with proper dates, a
    connectivity test that does not stop the scrape and launch calls that
    fail with [OSError] or [WebDriverException] only: when
    [_init_driver] raises, the endpoint answers 500 with the message
    Chrome Browser Error, or with the message Connection Error when the
    text of the failure mentions a connection; the sessions are as they
    were, and no session is quit, as none was acquired. *)
Theorem launch_failure_answer cfg w data session_id sessions σ start end_ e :
  let start_date := get data "start_date" "" in
  let end_date := get data "end_date" "" in
  let result :=
    App.scrape_content value_error_str cfg w data session_id sessions σ in
  strptime start_date "%Y-%m-%d" = Some start →
  strptime end_date "%Y-%m-%d" = Some end_ →
  0 <= toordinal end_ - toordinal start <= 30 →
  (∀ e', requests_get w = Raises e' →
         is_Exception e' = true
         ∧ is_ConnectionError e' || is_Timeout e' = false) →
  SpecX.launch_failures_known w →
  (Scraper._init_driver cfg w (State None (trace σ ++ [EvRequest]))).1
  = Raises e →
  (∃ message,
     result.1 = Returns (App.Response 500 (App.ErrorBody message), sessions)
     ∧ (message = "Connection Error: Unable to reach TVInsider.com. Please check your internet connection and try again."
        ∨ message = "Chrome Browser Error: Please ensure Google Chrome is installed on your system. If the issue persists, try setting HEADLESS_BROWSER=false in your .env file."))
  ∧ ¬ In EvQuit (drop (length (trace σ)) (trace result.2)).
Proof.
  intros start_date end_date result Hs He Hrange Hprobe Hknown Hinit.
  subst result.
  rewrite (scrape_content_parsed _ _ _ _ _ _ _ _ _ Hs He).
  fold start_date end_date.
  assert ((30 <? toordinal end_ - toordinal start) = false) as ->
    by (apply Z.ltb_ge; lia).
  assert ((instant end_ <? instant start) = false) as ->.
  { apply Z.ltb_ge. unfold instant.
    rewrite (strptime_midnight _ _ _ Hs), (strptime_midnight _ _ _ He).
    unfold us_per_day. lia. }
  set (σ1 := State (var_driver σ) (trace σ ++ [EvRequest])).
  assert (Hrun : Scraper.scrape_date_range cfg w start_date end_date σ
                 = Scraper._scrape_by_date_navigation cfg w start_date
                     end_date σ1).
  { unfold Scraper.scrape_date_range,
      Scraper._scrape_full_calendar_and_filter.
    unfold mbind at 1, M_bind at 1, try_except, mbind, M_bind, call, mret,
      M_ret, raise.
    destruct (requests_get w) as [status_code|e'] eqn:Hg.
    - by destruct (String.eqb _ _).
    - destruct (Hprobe e' eq_refl) as [Hex Hn].
      apply orb_false_iff in Hn as [Hc Ht].
      cbn [select_handler]. rewrite Hc, Ht, Hex.
      by destruct (String.eqb _ _). }
  rewrite Hrun.
  rewrite (navigation_init_raises cfg w start_date end_date σ1 e)
    by exact Hinit.
  destruct (init_driver_cases cfg w (State None (trace σ ++ [EvRequest])))
    as (_ & _ & _ & Hmsg).
  destruct (Hmsg e Hinit Hknown) as [Hcls Hchrome].
  assert (Hex : is_Exception e = true) by (unfold is_Exception; by rewrite Hcls).
  rewrite Hex. cbn [fst snd]. split.
  - unfold App.scrape_error_response. rewrite Hchrome.
    destruct (_ || _); eexists; (split; [reflexivity |]); tauto.
  - pose proof (quiet_init_driver cfg w (State None (trace σ ++ [EvRequest])))
      as (_ & tr & Htr & Hq).
    cbn [trace σ1] in *. rewrite Htr, <- app_assoc.
    rewrite drop_app_length. cbn [app]. intros [H | H]; [done | by apply Hq].
Qed.

End endpoint_records.

Section endpoint_failures.
Import Py Run PyFacts.
Variable value_error_str : string → string.

(** The endpoint for two proper dates in a proper range: it answers what
    the scraper returns or raises. *)
Lemma scrape_content_in_range cfg w data session_id sessions σ start end_ :
  let start_date := get data "start_date" "" in
  let end_date := get data "end_date" "" in
  strptime start_date "%Y-%m-%d" = Some start →
  strptime end_date "%Y-%m-%d" = Some end_ →
  0 <= toordinal end_ - toordinal start <= 30 →
  App.scrape_content value_error_str cfg w data session_id sessions σ
  = match Scraper.scrape_date_range cfg w start_date end_date σ with
    | (Returns records, σ') =>
        (Returns
           (App.Response 200
              (App.SuccessBody (length (App.add_website_url <$> records))
                 (App.add_website_url <$> records)),
            <[default "default" session_id :=
                App.Session (App.add_website_url <$> records)
                  (start_date, end_date)]> sessions), σ')
    | (Raises e, σ') =>
        if is_Exception e
        then (Returns (App.scrape_error_response (exn_str e), sessions), σ')
        else (Raises e, σ')
    end.
Proof.
  intros start_date end_date Hs He Hrange.
  rewrite (scrape_content_parsed _ _ _ _ _ _ _ _ _ Hs He).
  fold start_date end_date.
  assert ((30 <? toordinal end_ - toordinal start) = false) as ->
    by (apply Z.ltb_ge; lia).
  assert ((instant end_ <? instant start) = false) as ->; [|done].
  apply Z.ltb_ge. unfold instant.
  rewrite (strptime_midnight _ _ _ Hs), (strptime_midnight _ _ _ He).
  unfold us_per_day. lia.
Qed.

(** X27: a connectivity test that fails is answered as a connection
    error, a timeout of the test included.  For a request with proper
    dates, when [requests.get] raises [ConnectionError] or [Timeout], the
    endpoint answers 500 with the message Connection Error, not the
    timeout answer 504; the test is the only call made and the sessions
    are as they were. *)
Theorem probe_failure_answer cfg w data session_id sessions σ start end_ e :
  let start_date := get data "start_date" "" in
  let end_date := get data "end_date" "" in
  strptime start_date "%Y-%m-%d" = Some start →
  strptime end_date "%Y-%m-%d" = Some end_ →
  0 <= toordinal end_ - toordinal start <= 30 →
  requests_get w = Raises e →
  is_ConnectionError e || is_Timeout e = true →
  App.scrape_content value_error_str cfg w data session_id sessions σ
  = (Returns
       (App.Response 500
          (App.ErrorBody
             "Connection Error: Unable to reach TVInsider.com. Please check your internet connection and try again."),
        sessions),
     State (var_driver σ) (trace σ ++ [EvRequest])).
Proof.
  intros start_date end_date Hs He Hrange Hg Hcls.
  rewrite (scrape_content_in_range _ _ _ _ _ _ _ _ Hs He Hrange).
  fold start_date end_date.
  unfold Scraper.scrape_date_range.
  unfold mbind at 1, M_bind at 1, try_except, mbind, M_bind, call, mret,
    M_ret, raise.
  rewrite Hg. cbn [select_handler].
  destruct (is_ConnectionError e); [done |].
  cbn [orb] in Hcls. rewrite Hcls. done.
Qed.

(** X28: a page that takes too long to load is answered with 500, not
    with the timeout answer 504.  For a request with proper dates, a
    connectivity test that does not stop the scrape and a launch that
    succeeds: when [driver.get] raises an [Exception] whose text mentions
    a timeout, in any letter case, and [driver.quit()] returns, the
    endpoint answers 500 with the message Scraping failed followed by the
    fixed text of the website timeout; the sessions are as they were. *)
Theorem page_load_timeout_answer cfg w data session_id sessions σ
    start end_ e :
  let start_date := get data "start_date" "" in
  let end_date := get data "end_date" "" in
  strptime start_date "%Y-%m-%d" = Some start →
  strptime end_date "%Y-%m-%d" = Some end_ →
  0 <= toordinal end_ - toordinal start <= 30 →
  (∀ e', requests_get w = Raises e' →
         is_Exception e' = true
         ∧ is_ConnectionError e' || is_Timeout e' = false) →
  path_exists w = true → webdriver_Chrome w = Returns tt →
  (Scraper.headless cfg = false → maximize_window w = Returns tt) →
  set_page_load_timeout w = Returns tt → implicitly_wait w = Returns tt →
  driver_get w = Raises e → is_Exception e = true →
  contains "timeout" (lower (exn_str e)) = true →
  driver_quit w = Returns tt →
  (App.scrape_content value_error_str cfg w data session_id sessions σ).1
  = Returns
      (App.Response 500
         (App.ErrorBody
            "Scraping failed: Website timeout: The TVInsider website is not responding. Please try again later."),
       sessions).
Proof.
  intros start_date end_date Hs He Hrange Hprobe Hp Hc Hm Ht Hi Hg Hex Hto Hq.
  rewrite (scrape_content_in_range _ _ _ _ _ _ _ _ Hs He Hrange).
  fold start_date end_date.
  set (σ1 := State (var_driver σ) (trace σ ++ [EvRequest])).
  assert (Hrun : Scraper.scrape_date_range cfg w start_date end_date σ
                 = Scraper._scrape_by_date_navigation cfg w start_date
                     end_date σ1).
  { unfold Scraper.scrape_date_range,
      Scraper._scrape_full_calendar_and_filter.
    unfold mbind at 1, M_bind at 1, try_except, mbind, M_bind, call, mret,
      M_ret, raise.
    destruct (requests_get w) as [status_code|e'] eqn:Hg'.
    - by destruct (String.eqb _ _).
    - destruct (Hprobe e' eq_refl) as [Hex' Hn].
      apply orb_false_iff in Hn as [Hc' Ht'].
      cbn [select_handler]. rewrite Hc', Ht', Hex'.
      by destruct (String.eqb _ _). }
  rewrite Hrun.
  unfold Scraper._scrape_by_date_navigation, Scraper._init_driver.
  unfold or_ValueError.
  unfold mbind, M_bind, mret, M_ret, set_driver, try_finally, try_except,
    get_driver, call, raise.
  rewrite Hp, Hc, Ht, Hi, Hs, He, Hg, Hq.
  cbn [negb fst snd var_driver trace select_handler]. rewrite Hex, Hto.
  destruct (Scraper.headless cfg); cbn [negb];
    [|rewrite (Hm eq_refl)];
    cbn [select_handler is_Exception exn_cls fst snd var_driver trace];
    reflexivity.
Qed.

End endpoint_failures.

(** ** The validators *)

Section validators.
Import Py Run PyFacts.

(** Replacing one character: each occurrence gives way to [new]. *)
Lemma replace_char_cons (c d : ascii) (new s : string) :
  replace (String c "") new (String d s)
  = (if ascii_dec c d then new +:+ replace (String c "") new s
     else String d (replace (String c "") new s)).
Proof.
  unfold replace. cbn [replace_from String.prefix String.length Nat.pred].
  destruct (ascii_dec c d); [by destruct s | done].
Qed.

(** A character of the result of a replacement comes from [new] or is a
    character of the text other than the one replaced. *)
Lemma contains_char_replace (x c : ascii) (new s : string) :
  contains (String x "") (replace (String c "") new s) = true →
  contains (String x "") new = true
  ∨ (x ≠ c ∧ contains (String x "") s = true).
Proof.
  induction s as [|d s IH]; [done |].
  rewrite replace_char_cons. destruct (ascii_dec c d) as [<-|Hne].
  - rewrite contains_char_app. intros [H | H]%orb_true_iff; [by left |].
    destruct (IH H) as [? | [? H']]; [by left | right].
    split; [done |]. rewrite contains_char_cons.
    by destruct (ascii_dec x c).
  - rewrite !contains_char_cons. destruct (ascii_dec x d) as [->|Hxd].
    + intros _. right. split; [by intros -> | done].
    + intros H. destruct (IH H) as [? | [? H']]; [by left | by right].
Qed.

Lemma replace_char_nonempty (c : ascii) (new s : string) :
  new ≠ "" → s ≠ "" → replace (String c "") new s ≠ "".
Proof.
  intros Hn Hs. destruct s as [|d s]; [done |].
  rewrite replace_char_cons. destruct (ascii_dec c d); [|done].
  by destruct new.
Qed.

Lemma sanitize_html_nonempty (text : string) :
  text ≠ "" → Validators.sanitize_html text ≠ "".
Proof.
  intros H. unfold Validators.sanitize_html, Validators.double_quote.
  apply String.eqb_neq in H as H'. rewrite H'. cbv zeta.
  repeat (apply replace_char_nonempty; [done |]). done.
Qed.

Lemma sanitize_html_clean (text : string) (x : ascii) :
  In x ["<"; ">"; ascii_of_N 34; "'"]%char →
  contains (String x "") (Validators.sanitize_html text) = false.
Proof.
  intros Hx. unfold Validators.sanitize_html, Validators.double_quote.
  destruct (String.eqb text ""); [done |]. cbv zeta.
  destruct (contains _ _) eqn:H; [exfalso | done].
  apply contains_char_replace in H as [H | [H5 H]];
    [cbn in Hx; intuition (subst; discriminate) |].
  apply contains_char_replace in H as [H | [H4 H]];
    [cbn in Hx; intuition (subst; discriminate) |].
  apply contains_char_replace in H as [H | [H3 H]];
    [cbn in Hx; intuition (subst; discriminate) |].
  apply contains_char_replace in H as [H | [H2 H]];
    [cbn in Hx; intuition (subst; discriminate) |].
  cbn in Hx. intuition.
Qed.

(** X23: [sanitize_html] leaves none of the characters [<], [>], the
    double quote and the single quote in its result, and returns a text
    that has none of these and no [&] as it is. *)
Theorem sanitize_html_escapes (text : string) :
  (∀ x, In x ["<"; ">"; ascii_of_N 34; "'"]%char →
        contains (String x "") (Validators.sanitize_html text) = false) ∧
  ((∀ x, In x ["&"; "<"; ">"; ascii_of_N 34; "'"]%char →
         contains (String x "") text = false) →
   Validators.sanitize_html text = text).
Proof.
  split; [intros x; apply sanitize_html_clean |].
  intros H. unfold Validators.sanitize_html, Validators.double_quote.
  destruct (String.eqb_spec text "") as [-> | _]; [done |]. cbv zeta.
  rewrite (replace_absent "&") by (apply H; cbn; tauto).
  rewrite (replace_absent "<") by (apply H; cbn; tauto).
  rewrite (replace_absent ">") by (apply H; cbn; tauto).
  rewrite (replace_absent (String (ascii_of_N 34) ""))
    by (apply H; cbn; tauto).
  by rewrite (replace_absent "'") by (apply H; cbn; tauto).
Qed.

Lemma field_missing_insert_ne (item : gmap string string)
    (key field v : string) :
  key ≠ field →
  Validators.field_missing (<[key := v]> item) field
  = Validators.field_missing item field.
Proof.
  intros H. unfold Validators.field_missing. by rewrite lookup_insert_ne.
Qed.

(** X24: [clean_scraped_data] keeps, in order, the items that have a
    name, a channel and a date, all three non-empty, and no others.  Of
    an item that it keeps it changes the name and the description only;
    the cleaned item still has the three fields, and neither its name nor
    its description holds a [<], a [>] or a quote. *)
Theorem clean_scraped_data_valid (items : list (gmap string string)) :
  Forall2
    (λ item cleaned,
       (∀ key, key ≠ "name" → key ≠ "description" →
               cleaned !! key = item !! key)
       ∧ Validators.validate_scraped_item cleaned = true
       ∧ ∀ field text x,
           In field ["name"; "description"] →
           cleaned !! field = Some text →
           In x ["<"; ">"; ascii_of_N 34; "'"]%char →
           contains (String x "") text = false)
    (List.filter Validators.validate_scraped_item items)
    (Validators.clean_scraped_data items).
Proof.
  unfold Validators.clean_scraped_data.
  apply Forall2_fmap_r, Forall_Forall2_diag, List.Forall_forall.
  intros item Hin. apply filter_In in Hin as [_ Hv].
  unfold compose. cbv beta.
  unfold Validators.validate_scraped_item, Validators.required_fields in *.
  cbn [existsb] in *. rewrite orb_false_r in *.
  apply negb_true_iff in Hv.
  apply orb_false_iff in Hv as [Hname Hv].
  apply orb_false_iff in Hv as [Hchannel Hdate].
  unfold Validators.field_missing in Hname.
  destruct (item !! "name") as [name|] eqn:Hn; [|done].
  apply String.eqb_neq in Hname.
  unfold Validators.sanitize_item.
  set (item1 := match item !! "description" with
                | Some v => <["description" := Validators.sanitize_html v]> item
                | None => item
                end).
  assert (H1 : item1 !! "name" = Some name
               ∧ Validators.field_missing item1 "channel" = false
               ∧ Validators.field_missing item1 "date" = false
               ∧ (∀ key, key ≠ "description" → item1 !! key = item !! key)
               ∧ ∀ text x, item1 !! "description" = Some text →
                   In x ["<"; ">"; ascii_of_N 34; "'"]%char →
                   contains (String x "") text = false).
  { subst item1. destruct (item !! "description") as [v|] eqn:Hd.
    - rewrite lookup_insert_ne, !field_missing_insert_ne by done.
      repeat (split; [done |]).
      split; [intros key Hk; by rewrite lookup_insert_ne |]. intros text x.
      rewrite lookup_insert_eq. intros [= <-]. apply sanitize_html_clean.
    - repeat (split; [done |]). intros text x. by rewrite Hd. }
  destruct H1 as (-> & Hc1 & Hd1 & Hkeep & Hdesc). cbv beta iota.
  split; [|split].
  - intros key H1 H2. rewrite lookup_insert_ne by done. by apply Hkeep.
  - apply negb_true_iff.
    rewrite (field_missing_insert_ne _ "name" "channel"),
      (field_missing_insert_ne _ "name" "date"), Hc1, Hd1 by done.
    unfold Validators.field_missing. rewrite lookup_insert_eq.
    cbn [orb]. rewrite orb_false_r. apply String.eqb_neq.
    by apply sanitize_html_nonempty.
  - intros field text x [<- | [<- | []]].
    + rewrite lookup_insert_eq. intros [= <-]. apply sanitize_html_clean.
    + rewrite lookup_insert_ne by done. apply Hdesc.
Qed.

End validators.

Section date_validation.
Import Py Run PyFacts.
Variable value_error_str : string → string.

(** X25: the range that [validate_date_range] accepts.  Both dates are
    proper dates, the end date lies from 0 to 30 days after the start
    date and at most 90 days after today; and the endpoint, given the
    same dates, does not turn the request down: it calls the scraper and
    answers neither 400 nor 504. *)
Theorem validate_date_range_accepts now start_date end_date message :
  0 <= tod now < us_per_day →
  Validators.validate_date_range now start_date end_date
  = Some (true, message) →
  (∃ start end_,
     strptime start_date "%Y-%m-%d" = Some start
     ∧ strptime end_date "%Y-%m-%d" = Some end_
     ∧ 0 <= toordinal end_ - toordinal start <= 30
     ∧ toordinal end_ <= toordinal now + 90) ∧
  (∀ cfg w data session_id sessions σ,
     get data "start_date" "" = start_date →
     get data "end_date" "" = end_date →
     App.scrape_content value_error_str cfg w data session_id sessions σ
     = match Scraper.scrape_date_range cfg w start_date end_date σ with
       | (Returns records, σ') =>
           (Returns
              (App.Response 200
                 (App.SuccessBody (length (App.add_website_url <$> records))
                    (App.add_website_url <$> records)),
               <[default "default" session_id :=
                   App.Session (App.add_website_url <$> records)
                     (start_date, end_date)]> sessions), σ')
       | (Raises e, σ') =>
           if is_Exception e
           then (Returns (App.scrape_error_response (exn_str e), sessions),
                 σ')
           else (Raises e, σ')
       end).
Proof.
  intros Htod. unfold Validators.validate_date_range.
  destruct (strptime start_date "%Y-%m-%d") as [start|] eqn:Hs; [|done].
  destruct (strptime end_date "%Y-%m-%d") as [end_|] eqn:He; [|done].
  destruct (instant end_ <? instant start) eqn:Hord; [done |].
  destruct (30 <? _) eqn:H30; [done |].
  destruct (_ <=? _MAXORDINAL); [|done].
  destruct (_ <? instant end_) eqn:Hf; [done |]. intros _. split.
  - exists start, end_. repeat (split; [done |]).
    apply Z.ltb_ge in Hord, H30, Hf. unfold instant in *.
    rewrite (strptime_midnight _ _ _ Hs), (strptime_midnight _ _ _ He) in *.
    unfold us_per_day in *. lia.
  - intros cfg w data session_id sessions σ Hds Hde.
    rewrite <- Hds in Hs. rewrite <- Hde in He.
    rewrite (scrape_content_parsed _ _ _ _ _ _ _ _ _ Hs He).
    rewrite Hds, Hde. by rewrite H30, Hord.
Qed.

End date_validation.

(** ** Instances of the further properties *)

Import Py Run.

Lemma extraction_of_a_day_witness :
  tagName ExamplesX.last_header = "H6" ∧
  Forall (λ e, tagName e ≠ "H6") ExamplesX.last_block ∧
  Scraper.extractAllData (Some Examples.page)
  = (Scraper.extractAllData (Some (take 3 Examples.page))
     ++ [Scraper.make_item "Tuesday, June 3, 2025"
           (Examples.listing "Show B" "ESPN")])%list.
Proof.
  assert (Hb : Forall (λ e, tagName e ≠ "H6") ExamplesX.last_block)
    by (repeat constructor; discriminate).
  split; [reflexivity |]. split; [exact Hb |].
  exact (proj1 extraction_of_a_day (take 3 Examples.page)
           ExamplesX.last_header ExamplesX.last_block eq_refl Hb).
Defined.

Lemma optimized_agrees_witness :
  Scraper._scrape_by_date_navigation Examples.cfg Examples.world
    "2025-06-01" "2025-06-03" (State None [])
  = (Returns Examples.emitted, ExamplesX.navigation_state) ∧
  (ScraperOptimized.scrape_date_range Examples.cfg_optimized Examples.world
     "2025-06-01" "2025-06-03" (State None [])).1
  = Returns (SpecX.without_extras <$> Examples.emitted).
Proof.
  assert (H : Scraper._scrape_by_date_navigation Examples.cfg Examples.world
                "2025-06-01" "2025-06-03" (State None [])
              = (Returns Examples.emitted, ExamplesX.navigation_state))
    by (vm_compute; reflexivity).
  split; [exact H |].
  exact (proj2 optimized_agrees Examples.cfg Examples.cfg_optimized _ _ _ _ _
           (State None []) _ H).
Defined.

Lemma returned_record_keys_witness :
  Scraper.scrape_date_range Examples.cfg Examples.world "2025-06-01"
    "2025-06-03" (State None [])
  = (Returns Examples.emitted, Examples.final_state) ∧
  Forall (λ r, dom r = SpecX.record_keys
               ∧ r !! "website_url" = Some ""
               ∧ r !! "country" = Some "US"
               ∧ r !! "date_header" = None) Examples.emitted.
Proof.
  assert (H : Scraper.scrape_date_range Examples.cfg Examples.world
                "2025-06-01" "2025-06-03" (State None [])
              = (Returns Examples.emitted, Examples.final_state))
    by (vm_compute; reflexivity).
  split; [exact H |].
  exact (proj1 returned_record_keys _ _ _ _ _ _ _ H).
Defined.

Lemma wider_range_keeps_records_witness :
  instant (Datetime 2025 6 1 0) <= instant (Datetime 2025 6 2 0) ∧
  instant (Datetime 2025 6 2 0) <= instant (Datetime 2025 6 3 0) ∧
  sublist
    (SpecX.resolved_records Examples.world (Datetime 2025 6 2 0)
       (Datetime 2025 6 2 0) 2025 (Scraper.extractAllData (Some Examples.page)))
    (SpecX.resolved_records Examples.world (Datetime 2025 6 1 0)
       (Datetime 2025 6 3 0) 2025 (Scraper.extractAllData (Some Examples.page))).
Proof.
  assert (H1 : instant (Datetime 2025 6 1 0) <= instant (Datetime 2025 6 2 0))
    by (vm_compute; discriminate).
  assert (H2 : instant (Datetime 2025 6 2 0) <= instant (Datetime 2025 6 3 0))
    by (vm_compute; discriminate).
  split; [exact H1 |]. split; [exact H2 |].
  exact (wider_range_keeps_records Examples.world _ _ _ _ 2025 _ H1 H2).
Defined.

Lemma date_filter_fails_open_witness :
  Scraper._filter_by_date_range [Examples.undated] "soon" "2025-06-03"
  = [Examples.undated] ∧
  In Examples.undated
    (Scraper._filter_by_date_range [Examples.undated] "2025-06-01"
       "2025-06-03").
Proof.
  split.
  - exact (proj1 (date_filter_fails_open [Examples.undated] "soon"
                    "2025-06-03") (or_introl eq_refl)).
  - exact (proj2 (date_filter_fails_open [Examples.undated] "2025-06-01"
                    "2025-06-03") Examples.undated (or_introl eq_refl)
             (or_introl eq_refl)).
Defined.

Lemma returned_records_pass_filters_witness :
  Scraper.scrape_date_range Examples.cfg Examples.world "2025-06-01"
    "2025-06-03" (State None [])
  = (Returns Examples.emitted, Examples.final_state) ∧
  Scraper._filter_by_date_range Examples.emitted "2025-06-01" "2025-06-03"
  = Examples.emitted ∧
  Scraper._filter_excluded_content Examples.emitted = Examples.emitted.
Proof.
  assert (H : Scraper.scrape_date_range Examples.cfg Examples.world
                "2025-06-01" "2025-06-03" (State None [])
              = (Returns Examples.emitted, Examples.final_state))
    by (vm_compute; reflexivity).
  split; [exact H |].
  exact (returned_records_pass_filters _ _ _ _ _ _ _ H).
Defined.

Lemma implicit_year_window_witness :
  Spec.valid (Datetime 2025 6 5 1) ∧
  Spec.first_match Scraper.formats (title (strip "May 6"))
  = Some ("%B %d", Datetime 1900 5 6 0) ∧
  ∃ r, Scraper._parse_date_optimized (Datetime 2025 6 5 1) "May 6" 2025
       = Some (strftime_iso r)
       ∧ Spec.valid r ∧ month r = 5 ∧ day r = 6
       ∧ toordinal (Datetime 2025 6 5 1) - 30 <= toordinal r
         <= toordinal (Datetime 2025 6 5 1) + 365.
Proof.
  assert (Hv : Spec.valid (Datetime 2025 6 5 1)).
  { split; [reflexivity |]. unfold us_per_day. cbn. lia. }
  split; [exact Hv |]. split; [reflexivity |].
  exact (implicit_year_window (Datetime 2025 6 5 1) "May 6" "%B %d"
           (Datetime 1900 5 6 0) Hv
           ltac:(vm_compute; reflexivity) ltac:(cbn; lia) eq_refl eq_refl).
Defined.

Lemma resolver_ignores_case_and_margin_witness :
  lower "monday, AUGUST 11" = lower "Monday, August 11" ∧
  Scraper._parse_date_optimized (Datetime 2025 8 10 0) "monday, AUGUST 11"
    2025
  = Scraper._parse_date_optimized (Datetime 2025 8 10 0) "Monday, August 11"
      2025.
Proof.
  split; [reflexivity |].
  exact (proj1 (resolver_ignores_case_and_margin (Datetime 2025 8 10 0) 2025)
           "monday, AUGUST 11" "Monday, August 11" eq_refl).
Defined.

Lemma explicit_year_ignores_clock_witness :
  Spec.first_match Scraper.formats (title (strip "Friday, December 15, 2024"))
  = Some ("%A, %B %d, %Y", Datetime 2024 12 15 0) ∧
  Scraper._parse_date_optimized (Datetime 2031 1 1 0)
    "Friday, December 15, 2024" 2031
  = Some (strftime_iso (Datetime 2024 12 15 0)).
Proof.
  split; [reflexivity |].
  exact (explicit_year_ignores_clock "Friday, December 15, 2024"
           "%A, %B %d, %Y" (Datetime 2024 12 15 0) eq_refl eq_refl
           (Datetime 2031 1 1 0) 2031).
Defined.

Lemma leap_day_needs_a_year_witness :
  Spec.first_match Scraper.formats (title (strip "February 28"))
  = Some ("%B %d", Datetime 1900 2 28 0) ∧
  ¬ (month (Datetime 1900 2 28 0) = 2 ∧ day (Datetime 1900 2 28 0) = 29).
Proof.
  split; [reflexivity |].
  exact (proj2 leap_day_needs_a_year "February 28" "%B %d"
           (Datetime 1900 2 28 0) eq_refl eq_refl).
Defined.

Lemma probe_is_advisory_witness :
  (∃ msg,
     (Scraper.scrape_date_range Examples.cfg ExamplesX.offline "2025-06-01"
        "2025-06-03" (State None [])).1
     = Raises (Exn ExceptionC msg)) ∧
  (Scraper.scrape_date_range Examples.cfg ExamplesX.offline "2025-06-01"
     "2025-06-03" (State None [])).2
  = State None [EvRequest].
Proof.
  exact (proj1 (probe_is_advisory Examples.cfg ExamplesX.offline "2025-06-01"
                  "2025-06-03" (State None []))
           (Exn ConnectionErrorC "Max retries exceeded") eq_refl eq_refl).
Defined.

Lemma init_driver_outcomes_witness :
  SpecX.launch_failures_known ExamplesX.no_browser ∧
  exn_cls (Exn ExceptionC
             ("Failed to start Chrome. Please ensure Chrome browser is installed. Error: "
              +:+ "unknown error: cannot find Chrome binary"))
  = ExceptionC ∧
  contains "chrome"
    (lower ("Failed to start Chrome. Please ensure Chrome browser is installed. Error: "
            +:+ "unknown error: cannot find Chrome binary"))
  = true.
Proof.
  assert (Hk : SpecX.launch_failures_known ExamplesX.no_browser).
  { intros o [<- | [<- | [<- | [<- | []]]]] e; intros [= <-]; reflexivity. }
  split; [exact Hk |].
  exact (proj2 (proj2 (proj2
           (init_driver_outcomes Examples.cfg ExamplesX.no_browser
              (State None []))))
           (Exn ExceptionC
              ("Failed to start Chrome. Please ensure Chrome browser is installed. Error: "
               +:+ "unknown error: cannot find Chrome binary"))
           eq_refl Hk).
Defined.

Lemma invalid_date_after_launch_witness :
  strptime "June 1" "%Y-%m-%d" = None ∧
  (∃ e, (Scraper._scrape_by_date_navigation Examples.cfg Examples.world
           "June 1" "2025-06-03" (State None [])).1 = Raises e
        ∧ (driver_quit Examples.world = Returns tt →
           exn_cls e = ValueErrorC)) ∧
  trace (Scraper._scrape_by_date_navigation Examples.cfg Examples.world
           "June 1" "2025-06-03" (State None [])).2
  = [EvChrome; EvConfigure; EvConfigure; EvQuit].
Proof.
  split; [reflexivity |].
  exact (invalid_date_after_launch Examples.cfg Examples.world "June 1"
           "2025-06-03" (State None []) eq_refl eq_refl
           (λ H, eq_refl) eq_refl eq_refl (or_introl eq_refl)).
Defined.

Lemma page_load_failure_witness :
  (Scraper._scrape_by_date_navigation Examples.cfg ExamplesX.slow_page
     "2025-06-01" "2025-06-03" (State None [])).1
  = Raises (Exn ExceptionC
      "Website timeout: The TVInsider website is not responding. Please try again later.")
  ∧ trace (Scraper._scrape_by_date_navigation Examples.cfg
             ExamplesX.slow_page "2025-06-01" "2025-06-03" (State None [])).2
    = [EvChrome; EvConfigure; EvConfigure; EvGet; EvQuit]
  ∧ (ScraperOptimized.scrape_date_range Examples.cfg_optimized
       ExamplesX.slow_page "2025-06-01" "2025-06-03" (State None [])).1
    = Raises ExamplesX.page_load_timeout
  ∧ trace (ScraperOptimized.scrape_date_range Examples.cfg_optimized
             ExamplesX.slow_page "2025-06-01" "2025-06-03" (State None [])).2
    = [EvChrome; EvConfigure; EvGet; EvQuit].
Proof.
  exact (page_load_failure Examples.cfg Examples.cfg_optimized
           ExamplesX.slow_page "2025-06-01" "2025-06-03" (State None [])
           (Datetime 2025 6 1 0) (Datetime 2025 6 3 0)
           ExamplesX.page_load_timeout eq_refl eq_refl (λ H, eq_refl)
           eq_refl eq_refl eq_refl eq_refl eq_refl eq_refl eq_refl).
Defined.

Lemma normalized_url_shape_witness :
  "https://www.netflix.com/title/80057281" ≠ "" ∧
  ∃ host,
    LinkGenerator.normalize_website_url
      "https://www.netflix.com/title/80057281" = "https://" +:+ host
    ∧ contains "/" host = false ∧ contains "?" host = false.
Proof.
  assert (H : "https://www.netflix.com/title/80057281" ≠ "") by discriminate.
  split; [exact H |].
  exact (proj2 (normalized_url_shape
                  "https://www.netflix.com/title/80057281") H).
Defined.

Lemma normalized_url_of_host_witness :
  LinkGenerator.normalize_website_url
    ("https://" +:+ "www." +:+ "tvinsider.com" +:+ "/shows/calendar/")
  = LinkGenerator.normalize_website_url "tvinsider.com".
Proof.
  exact (normalized_url_of_host "https://" "www." "tvinsider.com"
           "/shows/calendar/"
           (or_intror (or_intror (or_introl eq_refl)))
           (or_intror (or_introl eq_refl))
           ltac:(discriminate) eq_refl eq_refl eq_refl eq_refl
           (or_intror (or_introl eq_refl))).
Defined.

Lemma endpoint_guards_scraper_witness :
  (App.scrape_content ExamplesX.value_error_str Examples.cfg Examples.world
     ExamplesX.request None ∅ (State None [])).2 ≠ State None [] ∧
  ∃ start end_,
    strptime (get ExamplesX.request "start_date" "") "%Y-%m-%d" = Some start
    ∧ strptime (get ExamplesX.request "end_date" "") "%Y-%m-%d" = Some end_
    ∧ 0 <= toordinal end_ - toordinal start <= 30.
Proof.
  assert (H : (App.scrape_content ExamplesX.value_error_str Examples.cfg
                 Examples.world ExamplesX.request None ∅ (State None [])).2
              ≠ State None []).
  { intros H. vm_compute in H. discriminate H. }
  split; [exact H |].
  exact (endpoint_guards_scraper ExamplesX.value_error_str Examples.cfg
           Examples.world ExamplesX.request None ∅ (State None []) H).
Defined.

Lemma endpoint_answers_witness :
  (App.scrape_content ExamplesX.value_error_str Examples.cfg Examples.world
     ExamplesX.request None ∅ (State None [])).1
  = Returns (App.Response 200 (App.SuccessBody 1 ExamplesX.answered),
             ExamplesX.stored) ∧
  ∃ start end_ records,
    strptime (get ExamplesX.request "start_date" "") "%Y-%m-%d" = Some start
    ∧ strptime (get ExamplesX.request "end_date" "") "%Y-%m-%d" = Some end_
    ∧ 0 <= toordinal end_ - toordinal start <= 30
    ∧ Scraper.scrape_date_range Examples.cfg Examples.world
        (get ExamplesX.request "start_date" "")
        (get ExamplesX.request "end_date" "") (State None [])
      = (Returns records,
         (App.scrape_content ExamplesX.value_error_str Examples.cfg
            Examples.world ExamplesX.request None ∅ (State None [])).2)
    ∧ App.SuccessBody 1 ExamplesX.answered
      = App.SuccessBody (length records) (App.add_website_url <$> records)
    ∧ ExamplesX.stored
      = <[default "default" None :=
            App.Session (App.add_website_url <$> records)
              (get ExamplesX.request "start_date" "",
               get ExamplesX.request "end_date" "")]> ∅.
Proof.
  assert (H : (App.scrape_content ExamplesX.value_error_str Examples.cfg
                 Examples.world ExamplesX.request None ∅ (State None [])).1
              = Returns (App.Response 200
                           (App.SuccessBody 1 ExamplesX.answered),
                         ExamplesX.stored))
    by (vm_compute; reflexivity).
  split; [exact H |].
  exact (proj1 (proj2 (proj1 (proj2
           (endpoint_answers ExamplesX.value_error_str Examples.cfg
              Examples.world ExamplesX.request None ∅ (State None [])))
           _ _ H)) eq_refl).
Defined.

Lemma timeout_answer_only_for_dates_witness :
  (App.scrape_content ExamplesX.value_error_str Examples.cfg Examples.world
     ExamplesX.bad_request None ∅ (State None [])).1
  = Returns (App.Response 504 App.TimeoutBody, ∅) ∧
  (strptime (get ExamplesX.bad_request "start_date" "") "%Y-%m-%d" = None
   ∨ strptime (get ExamplesX.bad_request "end_date" "") "%Y-%m-%d" = None)
  ∧ (App.scrape_content ExamplesX.value_error_str Examples.cfg Examples.world
       ExamplesX.bad_request None ∅ (State None [])).2
    = State None [].
Proof.
  assert (H : (App.scrape_content ExamplesX.value_error_str Examples.cfg
                 Examples.world ExamplesX.bad_request None ∅
                 (State None [])).1
              = Returns (App.Response 504 App.TimeoutBody, ∅))
    by (vm_compute; reflexivity).
  split; [exact H |].
  exact (timeout_answer_only_for_dates ExamplesX.value_error_str Examples.cfg
           Examples.world ExamplesX.bad_request None ∅ (State None [])
           _ _ H eq_refl).
Defined.

Lemma answered_records_have_urls_witness :
  (App.scrape_content ExamplesX.value_error_str Examples.cfg Examples.world
     ExamplesX.request None ∅ (State None [])).1
  = Returns (App.Response 200 (App.SuccessBody 1 ExamplesX.answered),
             ExamplesX.stored) ∧
  ∃ records,
    Scraper.scrape_date_range Examples.cfg Examples.world
      (get ExamplesX.request "start_date" "")
      (get ExamplesX.request "end_date" "") (State None [])
    = (Returns records,
       (App.scrape_content ExamplesX.value_error_str Examples.cfg
          Examples.world ExamplesX.request None ∅ (State None [])).2)
    ∧ Forall2
        (λ record item,
           (∀ key, key ≠ "website_url" → item !! key = record !! key)
           ∧ ∃ website url,
               item !! "website" = Some website
               ∧ item !! "website_url" = Some url
               ∧ (website = "" ∧ url = "#"
                  ∨ website ≠ ""
                    ∧ ∃ host, url = "https://" +:+ host
                              ∧ contains "/" host = false
                              ∧ contains "?" host = false))
        records ExamplesX.answered.
Proof.
  assert (H : (App.scrape_content ExamplesX.value_error_str Examples.cfg
                 Examples.world ExamplesX.request None ∅ (State None [])).1
              = Returns (App.Response 200
                           (App.SuccessBody 1 ExamplesX.answered),
                         ExamplesX.stored))
    by (vm_compute; reflexivity).
  split; [exact H |].
  exact (answered_records_have_urls ExamplesX.value_error_str Examples.cfg
           Examples.world ExamplesX.request None ∅ (State None [])
           _ _ _ _ H).
Defined.

Lemma launch_failure_answer_witness :
  (∃ message,
     (App.scrape_content ExamplesX.value_error_str Examples.cfg
        ExamplesX.no_binary ExamplesX.request None ∅ (State None [])).1
     = Returns (App.Response 500 (App.ErrorBody message), ∅)
     ∧ (message = "Connection Error: Unable to reach TVInsider.com. Please check your internet connection and try again."
        ∨ message = "Chrome Browser Error: Please ensure Google Chrome is installed on your system. If the issue persists, try setting HEADLESS_BROWSER=false in your .env file."))
  ∧ ¬ In EvQuit
        (drop (length (trace (State None [])))
           (trace (App.scrape_content ExamplesX.value_error_str Examples.cfg
                     ExamplesX.no_binary ExamplesX.request None ∅
                     (State None [])).2)).
Proof.
  assert (Hk : SpecX.launch_failures_known ExamplesX.no_binary).
  { intros o [<- | [<- | [<- | [<- | []]]]] e; intros [=]. }
  exact (launch_failure_answer ExamplesX.value_error_str Examples.cfg
           ExamplesX.no_binary ExamplesX.request None ∅ (State None [])
           (Datetime 2025 6 1 0) (Datetime 2025 6 3 0)
           (Exn ExceptionC
              ("ChromeDriver not found at " +:+ Scraper.chrome_driver_path +:+
               ". Please ensure chromedriver.exe is in the chromedriver-win64 folder."))
           eq_refl eq_refl
           ltac:(vm_compute; split; discriminate)
           ltac:(intros e'; intros [=]) Hk eq_refl).
Defined.

Lemma sanitize_html_escapes_witness :
  In "<"%char ["<"; ">"; ascii_of_N 34; "'"]%char ∧
  contains "<" (Validators.sanitize_html "<b>Tom & Jerry's</b>") = false.
Proof.
  assert (H : In "<"%char ["<"; ">"; ascii_of_N 34; "'"]%char) by (by left).
  split; [exact H |].
  exact (proj1 (sanitize_html_escapes "<b>Tom & Jerry's</b>") "<"%char H).
Defined.

Lemma clean_scraped_data_valid_witness :
  Forall2
    (λ item cleaned,
       (∀ key, key ≠ "name" → key ≠ "description" →
               cleaned !! key = item !! key)
       ∧ Validators.validate_scraped_item cleaned = true
       ∧ ∀ field text x,
           In field ["name"; "description"] →
           cleaned !! field = Some text →
           In x ["<"; ">"; ascii_of_N 34; "'"]%char →
           contains (String x "") text = false)
    (List.filter Validators.validate_scraped_item
       (Examples.undated :: Examples.emitted))
    (Validators.clean_scraped_data (Examples.undated :: Examples.emitted)).
Proof.
  exact (clean_scraped_data_valid (Examples.undated :: Examples.emitted)).
Defined.

Lemma validate_date_range_accepts_witness :
  Validators.validate_date_range (Datetime 2025 5 20 0) "2025-06-01"
    "2025-06-03" = Some (true, "Valid date range") ∧
  ∃ start end_,
    strptime "2025-06-01" "%Y-%m-%d" = Some start
    ∧ strptime "2025-06-03" "%Y-%m-%d" = Some end_
    ∧ 0 <= toordinal end_ - toordinal start <= 30
    ∧ toordinal end_ <= toordinal (Datetime 2025 5 20 0) + 90.
Proof.
  assert (H : Validators.validate_date_range (Datetime 2025 5 20 0)
                "2025-06-01" "2025-06-03" = Some (true, "Valid date range"))
    by (vm_compute; reflexivity).
  split; [exact H |].
  exact (proj1 (validate_date_range_accepts ExamplesX.value_error_str
                  (Datetime 2025 5 20 0) "2025-06-01" "2025-06-03"
                  "Valid date range"
                  ltac:(unfold us_per_day; cbn; lia) H)).
Defined.

Lemma calls_of_a_scrape_witness :
  Scraper.scrape_date_range Examples.cfg Examples.world "2025-06-01"
    "2025-06-03" (State None [])
  = (Returns Examples.emitted, Examples.final_state) ∧
  ∃ k, (1 <= k <= 10)%nat
       ∧ Examples.final_state
         = State (Some Driver)
             (trace (State None []) ++ [EvRequest; EvChrome]
              ++ (if Scraper.headless Examples.cfg then []
                  else [EvConfigure])
              ++ [EvConfigure; EvConfigure; EvGet]
              ++ concat (replicate k Spec.iteration)
              ++ [EvExtract; EvQuit]).
Proof.
  assert (H : Scraper.scrape_date_range Examples.cfg Examples.world
                "2025-06-01" "2025-06-03" (State None [])
              = (Returns Examples.emitted, Examples.final_state))
    by (vm_compute; reflexivity).
  split; [exact H |].
  exact (proj1 calls_of_a_scrape _ _ _ _ _ _ _ H).
Defined.

Lemma probe_failure_answer_witness :
  App.scrape_content ExamplesX.value_error_str Examples.cfg ExamplesX.offline
    ExamplesX.request None ∅ (State None [])
  = (Returns
       (App.Response 500
          (App.ErrorBody
             "Connection Error: Unable to reach TVInsider.com. Please check your internet connection and try again."),
        ∅),
     State None [EvRequest]).
Proof.
  exact (probe_failure_answer ExamplesX.value_error_str Examples.cfg
           ExamplesX.offline ExamplesX.request None ∅ (State None [])
           (Datetime 2025 6 1 0) (Datetime 2025 6 3 0)
           (Exn ConnectionErrorC "Max retries exceeded")
           eq_refl eq_refl ltac:(vm_compute; split; discriminate)
           eq_refl eq_refl).
Defined.

Lemma page_load_timeout_answer_witness :
  (App.scrape_content ExamplesX.value_error_str Examples.cfg
     ExamplesX.slow_page ExamplesX.request None ∅ (State None [])).1
  = Returns
      (App.Response 500
         (App.ErrorBody
            "Scraping failed: Website timeout: The TVInsider website is not responding. Please try again later."),
       ∅).
Proof.
  exact (page_load_timeout_answer ExamplesX.value_error_str Examples.cfg
           ExamplesX.slow_page ExamplesX.request None ∅ (State None [])
           (Datetime 2025 6 1 0) (Datetime 2025 6 3 0)
           ExamplesX.page_load_timeout
           eq_refl eq_refl ltac:(vm_compute; split; discriminate)
           ltac:(intros e'; intros [=])
           eq_refl eq_refl (λ H, eq_refl) eq_refl eq_refl eq_refl eq_refl
           eq_refl eq_refl).
Defined.
